(** * Posture, body-composition and progress services of the fitness backend

    A shallow embedding of [ai_analysis/services.py], of the posture view of
    [ai_analysis/views.py] and of the model properties they read
    ([ai_analysis/models.py], [accounts/models.py]).

    Numbers: a Python [float] is modelled in two ways.  The geometry, the
    ranges, the orderings and the structure of the results are stated over
    real numbers: [+ - * /] are exact, [round(x, n)] and [round(x)] round to
    the nearest multiple of [10^-n] with ties going to the even multiple, as
    the language reference states, and [math.atan2] and [math.degrees] are
    the usual real functions.  The values of the posture score, of the
    visceral fat level and of the progress score are stated over binary64
    numbers (module [Binary64]), with the IEEE 754 operations that Python
    performs: a sum of doubles that falls next to a rounding tie is rounded
    the other way than the exact sum.
    Dictionaries with a fixed vocabulary of keys are records of optional
    fields: an absent key is [None]. *)

From Stdlib Require Import Reals Lra Lia ZArith List String Ascii Bool.
From Stdlib Require Import DecimalString.
From Stdlib Require PrimFloat SpecFloat FloatOps FloatAxioms.
Import ListNotations.
Open Scope R_scope.
Set Warnings "-inexact-float".

(** ** Python numerics *)

Module Py.

(** [round(x)] on a float: nearest integer, ties to even. *)
Definition round_half_even (v : R) : Z :=
  let n := Int_part v in
  let f := v - IZR n in
  if Rlt_dec f (1 / 2) then n
  else if Rlt_dec (1 / 2) f then (n + 1)%Z
  else if Z.even n then n else (n + 1)%Z.

(** [round(x, ndigits)]. *)
Definition round (v : R) (ndigits : nat) : R :=
  IZR (round_half_even (v * 10 ^ ndigits)) / 10 ^ ndigits.

(** [math.atan2(y, x)]: the angle of the point [(x, y)], in (-pi, pi]. *)
Definition atan2 (b a : R) : R :=
  if Rlt_dec 0 a then atan (b / a)
  else if Rlt_dec a 0 then
    if Rle_dec 0 b then atan (b / a) + PI else atan (b / a) - PI
  else if Rlt_dec 0 b then PI / 2
  else if Rlt_dec b 0 then - (PI / 2)
  else 0.

(** [math.degrees(r)]. *)
Definition degrees (r : R) : R := r * (180 / PI).

(** Truth value of an optional float: [None] and [0.0] are falsy. *)
Definition truthy (o : option R) : bool :=
  match o with
  | Some v => if Req_dec_T v 0 then false else true
  | None => false
  end.

(** [a > b] and [a < b] as booleans. *)
Definition gt (a b : R) : bool := if Rlt_dec b a then true else false.
Definition lt (a b : R) : bool := if Rlt_dec a b then true else false.

(** [d.get(key, default)] on an optional field. *)
Definition get {A : Type} (o : option A) (default : A) : A :=
  match o with Some v => v | None => default end.

(** [o1] updated by [o2]: the field of [d1.update(d2)]. *)
Definition upd {A : Type} (o1 o2 : option A) : option A :=
  match o2 with Some v => Some v | None => o1 end.

(** The format specification [:.1f]: one digit after the point. *)
Definition format_1f (v : R) : string :=
  let n := round_half_even (v * 10) in
  let a := Z.abs n in
  ((if (n <? 0)%Z then "-" else "") ++
   NilZero.string_of_uint (N.to_uint (Z.to_N (a / 10))) ++ "." ++
   NilZero.string_of_uint (N.to_uint (Z.to_N (a mod 10))))%string.


(** [int(x)] on a float: truncation towards zero. *)
Definition int (v : R) : Z :=
  if Rle_dec 0 v then Int_part v else (- Int_part (- v))%Z.

End Py.

(** ** Data model *)

(** A landmark as the pose estimator returns it: normalised coordinates. *)
Module MediaPipe.
Record landmark := Landmark { x : R; y : R; z : R; visibility : R }.
End MediaPipe.

(** The anatomical vocabulary of [_extract_keypoints]. *)
Inductive point_name :=
| nose | left_eye | right_eye | left_ear | right_ear
| left_shoulder | right_shoulder | left_elbow | right_elbow
| left_wrist | right_wrist | left_hip | right_hip
| left_knee | right_knee | left_ankle | right_ankle
| left_heel | right_heel | left_foot | right_foot.

(** The value stored under a name of the keypoint dictionary. *)
Module Keypoint.
Record t := Make {
  x : R; y : R; z : R; visibility : R; x_norm : R; y_norm : R }.
End Keypoint.

(** The keypoint dictionary: a name is present or not. *)
Definition KeypointDict := point_name -> option Keypoint.t.

(** The dictionary that the posture analysis builds up. *)
Module Analysis.
Record t := Make {
  shoulder_slope_degrees : option R;
  shoulder_height_difference : option R;
  has_shoulder_imbalance : option bool;
  shoulder_confidence : option R;
  head_tilt_degrees : option R;
  head_offset_x : option R;
  head_offset_y : option R;
  forward_head_posture : option bool;
  head_confidence : option R;
  hip_slope_degrees : option R;
  hip_height_difference : option R;
  has_hip_imbalance : option bool;
  hip_confidence : option R;
  knee_valgus_angle : option R;
  has_knee_valgus : option bool;
  knee_distance : option R;
  ankle_distance : option R;
  knee_confidence : option R;
  posture_score : option R;
  recommendations : option (list string);
  keypoints : option KeypointDict;
  image_dimensions : option (Z * Z);
  confidence : option R }.

(** The empty dictionary [{}]. *)
Definition empty : t :=
  Make None None None None None None None None None None None None
       None None None None None None None None None None None.

(** [d1.update(d2)]. *)
Definition update (d1 d2 : t) : t :=
  Make (Py.upd (shoulder_slope_degrees d1) (shoulder_slope_degrees d2))
       (Py.upd (shoulder_height_difference d1) (shoulder_height_difference d2))
       (Py.upd (has_shoulder_imbalance d1) (has_shoulder_imbalance d2))
       (Py.upd (shoulder_confidence d1) (shoulder_confidence d2))
       (Py.upd (head_tilt_degrees d1) (head_tilt_degrees d2))
       (Py.upd (head_offset_x d1) (head_offset_x d2))
       (Py.upd (head_offset_y d1) (head_offset_y d2))
       (Py.upd (forward_head_posture d1) (forward_head_posture d2))
       (Py.upd (head_confidence d1) (head_confidence d2))
       (Py.upd (hip_slope_degrees d1) (hip_slope_degrees d2))
       (Py.upd (hip_height_difference d1) (hip_height_difference d2))
       (Py.upd (has_hip_imbalance d1) (has_hip_imbalance d2))
       (Py.upd (hip_confidence d1) (hip_confidence d2))
       (Py.upd (knee_valgus_angle d1) (knee_valgus_angle d2))
       (Py.upd (has_knee_valgus d1) (has_knee_valgus d2))
       (Py.upd (knee_distance d1) (knee_distance d2))
       (Py.upd (ankle_distance d1) (ankle_distance d2))
       (Py.upd (knee_confidence d1) (knee_confidence d2))
       (Py.upd (posture_score d1) (posture_score d2))
       (Py.upd (recommendations d1) (recommendations d2))
       (Py.upd (keypoints d1) (keypoints d2))
       (Py.upd (image_dimensions d1) (image_dimensions d2))
       (Py.upd (confidence d1) (confidence d2)).

(** The dictionary literals of the four sub-analyses. *)
Definition of_shoulders (slope diff : R) (imbalance : bool) (conf : R) : t :=
  Make (Some slope) (Some diff) (Some imbalance) (Some conf)
       None None None None None None None None None
       None None None None None None None None None None.

Definition of_head (tilt off_x off_y : R) (forward : bool) (conf : R) : t :=
  Make None None None None
       (Some tilt) (Some off_x) (Some off_y) (Some forward) (Some conf)
       None None None None None None None None None None None None None None.

Definition of_hips (slope diff : R) (imbalance : bool) (conf : R) : t :=
  Make None None None None None None None None None
       (Some slope) (Some diff) (Some imbalance) (Some conf)
       None None None None None None None None None None.

Definition of_knees (valgus : R) (has_valgus : bool) (knee_d ankle_d conf : R) : t :=
  Make None None None None None None None None None None None None None
       (Some valgus) (Some has_valgus) (Some knee_d) (Some ankle_d) (Some conf)
       None None None None None.

(** Assignments [d[key] = v] to the remaining keys. *)
Definition set_posture_score (v : R) (d : t) : t :=
  update d (Make None None None None None None None None None None None None
                 None None None None None None (Some v) None None None None).

Definition set_recommendations (v : list string) (d : t) : t :=
  update d (Make None None None None None None None None None None None None
                 None None None None None None None (Some v) None None None).

Definition set_keypoints (v : KeypointDict) (d : t) : t :=
  update d (Make None None None None None None None None None None None None
                 None None None None None None None None (Some v) None None).

Definition set_image_dimensions (v : Z * Z) (d : t) : t :=
  update d (Make None None None None None None None None None None None None
                 None None None None None None None None None (Some v) None).

Definition set_confidence (v : R) (d : t) : t :=
  update d (Make None None None None None None None None None None None None
                 None None None None None None None None None None (Some v)).
End Analysis.

(** What [analyze_posture_from_image] returns: a dictionary with the key
    ['error'], or an analysis. *)
Inductive result :=
| Error (msg : string)
| Ok (analysis : Analysis.t).

(** A decoded image with what the pose estimator finds in it:
    [results.pose_landmarks] is [None] when no pose is detected. *)
Record Image := {
  height : Z;
  width : Z;
  pose_landmarks : option (list MediaPipe.landmark) }.

(** ** [PostureAnalysisService] *)

Module PostureAnalysisService.

(** The index table [key_points] of [_extract_keypoints]. *)
Definition key_points (name : point_name) : nat :=
  match name with
  | nose => 0 | left_eye => 1 | right_eye => 2
  | left_ear => 7 | right_ear => 8
  | left_shoulder => 11 | right_shoulder => 12
  | left_elbow => 13 | right_elbow => 14
  | left_wrist => 15 | right_wrist => 16
  | left_hip => 23 | right_hip => 24
  | left_knee => 25 | right_knee => 26
  | left_ankle => 27 | right_ankle => 28
  | left_heel => 29 | right_heel => 30
  | left_foot => 31 | right_foot => 32
  end%nat.

(** A name is kept when its index is below [len(landmarks)]. *)
Definition _extract_keypoints (landmarks : list MediaPipe.landmark)
    (width height : Z) : KeypointDict :=
  fun name =>
    match nth_error landmarks (key_points name) with
    | Some landmark =>
        Some (Keypoint.Make (MediaPipe.x landmark * IZR width)
                            (MediaPipe.y landmark * IZR height)
                            (MediaPipe.z landmark)
                            (MediaPipe.visibility landmark)
                            (MediaPipe.x landmark)
                            (MediaPipe.y landmark))
    | None => None
    end.

Definition _analyze_shoulders (keypoints : KeypointDict) : Analysis.t :=
  match keypoints left_shoulder, keypoints right_shoulder with
  | Some l_shoulder, Some r_shoulder =>
      let height_diff := Keypoint.y l_shoulder - Keypoint.y r_shoulder in
      let dx := Keypoint.x r_shoulder - Keypoint.x l_shoulder in
      let dy := Keypoint.y r_shoulder - Keypoint.y l_shoulder in
      let shoulder_slope_degrees :=
        if Req_dec_T dx 0 then 0 else Py.degrees (Py.atan2 dy dx) in
      let shoulder_imbalance := Py.gt (Rabs height_diff) 10 in
      Analysis.of_shoulders
        (Py.round shoulder_slope_degrees 2)
        (Py.round height_diff 1)
        shoulder_imbalance
        (Rmin (Keypoint.visibility l_shoulder) (Keypoint.visibility r_shoulder))
  | _, _ => Analysis.empty
  end.

Definition _analyze_head_position (keypoints : KeypointDict) : Analysis.t :=
  match keypoints nose, keypoints left_shoulder, keypoints right_shoulder with
  | Some nose_pt, Some l_shoulder, Some r_shoulder =>
      let shoulder_center_x := (Keypoint.x l_shoulder + Keypoint.x r_shoulder) / 2 in
      let shoulder_center_y := (Keypoint.y l_shoulder + Keypoint.y r_shoulder) / 2 in
      let head_offset_x := Keypoint.x nose_pt - shoulder_center_x in
      let head_offset_y := Keypoint.y nose_pt - shoulder_center_y in
      let head_tilt_degrees :=
        if Req_dec_T head_offset_y 0 then 0
        else Py.degrees (Py.atan2 head_offset_x (Rabs head_offset_y)) in
      Analysis.of_head
        (Py.round head_tilt_degrees 2)
        (Py.round head_offset_x 1)
        (Py.round head_offset_y 1)
        (Py.gt (Rabs head_offset_x) 15)
        (Keypoint.visibility nose_pt)
  | _, _, _ => Analysis.empty
  end.

Definition _analyze_hips (keypoints : KeypointDict) : Analysis.t :=
  match keypoints left_hip, keypoints right_hip with
  | Some l_hip, Some r_hip =>
      let height_diff := Keypoint.y l_hip - Keypoint.y r_hip in
      let dx := Keypoint.x r_hip - Keypoint.x l_hip in
      let dy := Keypoint.y r_hip - Keypoint.y l_hip in
      let hip_slope_degrees :=
        if Req_dec_T dx 0 then 0 else Py.degrees (Py.atan2 dy dx) in
      Analysis.of_hips
        (Py.round hip_slope_degrees 2)
        (Py.round height_diff 1)
        (Py.gt (Rabs height_diff) 8)
        (Rmin (Keypoint.visibility l_hip) (Keypoint.visibility r_hip))
  | _, _ => Analysis.empty
  end.

Definition _analyze_knees (keypoints : KeypointDict) : Analysis.t :=
  match keypoints left_knee, keypoints right_knee,
        keypoints left_ankle, keypoints right_ankle,
        keypoints left_hip, keypoints right_hip with
  | Some l_knee, Some r_knee, Some l_ankle, Some r_ankle, Some l_hip, Some r_hip =>
      let knee_distance := Rabs (Keypoint.x l_knee - Keypoint.x r_knee) in
      let ankle_distance := Rabs (Keypoint.x l_ankle - Keypoint.x r_ankle) in
      let hip_distance := Rabs (Keypoint.x l_hip - Keypoint.x r_hip) in
      let valgus_indicator :=
        if Py.gt ankle_distance 0 && Py.gt hip_distance 0 then
          let knee_ratio := knee_distance / ankle_distance in
          if Py.lt knee_ratio 1 then (1 - knee_ratio) * 100 else 0
        else 0 in
      Analysis.of_knees
        (Py.round (Rmax 0 valgus_indicator) 2)
        (Py.gt valgus_indicator 15)
        (Py.round knee_distance 1)
        (Py.round ankle_distance 1)
        (Rmin (Keypoint.visibility l_knee) (Keypoint.visibility r_knee))
  | _, _, _, _, _, _ => Analysis.empty
  end.

Definition _calculate_posture_score (metrics : Analysis.t) : R :=
  let score := 10 in
  let score :=
    match Analysis.shoulder_slope_degrees metrics with
    | Some v => score - Rmin (Rabs v / 5) 2.5
    | None => score
    end in
  let score :=
    match Analysis.hip_slope_degrees metrics with
    | Some v => score - Rmin (Rabs v / 5) 2.0
    | None => score
    end in
  let score :=
    match Analysis.head_tilt_degrees metrics with
    | Some v => score - Rmin (Rabs v / 10) 1.5
    | None => score
    end in
  let score :=
    match Analysis.knee_valgus_angle metrics with
    | Some v => score - Rmin (v / 20) 1.5
    | None => score
    end in
  let score :=
    if Py.get (Analysis.has_shoulder_imbalance metrics) false
    then score - 1.0 else score in
  let score :=
    if Py.get (Analysis.has_hip_imbalance metrics) false
    then score - 1.0 else score in
  let score :=
    if Py.get (Analysis.forward_head_posture metrics) false
    then score - 1.0 else score in
  Rmax 1.0 (Py.round score 1).

(** The mean visibility of the key landmarks that exist. *)
Definition _calculate_overall_confidence (landmarks : list MediaPipe.landmark) : R :=
  let key_indices := [0; 11; 12; 23; 24; 25; 26]%nat in
  let confidences :=
    flat_map (fun i => match nth_error landmarks i with
                       | Some landmark => [MediaPipe.visibility landmark]
                       | None => []
                       end) key_indices in
  match confidences with
  | [] => 0.0
  | _ :: _ =>
      Py.round (fold_left Rplus confidences 0 / INR (List.length confidences)) 3
  end.

Definition _generate_recommendations (analysis : Analysis.t) : list string :=
  let recommendations := [] in
  let recommendations :=
    if Py.get (Analysis.has_shoulder_imbalance analysis) false then
      recommendations ++
      [("Shoulder imbalance (" ++
        Py.format_1f (Rabs (Py.get (Analysis.shoulder_slope_degrees analysis) 0)) ++
        "°): " ++
        "Recommended posture correction exercises for shoulders")%string]
    else recommendations in
  let recommendations :=
    if Py.get (Analysis.forward_head_posture analysis) false then
      recommendations ++
      ["Forward head posture: Strengthen neck muscles, check workspace ergonomics"%string]
    else recommendations in
  let recommendations :=
    if Py.get (Analysis.has_hip_imbalance analysis) false then
      recommendations ++
      [("Hip imbalance (" ++
        Py.format_1f (Rabs (Py.get (Analysis.hip_slope_degrees analysis) 0)) ++
        "°): " ++
        "Exercises for pelvic stabilization")%string]
    else recommendations in
  let recommendations :=
    if Py.get (Analysis.has_knee_valgus analysis) false then
      recommendations ++
      [("Possible knee valgus (" ++
        Py.format_1f (Py.get (Analysis.knee_valgus_angle analysis) 0) ++
        "): " ++
        "Consult a doctor and strengthen hip muscles")%string]
    else recommendations in
  match recommendations with
  | [] => ["Posture is within normal range. Continue maintaining an active lifestyle."%string]
  | _ :: _ => recommendations
  end.

Definition _calculate_posture_metrics (keypoints : KeypointDict) : Analysis.t :=
  let analysis := Analysis.empty in
  let analysis := Analysis.update analysis (_analyze_shoulders keypoints) in
  let analysis := Analysis.update analysis (_analyze_head_position keypoints) in
  let analysis := Analysis.update analysis (_analyze_hips keypoints) in
  let analysis := Analysis.update analysis (_analyze_knees keypoints) in
  let analysis :=
    Analysis.set_posture_score (_calculate_posture_score analysis) analysis in
  let analysis :=
    Analysis.set_recommendations (_generate_recommendations analysis) analysis in
  analysis.

(** [image] is what [cv2.imread] gives for the path: [None] when the file
    cannot be loaded. *)
Definition analyze_posture_from_image (image : option Image) : result :=
  match image with
  | None => Error "Failed to load image"
  | Some image_rgb =>
      match pose_landmarks image_rgb with
      | None => Error "No pose detected in image"
      | Some landmarks =>
          let keypoints :=
            _extract_keypoints landmarks (width image_rgb) (height image_rgb) in
          let analysis := _calculate_posture_metrics keypoints in
          let analysis := Analysis.set_keypoints keypoints analysis in
          let analysis :=
            Analysis.set_image_dimensions (width image_rgb, height image_rgb) analysis in
          let analysis :=
            Analysis.set_confidence (_calculate_overall_confidence landmarks) analysis in
          Ok analysis
      end
  end.

End PostureAnalysisService.

(** ** The models that the services read *)

Module Accounts.

Inductive Gender := M | F.

Record UserProfile := {
  age : option nat;
  gender : option Gender;
  height : option R;
  current_weight : option R }.

(** The property [UserProfile.bmi]. *)
Definition bmi (self : UserProfile) : R :=
  if negb (Py.truthy (height self)) || negb (Py.truthy (current_weight self))
  then 0
  else
    let height_m := Py.get (height self) 0 / 100 in
    Py.round (Py.get (current_weight self) 0 / height_m ^ 2) 1.

Record BodyMeasurements := {
  waist : option R;
  hips : option R }.

(** The property [BodyMeasurements.whr]. *)
Definition whr (self : BodyMeasurements) : option R :=
  if Py.truthy (waist self) && Py.truthy (hips self)
  then Some (Py.round (Py.get (waist self) 0 / Py.get (hips self) 0) 3)
  else None.

Definition gender_is_M (g : option Gender) : bool :=
  match g with Some M => true | _ => false end.


(** The two fields of [UserProfile] that the workout plans read. *)
Record TrainingProfile := {
  activity_level : R;
  goal : string }.

End Accounts.

Module Models.

(** The fields of [AIRecommendation] that the code sets, which are also the
    keys of the dictionaries of [RecommendationEngine]. *)
Record Recommendation := {
  category : string;
  priority : string;
  title : string;
  description : string;
  action_steps : list string }.

Record PostureAnalysis := {
  shoulder_slope_degrees : option R;
  hip_slope_degrees : option R;
  knee_valgus_angle : option R;
  head_tilt_degrees : option R;
  front_keypoints : KeypointDict;
  back_keypoints : KeypointDict;
  posture_score : option R }.

(** [x and abs(x) > t], read as a condition. *)
Definition and_abs_gt (v : option R) (t : R) : bool :=
  match v with
  | Some s => if Req_dec_T s 0 then false else Py.gt (Rabs s) t
  | None => false
  end.

Definition has_shoulder_imbalance (self : PostureAnalysis) : bool :=
  and_abs_gt (shoulder_slope_degrees self) 4.

Definition has_hip_imbalance (self : PostureAnalysis) : bool :=
  and_abs_gt (hip_slope_degrees self) 4.

Definition has_knee_valgus (self : PostureAnalysis) : bool :=
  match knee_valgus_angle self with
  | Some s => if Req_dec_T s 0 then false else Py.gt s 10
  | None => false
  end.

(** [PostureAnalysis.objects.create(...)]: every result field is null, the
    keypoint fields are the empty dictionary. *)
Definition create : PostureAnalysis :=
  {| shoulder_slope_degrees := None; hip_slope_degrees := None;
     knee_valgus_angle := None; head_tilt_degrees := None;
     front_keypoints := fun _ => None; back_keypoints := fun _ => None;
     posture_score := None |}.

End Models.

(** ** [BodyCompositionService] *)

Module BodyComposition.
Record t := Make {
  estimated_body_fat : option R;
  estimated_muscle_mass : option R;
  visceral_fat_level : option Z;
  body_shape_type : option string;
  photo_analysis_completed : option bool;
  photo_quality_score : option R }.

Definition empty : t := Make None None None None None None.

Definition update (d1 d2 : t) : t :=
  Make (Py.upd (estimated_body_fat d1) (estimated_body_fat d2))
       (Py.upd (estimated_muscle_mass d1) (estimated_muscle_mass d2))
       (Py.upd (visceral_fat_level d1) (visceral_fat_level d2))
       (Py.upd (body_shape_type d1) (body_shape_type d2))
       (Py.upd (photo_analysis_completed d1) (photo_analysis_completed d2))
       (Py.upd (photo_quality_score d1) (photo_quality_score d2)).
End BodyComposition.

Module BodyCompositionService.
Import Accounts.

Definition _analyze_measurements (measurements : BodyMeasurements)
    (user_profile : option UserProfile) : BodyComposition.t :=
  let analysis := BodyComposition.empty in
  if Py.truthy (whr measurements) then
    let w := Py.get (whr measurements) 0 in
    let visceral_fat :=
      if match user_profile with
         | Some p => gender_is_M (gender p)
         | None => false
         end
      then
        if Py.gt w 1.0 then Rmin 30 (15 + (w - 1.0) * 20)
        else Rmax 1 (w * 12)
      else
        if Py.gt w 0.85 then Rmin 30 (10 + (w - 0.85) * 25)
        else Rmax 1 (w * 10) in
    let body_shape_type :=
      if Py.gt w 0.85 then "apple"%string
      else if Py.lt w 0.75 then "pear"%string
      else "rectangle"%string in
    BodyComposition.update analysis
      (BodyComposition.Make None None
         (Some (Py.round_half_even visceral_fat)) (Some body_shape_type)
         None None)
  else analysis.

Definition _analyze_body_photo (photo_path : string) : BodyComposition.t :=
  BodyComposition.Make None None None None (Some true) (Some 8.5).

Definition estimate_body_composition (user_profile : option UserProfile)
    (measurements : option BodyMeasurements) (photo_path : option string)
    : BodyComposition.t :=
  let analysis := BodyComposition.empty in
  let analysis :=
    match user_profile with
    | Some p =>
        let bmi := bmi p in
        let age :=
          match age p with
          | Some (S a) => S a
          | _ => 25%nat
          end in
        let body_fat :=
          if gender_is_M (gender p)
          then 1.20 * bmi + 0.23 * INR age - 16.2
          else 1.20 * bmi + 0.23 * INR age - 5.4 in
        let estimated_body_fat := Rmax 5 (Rmin 50 (Py.round body_fat 1)) in
        let muscle_mass := 100 - estimated_body_fat in
        BodyComposition.update analysis
          (BodyComposition.Make (Some estimated_body_fat)
             (Some (Py.round (muscle_mass * 0.45) 1)) None None None None)
    | None => analysis
    end in
  let analysis :=
    match measurements with
    | Some m => BodyComposition.update analysis (_analyze_measurements m user_profile)
    | None => analysis
    end in
  let analysis :=
    match photo_path with
    | Some (String c s) =>
        BodyComposition.update analysis (_analyze_body_photo (String c s))
    | _ => analysis
    end in
  analysis.

End BodyCompositionService.

(** ** Workout plans *)

(** An exercise dictionary; [reps] is a text in the plans and a number in
    the corrective exercises. *)
Module Exercise.
Inductive reps_value :=
| Text (s : string)
| Count (n : Z).

Record t := Make {
  name : string;
  sets : option Z;
  reps : option reps_value;
  duration : option string;
  work : option string;
  rest : option string }.
End Exercise.

(** A day of the weekly schedule. *)
Module Day.
Record t := Make {
  day : string;
  type : option string;
  exercises : list Exercise.t }.
End Day.

(** A plan dictionary. *)
Module Plan.
Record t := Make {
  name : string;
  description : string;
  workout_type : string;
  difficulty : string;
  duration_minutes : Z;
  weekly_schedule : option (list Day.t);
  exercises : option (list Exercise.t);
  corrective_warmup : option (list Exercise.t) }.
End Plan.

(** ** [RecommendationEngine] *)

Module RecommendationEngine.
Import Models.

Definition dquote : string := String "034" EmptyString.

Definition generate_posture_recommendations (posture_analysis : PostureAnalysis)
    : list Recommendation :=
  let recommendations := [] in
  let recommendations :=
    if has_shoulder_imbalance posture_analysis then
      recommendations ++
      [{| category := "posture";
          priority := "high";
          title := "Shoulder imbalance correction";
          description :=
            "Detected shoulder tilt of " ++
            Py.format_1f (Rabs (Py.get (shoulder_slope_degrees posture_analysis) 0)) ++
            "°";
          action_steps :=
            [ "Perform " ++ dquote ++ "face pull" ++ dquote ++
                " exercise: 3 sets of 15 repetitions";
              "Chest muscle stretching 2-3 times daily for 30 seconds";
              "Strengthen rear delts and rhomboid muscles";
              "Monitor shoulder position throughout the day" ] |}]%string
    else recommendations in
  let recommendations :=
    if has_hip_imbalance posture_analysis then
      recommendations ++
      [{| category := "posture";
          priority := "medium";
          title := "Pelvic position correction";
          description :=
            "Detected pelvic area imbalance of " ++
            Py.format_1f (Rabs (Py.get (hip_slope_degrees posture_analysis) 0)) ++
            "°";
          action_steps :=
            [ "Side plank on each side: 3 sets of 30-60 seconds";
              "Strengthen gluteus medius";
              "Stretch quadratus lumborum";
              "Check workspace ergonomics" ] |}]%string
    else recommendations in
  let recommendations :=
    if has_knee_valgus posture_analysis then
      recommendations ++
      [{| category := "exercise";
          priority := "high";
          title := "Knee valgus correction";
          description := "Detected tendency for knee inward collapse";
          action_steps :=
            [ "Hip abduction in lying position: 3x15";
              "Squats with knee control";
              "Strengthen outer thigh muscles";
              "IT-band stretching" ] |}]%string
    else recommendations in
  recommendations.


(** The fitness tier of [generate_workout_plan] and of the view. *)
Definition tier (activity_level : R) : string :=
  if Rle_dec activity_level 1.375 then "beginner"
  else if Rle_dec activity_level 1.55 then "intermediate"
  else "advanced".

(** [exercise['sets'] += 1] when the key exists. *)
Definition add_set (exercise : Exercise.t) : Exercise.t :=
  match Exercise.sets exercise with
  | Some n =>
      Exercise.Make (Exercise.name exercise) (Some (n + 1)%Z)
        (Exercise.reps exercise) (Exercise.duration exercise)
        (Exercise.work exercise) (Exercise.rest exercise)
  | None => exercise
  end.

(** The body of the loop over the days of an advanced plan. *)
Definition intensify (d : Day.t) : Day.t :=
  match Day.type d with
  | Some "strength"%string =>
      Day.Make (Day.day d) (Day.type d) (map add_set (Day.exercises d))
  | _ => d
  end.

Definition _create_weight_loss_plan (difficulty : string) : Plan.t :=
  let schedule :=
    [ Day.Make "Monday" (Some "strength")
        [ Exercise.Make "Squats" (Some 3%Z) (Some (Exercise.Text "12-15")) None None None;
          Exercise.Make "Push-ups" (Some 3%Z) (Some (Exercise.Text "10-12")) None None None;
          Exercise.Make "Plank" (Some 3%Z) None (Some "30-60 sec") None None;
          Exercise.Make "Lunges" (Some 3%Z) (Some (Exercise.Text "10 each leg")) None None None ];
      Day.Make "Tuesday" (Some "cardio")
        [ Exercise.Make "Brisk walking" None None (Some "30 min") None None;
          Exercise.Make "Intervals" (Some 8%Z) None None (Some "30 sec") (Some "90 sec") ] ]%string in
  let schedule :=
    if String.eqb difficulty "advanced" then map intensify schedule else schedule in
  Plan.Make "Weight Loss Program" "Combination of strength and cardio exercises"
    "cardio" difficulty 45 (Some schedule) None None.

Definition _create_muscle_gain_plan (difficulty : string) : Plan.t :=
  Plan.Make "Muscle Building Program" "Strength training with progressive overload"
    "strength" difficulty 60
    (Some [ Day.Make "Monday - Chest/Triceps" None
              [ Exercise.Make "Bench Press" (Some 4%Z) (Some (Exercise.Text "8-10")) None None None;
                Exercise.Make "Dips" (Some 3%Z) (Some (Exercise.Text "10-12")) None None None;
                Exercise.Make "Dumbbell Flyes" (Some 3%Z) (Some (Exercise.Text "12-15")) None None None ] ]%string)
    None None.

Definition _create_maintenance_plan (difficulty : string) : Plan.t :=
  Plan.Make "Fitness Maintenance Program" "Balanced workouts for general health"
    "strength" difficulty 40 None None None.

Definition _adapt_for_posture (workout_plan : Plan.t) (posture_analysis : PostureAnalysis)
    : Plan.t :=
  let corrective_exercises := [] in
  let corrective_exercises :=
    if has_shoulder_imbalance posture_analysis then
      corrective_exercises ++
      [ Exercise.Make "Face Pull" (Some 3%Z) (Some (Exercise.Count 15)) None None None;
        Exercise.Make "Chest Stretch" None None (Some "30 sec") None None ]%string
    else corrective_exercises in
  let corrective_exercises :=
    if has_hip_imbalance posture_analysis then
      corrective_exercises ++
      [ Exercise.Make "Side Plank" (Some 3%Z) None (Some "30 sec") None None;
        Exercise.Make "Side-lying leg lifts" (Some 3%Z) (Some (Exercise.Count 12)) None None None ]%string
    else corrective_exercises in
  match corrective_exercises with
  | [] => workout_plan
  | _ :: _ =>
      Plan.Make (Plan.name workout_plan) (Plan.description workout_plan)
        (Plan.workout_type workout_plan) (Plan.difficulty workout_plan)
        (Plan.duration_minutes workout_plan) (Plan.weekly_schedule workout_plan)
        (Plan.exercises workout_plan) (Some corrective_exercises)
  end.

(** [posture_analysis] is [analyses.posture_analysis], [None] when the
    attribute is missing or empty. *)
Definition generate_workout_plan (user_profile : Accounts.TrainingProfile)
    (posture_analysis : option PostureAnalysis) : Plan.t :=
  let difficulty := tier (Accounts.activity_level user_profile) in
  let workout_plan :=
    if String.eqb (Accounts.goal user_profile) "lose" then _create_weight_loss_plan difficulty
    else if String.eqb (Accounts.goal user_profile) "gain" then _create_muscle_gain_plan difficulty
    else _create_maintenance_plan difficulty in
  match posture_analysis with
  | Some analysis => _adapt_for_posture workout_plan analysis
  | None => workout_plan
  end.

End RecommendationEngine.

(** ** [ProgressTrackingService] *)

Module Progress.
(** The dictionary under ['posture_improvement']. *)
Record improvement := {
  posture_score_change : option R;
  shoulder_improvement : option R }.

(** The keys of [progress] that the score reads. *)
Record t := {
  weight_change : option R;
  posture_improvement : option improvement }.
End Progress.

Module ProgressTrackingService.
Import Progress.

Definition _calculate_overall_progress_score (progress : Progress.t) : R :=
  let score := 5.0 in
  let score :=
    match weight_change progress with
    | Some weight_change =>
        if Py.lt weight_change 0
        then score + Rmin (Rabs weight_change * 0.5) 2.5
        else score
    | None => score
    end in
  let score :=
    match posture_improvement progress with
    | Some improvement =>
        let posture_change := Py.get (posture_score_change improvement) 0 in
        score + Rmin (posture_change * 0.5) 2.5
    | None => score
    end in
  Rmin 10.0 (Rmax 1.0 (Py.round score 1)).

End ProgressTrackingService.

(** ** The views: [PostureAnalysisView.post] *)

Module Views.
Import Models.

(** The file of an [ImageField]; [imread] is what [cv2.imread] returns for
    its path. *)
Record FieldFile := { imread : option Image }.

(** An uploaded photograph; [image] is [None] when no file is attached. *)
Record PhotoUpload := { image : option FieldFile }.

(** The view's own state: the analysis row being filled, the
    [AIRecommendation] rows created so far, and the counter. *)
Record state := {
  posture_analysis : PostureAnalysis;
  rows : list Recommendation;
  total_recommendations : nat }.

Inductive response :=
| HTTP_400_BAD_REQUEST
| HTTP_201_CREATED (analysis : PostureAnalysis) (recommendations_count : nat).

(** The body of the loop over [recommendations[:3]]. *)
Definition create_recommendation (st : state) (rec_text : string) : state :=
  {| posture_analysis := posture_analysis st;
     rows := rows st ++
       [{| category := "posture";
           priority := "medium";
           title := "Рекомендация по осанке";
           description := rec_text;
           action_steps := [rec_text] |}];
     total_recommendations := total_recommendations st + 1 |}.

(** The block of the front photograph. *)
Definition analyse_front (front_photo : option PhotoUpload) (st : state) : state :=
  match front_photo with
  | Some photo =>
      match image photo with
      | Some file =>
          match PostureAnalysisService.analyze_posture_from_image (imread file) with
          | Ok front_results =>
              let pa := posture_analysis st in
              let pa :=
                {| front_keypoints :=
                     Py.get (Analysis.keypoints front_results) (fun _ => None);
                   shoulder_slope_degrees :=
                     Analysis.shoulder_slope_degrees front_results;
                   head_tilt_degrees := Analysis.head_tilt_degrees front_results;
                   knee_valgus_angle := Analysis.knee_valgus_angle front_results;
                   posture_score := Analysis.posture_score front_results;
                   hip_slope_degrees := hip_slope_degrees pa;
                   back_keypoints := back_keypoints pa |} in
              let recommendations :=
                Py.get (Analysis.recommendations front_results) [] in
              fold_left create_recommendation (firstn 3 recommendations)
                {| posture_analysis := pa;
                   rows := rows st;
                   total_recommendations := total_recommendations st |}
          | Error _ => st
          end
      | None => st
      end
  | None => st
  end.

(** The block of the back photograph. *)
Definition analyse_back (back_photo : option PhotoUpload) (st : state) : state :=
  match back_photo with
  | Some photo =>
      match image photo with
      | Some file =>
          match PostureAnalysisService.analyze_posture_from_image (imread file) with
          | Ok back_results =>
              let pa := posture_analysis st in
              let hip :=
                if negb (Py.truthy (hip_slope_degrees pa))
                then Analysis.hip_slope_degrees back_results
                else hip_slope_degrees pa in
              let back_score := Py.get (Analysis.posture_score back_results) 5 in
              let score :=
                if Py.truthy (posture_score pa)
                then (Py.get (posture_score pa) 0 + back_score) / 2
                else back_score in
              {| posture_analysis :=
                   {| back_keypoints :=
                        Py.get (Analysis.keypoints back_results) (fun _ => None);
                      hip_slope_degrees := hip;
                      posture_score := Some score;
                      shoulder_slope_degrees := shoulder_slope_degrees pa;
                      head_tilt_degrees := head_tilt_degrees pa;
                      knee_valgus_angle := knee_valgus_angle pa;
                      front_keypoints := front_keypoints pa |};
                 rows := rows st;
                 total_recommendations := total_recommendations st |}
          | Error _ => st
          end
      | None => st
      end
  | None => st
  end.

(** The row created when no score was obtained. *)
Definition basic_recommendation : Recommendation :=
  {| category := "posture";
     priority := "low";
     title := "Базовая рекомендация";
     description :=
       "Не удалось выполнить детальный анализ. Рекомендуется регулярная физическая активность.";
     action_steps :=
       [ "Выполняйте ежедневную зарядку";
         "Следите за осанкой во время работы" ] |}%string.

(** The block that substitutes the base values. *)
Definition use_base_values (st : state) : state :=
  if negb (Py.truthy (posture_score (posture_analysis st))) then
    let pa := posture_analysis st in
    {| posture_analysis :=
         {| posture_score := Some 5.0;
            shoulder_slope_degrees := shoulder_slope_degrees pa;
            hip_slope_degrees := hip_slope_degrees pa;
            knee_valgus_angle := knee_valgus_angle pa;
            head_tilt_degrees := head_tilt_degrees pa;
            front_keypoints := front_keypoints pa;
            back_keypoints := back_keypoints pa |};
       rows := rows st ++ [basic_recommendation];
       total_recommendations := 1 |}
  else st.

(** [PostureAnalysisView.post]: the response, and the [AIRecommendation]
    rows created. *)
Definition post (front_photo back_photo : option PhotoUpload)
    : response * list Recommendation :=
  match front_photo, back_photo with
  | None, None => (HTTP_400_BAD_REQUEST, [])
  | _, _ =>
      let st :=
        {| posture_analysis := Models.create;
           rows := [];
           total_recommendations := 0 |} in
      let st := analyse_front front_photo st in
      let st := analyse_back back_photo st in
      let st := use_base_values st in
      (HTTP_201_CREATED (posture_analysis st) (total_recommendations st), rows st)
  end.

(** [BodyCompositionAnalysisView._calculate_body_composition]; [None] stands
    for the [TypeError] of [0.23 * age] on a profile without an age. *)
Definition _calculate_body_composition (user_profile : Accounts.UserProfile)
    (measurements : option Accounts.BodyMeasurements) : option BodyComposition.t :=
  let bmi := Accounts.bmi user_profile in
  match Accounts.age user_profile with
  | None => None
  | Some age =>
      let body_fat :=
        if Accounts.gender_is_M (Accounts.gender user_profile)
        then 1.20 * bmi + 0.23 * INR age - 16.2
        else 1.20 * bmi + 0.23 * INR age - 5.4 in
      let estimated_body_fat := Rmax 5 (Rmin 50 (Py.round body_fat 1)) in
      let muscle_mass := 100 - estimated_body_fat in
      let estimated_muscle_mass := Py.round (muscle_mass * 0.45) 1 in
      let visceral := Z.min 30 (Z.max 1 (Py.int (bmi - 18.5) * 2)) in
      let shape :=
        match measurements with
        | Some m =>
            if Py.truthy (Accounts.whr m) then
              let whr := Py.get (Accounts.whr m) 0 in
              if Py.gt whr 0.85 then "apple"%string
              else if Py.lt whr 0.75 then "pear"%string
              else "rectangle"%string
            else "rectangle"%string
        | None => "rectangle"%string
        end in
      Some (BodyComposition.Make (Some estimated_body_fat) (Some estimated_muscle_mass)
              (Some visceral) (Some shape) None None)
  end.

(** [WorkoutRecommendationView._create_workout_plan]. *)
Definition _create_workout_plan (user_profile : Accounts.TrainingProfile) : Plan.t :=
  let '(difficulty, duration) :=
    if Rle_dec (Accounts.activity_level user_profile) 1.375 then ("beginner"%string, 30%Z)
    else if Rle_dec (Accounts.activity_level user_profile) 1.55 then ("intermediate"%string, 45%Z)
    else ("advanced"%string, 60%Z) in
  if String.eqb (Accounts.goal user_profile) "lose" then
    Plan.Make "Программа снижения веса" "Комбинация силовых и кардио упражнений"
      "cardio" difficulty duration None
      (Some [ Exercise.Make "Приседания" (Some 3%Z) (Some (Exercise.Text "12-15")) None None None;
              Exercise.Make "Отжимания" (Some 3%Z) (Some (Exercise.Text "10-12")) None None None;
              Exercise.Make "Планка" (Some 3%Z) None (Some "30-60 сек") None None;
              Exercise.Make "Выпады" (Some 3%Z) (Some (Exercise.Text "10 на каждую ногу")) None None None;
              Exercise.Make "Кардио интервалы" None None (Some "15-20 мин") None None ]%string)
      None
  else if String.eqb (Accounts.goal user_profile) "gain" then
    Plan.Make "Программа набора мышечной массы" "Силовые тренировки с прогрессией нагрузки"
      "strength" difficulty duration None
      (Some [ Exercise.Make "Жим лежа" (Some 4%Z) (Some (Exercise.Text "8-10")) None None None;
              Exercise.Make "Приседания со штангой" (Some 4%Z) (Some (Exercise.Text "8-10")) None None None;
              Exercise.Make "Становая тяга" (Some 3%Z) (Some (Exercise.Text "6-8")) None None None;
              Exercise.Make "Жим стоя" (Some 3%Z) (Some (Exercise.Text "8-10")) None None None;
              Exercise.Make "Подтягивания" (Some 3%Z) (Some (Exercise.Text "до отказа")) None None None ]%string)
      None
  else
    Plan.Make "Программа поддержания формы" "Сбалансированные тренировки для общего здоровья"
      "strength" difficulty duration None
      (Some [ Exercise.Make "Приседания" (Some 3%Z) (Some (Exercise.Text "12-15")) None None None;
              Exercise.Make "Отжимания" (Some 3%Z) (Some (Exercise.Text "10-15")) None None None;
              Exercise.Make "Планка" (Some 3%Z) None (Some "45 сек") None None;
              Exercise.Make "Выпады" (Some 3%Z) (Some (Exercise.Text "12 на каждую ногу")) None None None;
              Exercise.Make "Гиперэкстензия" (Some 3%Z) (Some (Exercise.Text "15")) None None None ]%string)
      None.

End Views.

(** ** The definitions of the specification, in its own words *)

Module Reference.

Definition clamp (lo hi v : R) : R := Rmax lo (Rmin hi v).

(** A capped continuous penalty, for a metric that is present. *)
Definition capped (metric : option R) (magnitude : R -> R) (divisor cap : R) : R :=
  match metric with
  | Some v => Rmin (magnitude v / divisor) cap
  | None => 0
  end.

(** The fixed penalty of a flag that is set. *)
Definition fixed (flag : option bool) : R :=
  if Py.get flag false then 1.0 else 0.

(** Start at 10.0, subtract the penalties, clamp to [1.0, 10.0], round to
    one decimal. *)
Definition posture_score (m : Analysis.t) : R :=
  Py.round
    (clamp 1.0 10.0
       (10.0
        - capped (Analysis.shoulder_slope_degrees m) Rabs 5 2.5
        - capped (Analysis.hip_slope_degrees m) Rabs 5 2.0
        - capped (Analysis.head_tilt_degrees m) Rabs 10 1.5
        - capped (Analysis.knee_valgus_angle m) (fun v => v) 20 1.5
        - fixed (Analysis.has_shoulder_imbalance m)
        - fixed (Analysis.has_hip_imbalance m)
        - fixed (Analysis.forward_head_posture m)))
    1.

(** The piecewise-linear curve of the visceral fat level: breakpoint 1.0
    for a male-coded profile, 0.85 otherwise. *)
Definition visceral_curve (male : bool) (w : R) : R :=
  if male then
    if Py.gt w 1.0 then 15 + (w - 1.0) * 20 else w * 12
  else
    if Py.gt w 0.85 then 10 + (w - 0.85) * 25 else w * 10.

Definition visceral_fat_level (male : bool) (w : R) : Z :=
  Py.round_half_even (clamp 1 30 (visceral_curve male w)).

Definition body_shape (w : R) : string :=
  if Py.gt w 0.85 then "apple"
  else if Py.lt w 0.75 then "pear"
  else "rectangle".

(** The aggregate progress score: 5.0, plus the reward of a weight loss,
    plus the capped posture term, clamped to [1.0, 10.0]. *)
Definition progress_sum (weight_delta posture_delta : R) : R :=
  5.0
  + (if Py.lt weight_delta 0 then Rmin (Rabs weight_delta * 0.5) 2.5 else 0)
  + Rmin (posture_delta * 0.5) 2.5.

Definition progress_score (weight_delta posture_delta : R) : R :=
  clamp 1.0 10.0 (progress_sum weight_delta posture_delta).

(** The visibilities of the key landmarks that exist. *)
Definition key_visibilities (landmarks : list MediaPipe.landmark) : list R :=
  flat_map (fun i => match nth_error landmarks i with
                     | Some landmark => [MediaPipe.visibility landmark]
                     | None => []
                     end) [0; 11; 12; 23; 24; 25; 26]%nat.



Definition sum (vs : list R) : R := fold_right Rplus 0 vs.


(** A rule table: each rule yields at most one recommendation, and the
    rules are evaluated in the order of the table. *)
Definition fire {I A : Type} (rules : list (I -> option A)) (input : I) : list A :=
  flat_map (fun rule => match rule input with Some r => [r] | None => [] end) rules.

(** The four rules of the text recommender of the posture service. *)
Definition text_shoulder (a : Analysis.t) : option string :=
  if Py.get (Analysis.has_shoulder_imbalance a) false then
    Some ("Shoulder imbalance (" ++
          Py.format_1f (Rabs (Py.get (Analysis.shoulder_slope_degrees a) 0)) ++
          "°): Recommended posture correction exercises for shoulders")%string
  else None.

Definition text_forward_head (a : Analysis.t) : option string :=
  if Py.get (Analysis.forward_head_posture a) false then
    Some "Forward head posture: Strengthen neck muscles, check workspace ergonomics"%string
  else None.

Definition text_hip (a : Analysis.t) : option string :=
  if Py.get (Analysis.has_hip_imbalance a) false then
    Some ("Hip imbalance (" ++
          Py.format_1f (Rabs (Py.get (Analysis.hip_slope_degrees a) 0)) ++
          "°): Exercises for pelvic stabilization")%string
  else None.

Definition text_knee (a : Analysis.t) : option string :=
  if Py.get (Analysis.has_knee_valgus a) false then
    Some ("Possible knee valgus (" ++
          Py.format_1f (Py.get (Analysis.knee_valgus_angle a) 0) ++
          "): Consult a doctor and strengthen hip muscles")%string
  else None.

Definition text_rules : list (Analysis.t -> option string) :=
  [text_shoulder; text_forward_head; text_hip; text_knee].

Definition text_generic : string :=
  "Posture is within normal range. Continue maintaining an active lifestyle.".

(** The three rules of the structured engine. *)
Definition engine_shoulder (pa : Models.PostureAnalysis) : option Models.Recommendation :=
  if Models.has_shoulder_imbalance pa then
    Some {| Models.category := "posture";
            Models.priority := "high";
            Models.title := "Shoulder imbalance correction";
            Models.description :=
              "Detected shoulder tilt of " ++
              Py.format_1f (Rabs (Py.get (Models.shoulder_slope_degrees pa) 0)) ++ "°";
            Models.action_steps :=
              [ "Perform " ++ RecommendationEngine.dquote ++ "face pull" ++
                  RecommendationEngine.dquote ++ " exercise: 3 sets of 15 repetitions";
                "Chest muscle stretching 2-3 times daily for 30 seconds";
                "Strengthen rear delts and rhomboid muscles";
                "Monitor shoulder position throughout the day" ] |}%string
  else None.

Definition engine_hip (pa : Models.PostureAnalysis) : option Models.Recommendation :=
  if Models.has_hip_imbalance pa then
    Some {| Models.category := "posture";
            Models.priority := "medium";
            Models.title := "Pelvic position correction";
            Models.description :=
              "Detected pelvic area imbalance of " ++
              Py.format_1f (Rabs (Py.get (Models.hip_slope_degrees pa) 0)) ++ "°";
            Models.action_steps :=
              [ "Side plank on each side: 3 sets of 30-60 seconds";
                "Strengthen gluteus medius";
                "Stretch quadratus lumborum";
                "Check workspace ergonomics" ] |}%string
  else None.

Definition engine_knee (pa : Models.PostureAnalysis) : option Models.Recommendation :=
  if Models.has_knee_valgus pa then
    Some {| Models.category := "exercise";
            Models.priority := "high";
            Models.title := "Knee valgus correction";
            Models.description := "Detected tendency for knee inward collapse";
            Models.action_steps :=
              [ "Hip abduction in lying position: 3x15";
                "Squats with knee control";
                "Strengthen outer thigh muscles";
                "IT-band stretching" ] |}%string
  else None.

Definition engine_rules : list (Models.PostureAnalysis -> option Models.Recommendation) :=
  [engine_shoulder; engine_hip; engine_knee].

(** No landmarks are obtained from a photograph: it is absent, has no
    file, cannot be loaded, or no pose is detected in it. *)
(** The analysis that the view obtains from a photograph, when it
    obtains one. *)
Definition results_of (photo : Views.PhotoUpload) : option Analysis.t :=
  match Views.image photo with
  | Some file =>
      match PostureAnalysisService.analyze_posture_from_image (Views.imread file) with
      | Ok results => Some results
      | Error _ => None
      end
  | None => None
  end.

Definition no_pose (photo : option Views.PhotoUpload) : Prop :=
  match photo with
  | Some ph =>
      match Views.image ph with
      | Some file =>
          match Views.imread file with
          | Some im => pose_landmarks im = None
          | None => True
          end
      | None => True
      end
  | None => True
  end.


(** A row that the view creates from a text of the front analysis. *)
Definition text_row (r : Models.Recommendation) : Prop :=
  Models.category r = "posture"%string /\
  Models.priority r = "medium"%string /\
  Models.action_steps r = [Models.description r].

End Reference.

(** ** The mirror image of a keypoint dictionary *)

Module Mirror.

(** Left and right exchanged. *)
Definition swap (name : point_name) : point_name :=
  match name with
  | nose => nose
  | left_eye => right_eye | right_eye => left_eye
  | left_ear => right_ear | right_ear => left_ear
  | left_shoulder => right_shoulder | right_shoulder => left_shoulder
  | left_elbow => right_elbow | right_elbow => left_elbow
  | left_wrist => right_wrist | right_wrist => left_wrist
  | left_hip => right_hip | right_hip => left_hip
  | left_knee => right_knee | right_knee => left_knee
  | left_ankle => right_ankle | right_ankle => left_ankle
  | left_heel => right_heel | right_heel => left_heel
  | left_foot => right_foot | right_foot => left_foot
  end.

(** A point reflected in an image of width [W]: [x] becomes [W - x]. *)
Definition reflect (W : R) (k : Keypoint.t) : Keypoint.t :=
  Keypoint.Make (W - Keypoint.x k) (Keypoint.y k) (Keypoint.z k)
                (Keypoint.visibility k) (1 - Keypoint.x_norm k) (Keypoint.y_norm k).

(** The dictionary of the mirrored pose: each name holds the reflected
    point of the opposite side. *)
Definition mirror (W : R) (kp : KeypointDict) : KeypointDict :=
  fun name => option_map (reflect W) (kp (swap name)).

(** The two points of a pair are level and the right one has the smaller
    [x]: the pair lies on the negative half of the horizontal axis. *)
Definition level_reversed (l r : option Keypoint.t) : Prop :=
  match l, r with
  | Some a, Some b =>
      Keypoint.y a = Keypoint.y b /\ Keypoint.x b < Keypoint.x a
  | _, _ => False
  end.

End Mirror.

(** ** Sample inputs *)

Module Examples.

(** Metrics with a shoulder and a knee analysis only. *)
Definition sample_metrics : Analysis.t :=
  Analysis.update (Analysis.of_shoulders 2.86 (-10.0) false 0.9)
                  (Analysis.of_knees 20.0 true 80.0 100.0 0.8).


Definition point (px py : R) : Keypoint.t :=
  Keypoint.Make px py 0 0.9 (px / 400) (py / 600).

(** Both pairs one above the other, the nose at shoulder height. *)
Definition degenerate_pose : KeypointDict :=
  fun name =>
    match name with
    | nose => Some (point 210 215)
    | left_shoulder => Some (point 200 200)
    | right_shoulder => Some (point 200 230)
    | left_hip => Some (point 200 400)
    | right_hip => Some (point 200 380)
    | _ => None
    end.

(** Shoulders at left = (100, 200), right = (300, 210); hips likewise. *)
Definition tilted_pose : KeypointDict :=
  fun name =>
    match name with
    | left_shoulder => Some (point 100 200)
    | right_shoulder => Some (point 300 210)
    | left_hip => Some (point 120 400)
    | right_hip => Some (point 280 395)
    | _ => None
    end.

(** Level shoulders and hips seen from the front: the left side of the body
    is on the right of the image. *)
Definition level_front_pose : KeypointDict :=
  fun name =>
    match name with
    | left_shoulder => Some (point 300 200)
    | right_shoulder => Some (point 100 200)
    | left_hip => Some (point 280 400)
    | right_hip => Some (point 120 400)
    | _ => None
    end.


(** A full set of 33 landmarks: the nose fully visible, the rest at 0.9. *)
Definition visible_landmarks : list MediaPipe.landmark :=
  MediaPipe.Landmark 0.5 0.1 0 1.0 :: repeat (MediaPipe.Landmark 0.5 0.5 0 0.9) 32.

(** Waist 90 cm, hips 100 cm: a ratio of 0.90. *)
Definition measured : Accounts.BodyMeasurements :=
  {| Accounts.waist := Some 90; Accounts.hips := Some 100 |}.

Definition female_profile : Accounts.UserProfile :=
  {| Accounts.age := Some 30%nat; Accounts.gender := Some Accounts.F;
     Accounts.height := Some 170; Accounts.current_weight := Some 65 |}.

(** A weight gain of 1.0 and a posture gain of 0.15 (from 7.0 to the mean
    7.15 of two views). *)
Definition slow_month : Progress.t :=
  {| Progress.weight_change := Some 1.0;
     Progress.posture_improvement :=
       Some {| Progress.posture_score_change := Some 0.15;
               Progress.shoulder_improvement := Some 0 |} |}.


(** A photograph in which no pose is detected. *)
Definition empty_room : Views.PhotoUpload :=
  {| Views.image :=
       Some {| Views.imread :=
                 Some {| height := 400; width := 400; pose_landmarks := None |} |} |}.

(** 33 landmarks, all in the centre of the image except the two hips. *)
Definition landmarks_with_hips (lx ly rx ry : R) : list MediaPipe.landmark :=
  repeat (MediaPipe.Landmark 0.5 0.5 0 0.9) 23 ++
  [MediaPipe.Landmark lx ly 0 0.9; MediaPipe.Landmark rx ry 0 0.9] ++
  repeat (MediaPipe.Landmark 0.5 0.5 0 0.9) 8.

Definition photo_of (landmarks : list MediaPipe.landmark) : Views.PhotoUpload :=
  {| Views.image :=
       Some {| Views.imread :=
                 Some {| height := 400; width := 400;
                         pose_landmarks := Some landmarks |} |} |}.

(** Front view: the right hip 100 pixels to the right of and 100 pixels
    below the left hip, a slope of 45 degrees. *)
Definition front_tilted : Views.PhotoUpload :=
  photo_of (landmarks_with_hips 0.25 0.5 0.5 0.75).

(** Back view: level hips, a slope of 0 degrees. *)
Definition back_level : Views.PhotoUpload :=
  photo_of (landmarks_with_hips 0.25 0.5 0.5 0.5).


(** The tilted pose without its shoulders. *)
Definition hips_only_pose : KeypointDict :=
  fun name =>
    match name with
    | left_shoulder | right_shoulder => None
    | other => tilted_pose other
    end.

(** The tilted pose with knees and ankles. *)
Definition legs_pose : KeypointDict :=
  fun name =>
    match name with
    | left_knee => Some (point 150 500)
    | right_knee => Some (point 250 500)
    | left_ankle => Some (point 160 580)
    | right_ankle => Some (point 240 580)
    | other => tilted_pose other
    end.

(** A stored analysis with a shoulder slope of 5 degrees. *)
Definition tilted_analysis : Models.PostureAnalysis :=
  {| Models.shoulder_slope_degrees := Some 5; Models.hip_slope_degrees := None;
     Models.knee_valgus_angle := Some 20; Models.head_tilt_degrees := None;
     Models.front_keypoints := fun _ => None;
     Models.back_keypoints := fun _ => None;
     Models.posture_score := Some 7 |}.

End Examples.
Import Examples.

(** ** Double precision *)

(** The posture score, the visceral fat level and the progress score are
    rounded results of a few floating-point operations, and the last bit of
    the argument decides which way a rounding goes.  Where a property is
    about the very value that the code returns, the three functions are
    therefore modelled a second time, over binary64 numbers: [+ - * /],
    [abs] and the comparisons are the IEEE 754 operations, which are
    Python's; [round] follows CPython, which rounds the exact value of the
    double to the requested decimal (ties to even) and returns the double
    nearest to that decimal. *)

Module Binary64.
Import PrimFloat SpecFloat FloatOps.
Local Open Scope float_scope.

(** The integer nearest to [num / den], ties to even, for [den] positive. *)
Definition nearest_even_div (num den : Z) : Z :=
  let q := (num / den)%Z in
  let r := (num mod den)%Z in
  match (2 * r ?= den)%Z with
  | Lt => q
  | Gt => (q + 1)%Z
  | Eq => if Z.even q then q else (q + 1)%Z
  end.

(** The exact magnitude [m * 2^e] of a finite double, times [10^ndigits],
    rounded to an integer. *)
Definition scaled (m : positive) (e : Z) (ndigits : nat) : Z :=
  let p := (Zpos m * 10 ^ Z.of_nat ndigits)%Z in
  if (0 <=? e)%Z then (p * 2 ^ e)%Z else nearest_even_div p (2 ^ (- e)).

(** The double nearest to the decimal [k / 10^ndigits], for [k] not
    negative. *)
Definition of_decimal (k : Z) (ndigits : nat) : float :=
  match k with
  | Zpos p =>
      SF2Prim (SFdiv prec emax (S754_finite false p 0)
                 (S754_finite false (Z.to_pos (10 ^ Z.of_nat ndigits)) 0))
  | _ => 0
  end.

(** [round(x, ndigits)]: zeros, infinities and NaN are returned as they
    are. *)
Definition round (x : float) (ndigits : nat) : float :=
  match Prim2SF x with
  | S754_finite s m e =>
      let r := of_decimal (scaled m e ndigits) ndigits in
      if s then - r else r
  | _ => x
  end.

(** [round(x)]: an integer; [None] stands for the exception that Python
    raises on an infinity or a NaN. *)
Definition round_int (x : float) : option Z :=
  match Prim2SF x with
  | S754_zero _ => Some 0%Z
  | S754_finite s m e =>
      let k := scaled m e 0 in Some (if s then (- k)%Z else k)
  | _ => None
  end.

(** [min(a, b)] and [max(a, b)]: the second argument is returned only when
    it is strictly smaller (larger), so a NaN in first place stays. *)
Definition min (a b : float) : float := if b <? a then b else a.
Definition max (a b : float) : float := if a <? b then b else a.

(** Truth value of an optional float: [None], [0.0] and [-0.0] are falsy. *)
Definition truthy (o : option float) : bool :=
  match o with
  | Some v => negb (v =? 0)
  | None => false
  end.

(** The exact value of a finite double as a fraction in lowest terms, and
    as a real number; an infinity and a NaN, which have none, count as 0. *)
Definition exact_fraction (x : float) : Z * Z :=
  match Prim2SF x with
  | S754_finite s m e =>
      let n := if s then Zneg m else Zpos m in
      let (num, den) :=
        if (0 <=? e)%Z then ((n * 2 ^ e)%Z, 1%Z) else (n, (2 ^ (- e))%Z) in
      let g := Z.gcd num den in
      ((num / g)%Z, (den / g)%Z)
  | _ => (0%Z, 1%Z)
  end.

Definition to_R (x : float) : R :=
  (IZR (fst (exact_fraction x)) / IZR (snd (exact_fraction x)))%R.

Definition exact (o : option float) : option R := option_map to_R o.

(** The keys of [metrics] that the posture score reads. *)
Module Metrics.
Record t := Make {
  shoulder_slope_degrees : option float;
  hip_slope_degrees : option float;
  head_tilt_degrees : option float;
  knee_valgus_angle : option float;
  has_shoulder_imbalance : option bool;
  has_hip_imbalance : option bool;
  forward_head_posture : option bool }.
End Metrics.


Module PostureAnalysisService.

(** The metrics are doubles; the integer 0 that a sub-analysis stores for a
    degenerate pair enters the score as the double 0.0, since [abs(0) / 5]
    is the double 0.0. *)
Definition _calculate_posture_score (metrics : Metrics.t) : float :=
  let score := 10.0 in
  let score :=
    match Metrics.shoulder_slope_degrees metrics with
    | Some v => let shoulder_penalty := min (abs v / 5) 2.5 in
                score - shoulder_penalty
    | None => score
    end in
  let score :=
    match Metrics.hip_slope_degrees metrics with
    | Some v => let hip_penalty := min (abs v / 5) 2.0 in
                score - hip_penalty
    | None => score
    end in
  let score :=
    match Metrics.head_tilt_degrees metrics with
    | Some v => let head_penalty := min (abs v / 10) 1.5 in
                score - head_penalty
    | None => score
    end in
  let score :=
    match Metrics.knee_valgus_angle metrics with
    | Some v => let knee_penalty := min (v / 20) 1.5 in
                score - knee_penalty
    | None => score
    end in
  let score :=
    if Py.get (Metrics.has_shoulder_imbalance metrics) false
    then score - 1.0 else score in
  let score :=
    if Py.get (Metrics.has_hip_imbalance metrics) false
    then score - 1.0 else score in
  let score :=
    if Py.get (Metrics.forward_head_posture metrics) false
    then score - 1.0 else score in
  max 1.0 (round score 1).

End PostureAnalysisService.

(** [BodyMeasurements] with its two float fields, and the property [whr]. *)
Module Measurements.
Record t := Make {
  waist : option float;
  hips : option float }.

Definition whr (self : t) : option float :=
  if truthy (waist self) && truthy (hips self)
  then Some (round (Py.get (waist self) 0 / Py.get (hips self) 0) 3)
  else None.

End Measurements.

Module BodyCompositionService.

(** The integer literals [30] and [1] of the source are compared as the
    doubles 30.0 and 1.0 (the comparison of an [int] with a [float] is
    exact) and round to the same integers.  [None] stands for the exception
    of [round] on an infinity. *)
Definition _analyze_measurements (measurements : Measurements.t)
    (user_profile : option Accounts.UserProfile) : option BodyComposition.t :=
  let analysis := BodyComposition.empty in
  if truthy (Measurements.whr measurements) then
    let w := Py.get (Measurements.whr measurements) 0 in
    let visceral_fat :=
      if match user_profile with
         | Some p => Accounts.gender_is_M (Accounts.gender p)
         | None => false
         end
      then
        if 1.0 <? w then min 30 (15 + (w - 1.0) * 20)
        else max 1 (w * 12)
      else
        if 0.85 <? w then min 30 (10 + (w - 0.85) * 25)
        else max 1 (w * 10) in
    match round_int visceral_fat with
    | Some visceral_fat_level =>
        let body_shape_type :=
          if 0.85 <? w then "apple"%string
          else if w <? 0.75 then "pear"%string
          else "rectangle"%string in
        Some (BodyComposition.update analysis
                (BodyComposition.Make None None
                   (Some visceral_fat_level) (Some body_shape_type)
                   None None))
    | None => None
    end
  else Some analysis.

End BodyCompositionService.

(** The keys of [progress] that the progress score reads. *)
Module Changes.
Record improvement := {
  posture_score_change : option float;
  shoulder_improvement : option float }.

Record t := {
  weight_change : option float;
  posture_improvement : option improvement }.
End Changes.

Module ProgressTrackingService.

Definition _calculate_overall_progress_score (progress : Changes.t) : float :=
  let score := 5.0 in
  let score :=
    match Changes.weight_change progress with
    | Some weight_change =>
        if weight_change <? 0
        then score + min (abs weight_change * 0.5) 2.5
        else score
    | None => score
    end in
  let score :=
    match Changes.posture_improvement progress with
    | Some improvement =>
        let posture_change :=
          Py.get (Changes.posture_score_change improvement) 0 in
        score + min (posture_change * 0.5) 2.5
    | None => score
    end in
  min 10.0 (max 1.0 (round score 1)).

End ProgressTrackingService.

(** The definitions of the specification, every operation being the one on
    doubles. *)
Module Reference.

(** The penalties that apply, in the order in which they are subtracted. *)
Definition capped (metric : option float) (magnitude : float -> float)
    (divisor cap : float) : list float :=
  match metric with
  | Some v => [min (magnitude v / divisor) cap]
  | None => []
  end.

Definition fixed (flag : option bool) : list float :=
  if Py.get flag false then [1.0] else [].

Definition penalties (m : Metrics.t) : list float :=
  capped (Metrics.shoulder_slope_degrees m) abs 5 2.5 ++
  capped (Metrics.hip_slope_degrees m) abs 5 2.0 ++
  capped (Metrics.head_tilt_degrees m) abs 10 1.5 ++
  capped (Metrics.knee_valgus_angle m) (fun v => v) 20 1.5 ++
  fixed (Metrics.has_shoulder_imbalance m) ++
  fixed (Metrics.has_hip_imbalance m) ++
  fixed (Metrics.forward_head_posture m).

(** Start at 10.0, subtract the penalties one after the other, round to
    one decimal, and raise the result to 1.0. *)
Definition posture_score (m : Metrics.t) : float :=
  max 1.0 (round (fold_left sub (penalties m) 10.0) 1).

Definition clamp (lo hi v : float) : float := max lo (min hi v).

(** The piecewise-linear curve of the visceral fat level. *)
Definition visceral_curve (male : bool) (w : float) : float :=
  if male then
    if 1.0 <? w then 15 + (w - 1.0) * 20 else w * 12
  else
    if 0.85 <? w then 10 + (w - 0.85) * 25 else w * 10.

Definition visceral_fat_level (male : bool) (w : float) : option Z :=
  round_int (clamp 1 30 (visceral_curve male w)).

Definition body_shape (w : float) : string :=
  if 0.85 <? w then "apple"
  else if w <? 0.75 then "pear"
  else "rectangle".

(** The rewards of a progress record, in the order in which they are
    added. *)
Definition rewards (progress : Changes.t) : list float :=
  match Changes.weight_change progress with
  | Some weight_delta =>
      if weight_delta <? 0 then [min (abs weight_delta * 0.5) 2.5] else []
  | None => []
  end ++
  match Changes.posture_improvement progress with
  | Some improvement =>
      [min (Py.get (Changes.posture_score_change improvement) 0 * 0.5) 2.5]
  | None => []
  end.

(** Start at 5.0, add the rewards, round to one decimal, clamp to
    [1.0, 10.0]. *)
Definition progress_score (progress : Changes.t) : float :=
  min 10.0 (max 1.0 (round (fold_left add (rewards progress) 5.0) 1)).

End Reference.



(** Sample inputs. *)
Module Samples.







(** A weight loss of 3.0 and a posture gain of 1.0. *)
Definition good_month : Changes.t :=
  {| Changes.weight_change := Some (-3.0);
     Changes.posture_improvement :=
       Some {| Changes.posture_score_change := Some 1.0;
               Changes.shoulder_improvement := Some 0 |} |}.

(** A weight gain of 1.0 and a posture gain of 0.15. *)
Definition slow_month : Changes.t :=
  {| Changes.weight_change := Some 1.0;
     Changes.posture_improvement :=
       Some {| Changes.posture_score_change := Some 0.15;
               Changes.shoulder_improvement := Some 0 |} |}.

(** A weight loss of 1.1 and an unchanged posture score. *)
Definition light_month : Changes.t :=
  {| Changes.weight_change := Some (-1.1);
     Changes.posture_improvement :=
       Some {| Changes.posture_score_change := Some 0;
               Changes.shoulder_improvement := Some 0 |} |}.

End Samples.

End Binary64.

(** * Properties *)

(** ** Rounding *)

(** [v] rounds to [n]: [n] is the nearest integer, or the even one of the two
    nearest. *)
Definition nearest_even (v : R) (n : Z) : Prop :=
  (IZR n - 1 / 2 < v < IZR n + 1 / 2) \/
  ((v = IZR n - 1 / 2 \/ v = IZR n + 1 / 2) /\ Z.even n = true).

Lemma round_half_even_nearest (v : R) : nearest_even v (Py.round_half_even v).
Proof.
  unfold Py.round_half_even, nearest_even.
  destruct (base_Int_part v) as [Hlo Hhi].
  set (n := Int_part v) in *.
  destruct (Rlt_dec (v - IZR n) (1 / 2)) as [H1|H1].
  - left. lra.
  - destruct (Rlt_dec (1 / 2) (v - IZR n)) as [H2|H2].
    + left. rewrite plus_IZR. lra.
    + assert (Hv : v = IZR n + 1 / 2) by lra.
      destruct (Z.even n) eqn:He.
      * right. split; [right; exact Hv | exact He].
      * right. split.
        -- left. rewrite plus_IZR. lra.
        -- rewrite Z.even_add, He. reflexivity.
Qed.

Lemma nearest_even_unique (v : R) (n m : Z) :
  nearest_even v n -> nearest_even v m -> n = m.
Proof.
  assert (Hstep : forall a b : Z, (a < b)%Z ->
            nearest_even v a -> nearest_even v b -> False).
  { intros a b Hab Ha Hb.
    assert (H1 : IZR a + 1 <= IZR b).
    { rewrite <- plus_IZR. apply IZR_le. lia. }
    assert (Hva : v <= IZR a + 1 / 2) by (destruct Ha as [?|[[?|?] _]]; lra).
    assert (Hvb : IZR b - 1 / 2 <= v) by (destruct Hb as [?|[[?|?] _]]; lra).
    assert (Hb1 : IZR b = IZR a + 1) by lra.
    assert (Hba : b = (a + 1)%Z).
    { apply eq_IZR. rewrite plus_IZR. exact Hb1. }
    destruct Ha as [Ha|[_ Hea]]; [lra|].
    destruct Hb as [Hb|[_ Heb]]; [lra|].
    subst b. rewrite Z.even_add, Hea in Heb. discriminate. }
  intros Hn Hm.
  destruct (Z.lt_trichotomy n m) as [H|[H|H]]; [|exact H|].
  - destruct (Hstep n m H Hn Hm).
  - destruct (Hstep m n H Hm Hn).
Qed.

Lemma round_half_even_eq (v : R) (n : Z) :
  nearest_even v n -> Py.round_half_even v = n.
Proof.
  intros H. apply (nearest_even_unique v); [apply round_half_even_nearest | exact H].
Qed.

Lemma round_half_even_IZR (n : Z) : Py.round_half_even (IZR n) = n.
Proof. apply round_half_even_eq. left. lra. Qed.

Lemma round_half_even_opp (v : R) :
  Py.round_half_even (- v) = (- Py.round_half_even v)%Z.
Proof.
  apply round_half_even_eq.
  destruct (round_half_even_nearest v) as [H|[[H|H] He]];
    unfold nearest_even; rewrite opp_IZR, ?Z.even_opp.
  - left. lra.
  - right. split; [right; lra | exact He].
  - right. split; [left; lra | exact He].
Qed.

Lemma round_half_even_mono (v w : R) :
  v <= w -> (Py.round_half_even v <= Py.round_half_even w)%Z.
Proof.
  intros Hvw.
  destruct (Z_le_gt_dec (Py.round_half_even v) (Py.round_half_even w)) as [H|H];
    [exact H | exfalso].
  pose proof (round_half_even_nearest v) as Nv.
  pose proof (round_half_even_nearest w) as Nw.
  assert (H1 : IZR (Py.round_half_even w) + 1 <= IZR (Py.round_half_even v)).
  { rewrite <- plus_IZR. apply IZR_le. lia. }
  assert (Hlo : IZR (Py.round_half_even v) - 1 / 2 <= v)
    by (destruct Nv as [?|[[?|?] _]]; lra).
  assert (Hhi : w <= IZR (Py.round_half_even w) + 1 / 2)
    by (destruct Nw as [?|[[?|?] _]]; lra).
  assert (Heq : v = w) by lra.
  subst w. lia.
Qed.

Lemma pow10_pos (n : nat) : 0 < 10 ^ n.
Proof. apply pow_lt. lra. Qed.

Lemma round_opp (v : R) (n : nat) : Py.round (- v) n = - Py.round v n.
Proof.
  unfold Py.round.
  replace (- v * 10 ^ n) with (- (v * 10 ^ n)) by ring.
  rewrite round_half_even_opp, opp_IZR.
  pose proof (pow10_pos n). field. lra.
Qed.

Lemma round_mono (v w : R) (n : nat) : v <= w -> Py.round v n <= Py.round w n.
Proof.
  intros H. unfold Py.round.
  pose proof (pow10_pos n) as Hp.
  apply Rmult_le_compat_r; [left; apply Rinv_0_lt_compat; exact Hp|].
  apply IZR_le, round_half_even_mono.
  apply Rmult_le_compat_r; lra.
Qed.

(** A multiple of [10^-n] is a fixed point. *)
Lemma round_fixed (k : Z) (n : nat) : Py.round (IZR k / 10 ^ n) n = IZR k / 10 ^ n.
Proof.
  unfold Py.round. pose proof (pow10_pos n) as Hp.
  replace (IZR k / 10 ^ n * 10 ^ n) with (IZR k) by (field; lra).
  rewrite round_half_even_IZR. reflexivity.
Qed.

(** [v] with [v * 10^n] rounding to [k] rounds to [k / 10^n]. *)
Lemma round_eq (v : R) (n : nat) (k : Z) :
  nearest_even (v * 10 ^ n) k -> Py.round v n = IZR k / 10 ^ n.
Proof. intros H. unfold Py.round. rewrite (round_half_even_eq _ _ H). reflexivity. Qed.

(** Rounding commutes with a lower and an upper bound that are fixed points. *)
Lemma round_Rmax (lo v : R) (n : nat) :
  Py.round lo n = lo -> Rmax lo (Py.round v n) = Py.round (Rmax lo v) n.
Proof.
  intros Hlo. destruct (Rle_dec v lo) as [H|H].
  - rewrite (Rmax_left lo v) by lra.
    pose proof (round_mono v lo n H). rewrite Hlo in *.
    apply Rmax_left. lra.
  - rewrite (Rmax_right lo v) by lra.
    assert (Hm : lo <= v) by lra.
    pose proof (round_mono lo v n Hm). rewrite Hlo in *.
    apply Rmax_right. lra.
Qed.

Lemma round_Rmin (hi v : R) (n : nat) :
  Py.round hi n = hi -> Rmin hi (Py.round v n) = Py.round (Rmin hi v) n.
Proof.
  intros Hhi. destruct (Rle_dec hi v) as [H|H].
  - rewrite (Rmin_left hi v) by lra.
    pose proof (round_mono hi v n H). rewrite Hhi in *.
    apply Rmin_left. lra.
  - rewrite (Rmin_right hi v) by lra.
    assert (Hm : v <= hi) by lra.
    pose proof (round_mono v hi n Hm). rewrite Hhi in *.
    apply Rmin_right. lra.
Qed.

(** Evaluation of [round] at a decimal constant: [round_at k] proves
    [Py.round c n = IZR k / 10 ^ n]. *)
Ltac nearest :=
  unfold nearest_even; simpl pow;
  first [ left; lra
        | right; split; [first [left; lra | right; lra] | reflexivity] ].

Ltac round_at k := apply (round_eq _ _ k); nearest.

(** ** The posture score *)

Lemma round_1_one : Py.round 1.0 1 = 1.0.
Proof. replace (Py.round 1.0 1) with (IZR 10 / 10 ^ 1); [simpl; lra | symmetry; round_at 10%Z]. Qed.

Lemma capped_nonneg (metric : option R) (magnitude : R -> R) (divisor cap : R) :
  0 < divisor -> 0 <= cap ->
  (forall v, metric = Some v -> 0 <= magnitude v) ->
  0 <= Reference.capped metric magnitude divisor cap.
Proof.
  intros Hd Hc Hm. unfold Reference.capped.
  destruct metric as [v|]; [|lra].
  apply Rmin_glb; [|exact Hc].
  apply Rmult_le_pos; [apply Hm; reflexivity | left; apply Rinv_0_lt_compat; exact Hd].
Qed.

Lemma fixed_nonneg (flag : option bool) : 0 <= Reference.fixed flag.
Proof. unfold Reference.fixed. destruct (Py.get flag false); lra. Qed.

(** The code subtracts the same penalties one after the other. *)
Lemma posture_score_unfold (m : Analysis.t) :
  PostureAnalysisService._calculate_posture_score m =
  Rmax 1.0
    (Py.round
       (10.0
        - Reference.capped (Analysis.shoulder_slope_degrees m) Rabs 5 2.5
        - Reference.capped (Analysis.hip_slope_degrees m) Rabs 5 2.0
        - Reference.capped (Analysis.head_tilt_degrees m) Rabs 10 1.5
        - Reference.capped (Analysis.knee_valgus_angle m) (fun v => v) 20 1.5
        - Reference.fixed (Analysis.has_shoulder_imbalance m)
        - Reference.fixed (Analysis.has_hip_imbalance m)
        - Reference.fixed (Analysis.forward_head_posture m)) 1).
Proof.
  unfold PostureAnalysisService._calculate_posture_score, Reference.capped,
    Reference.fixed.
  destruct (Analysis.shoulder_slope_degrees m), (Analysis.hip_slope_degrees m),
    (Analysis.head_tilt_degrees m), (Analysis.knee_valgus_angle m),
    (Py.get (Analysis.has_shoulder_imbalance m) false),
    (Py.get (Analysis.has_hip_imbalance m) false),
    (Py.get (Analysis.forward_head_posture m) false);
    do 2 f_equal; lra.
Qed.

(** Every record that the calculator produces has a knee-valgus indicator
    that is not negative. *)
Lemma round_0 (n : nat) : Py.round 0 n = 0.
Proof.
  pose proof (round_fixed 0 n) as H. pose proof (pow10_pos n).
  replace (IZR 0 / 10 ^ n) with 0 in H by (field; lra). exact H.
Qed.

(** The knee keys come from the knee analysis alone. *)
Lemma shoulders_no_knee (kp : KeypointDict) :
  Analysis.knee_valgus_angle (PostureAnalysisService._analyze_shoulders kp) = None.
Proof.
  unfold PostureAnalysisService._analyze_shoulders.
  destruct (kp left_shoulder), (kp right_shoulder); reflexivity.
Qed.

Lemma head_no_knee (kp : KeypointDict) :
  Analysis.knee_valgus_angle (PostureAnalysisService._analyze_head_position kp) = None.
Proof.
  unfold PostureAnalysisService._analyze_head_position.
  destruct (kp nose), (kp left_shoulder), (kp right_shoulder); reflexivity.
Qed.

Lemma hips_no_knee (kp : KeypointDict) :
  Analysis.knee_valgus_angle (PostureAnalysisService._analyze_hips kp) = None.
Proof.
  unfold PostureAnalysisService._analyze_hips.
  destruct (kp left_hip), (kp right_hip); reflexivity.
Qed.

Lemma analyze_knees_valgus_nonneg (kp : KeypointDict) (v : R) :
  Analysis.knee_valgus_angle (PostureAnalysisService._analyze_knees kp) = Some v ->
  0 <= v.
Proof.
  unfold PostureAnalysisService._analyze_knees.
  destruct (kp left_knee), (kp right_knee), (kp left_ankle), (kp right_ankle),
    (kp left_hip), (kp right_hip); simpl; try discriminate.
  intros H. injection H as <-.
  rewrite <- (round_0 2) at 1. apply round_mono, Rmax_l.
Qed.

Lemma computed_knee_valgus_nonneg (kp : KeypointDict) (v : R) :
  Analysis.knee_valgus_angle (PostureAnalysisService._calculate_posture_metrics kp) = Some v ->
  0 <= v.
Proof.
  unfold PostureAnalysisService._calculate_posture_metrics. simpl.
  rewrite shoulders_no_knee, head_no_knee, hips_no_knee. simpl.
  destruct (Analysis.knee_valgus_angle (PostureAnalysisService._analyze_knees kp)) eqn:E;
    simpl; [|discriminate].
  intros H. injection H as <-. exact (analyze_knees_valgus_nonneg kp r E).
Qed.

Lemma knee_field_stable (a : Analysis.t) (sc : R) (texts : list string) :
  Analysis.knee_valgus_angle
    (Analysis.set_recommendations texts (Analysis.set_posture_score sc a)) =
  Analysis.knee_valgus_angle a.
Proof. destruct a. reflexivity. Qed.


(** ** Geometry: the degenerate cases and the mirror image *)

(** C6: when the two shoulders (the two hips) have the same x-coordinate the
    slope angle is 0 whatever the y-coordinates are, and when the nose is at
    the height of the shoulder midpoint the head tilt is 0; the analyses are
    total functions, so nothing is raised. *)
Theorem degenerate_geometry_zero_angle (kp : KeypointDict) :
  (forall l r, kp left_shoulder = Some l -> kp right_shoulder = Some r ->
     Keypoint.x l = Keypoint.x r ->
     Analysis.shoulder_slope_degrees (PostureAnalysisService._analyze_shoulders kp)
     = Some 0) /\
  (forall l r, kp left_hip = Some l -> kp right_hip = Some r ->
     Keypoint.x l = Keypoint.x r ->
     Analysis.hip_slope_degrees (PostureAnalysisService._analyze_hips kp)
     = Some 0) /\
  (forall n l r, kp nose = Some n ->
     kp left_shoulder = Some l -> kp right_shoulder = Some r ->
     Keypoint.y n - (Keypoint.y l + Keypoint.y r) / 2 = 0 ->
     Analysis.head_tilt_degrees (PostureAnalysisService._analyze_head_position kp)
     = Some 0).
Proof.
  repeat split.
  - intros l r Hl Hr Hx. unfold PostureAnalysisService._analyze_shoulders.
    rewrite Hl, Hr. simpl.
    destruct (Req_dec_T (Keypoint.x r - Keypoint.x l) 0) as [_|Hne].
    + rewrite round_0. reflexivity.
    + exfalso. apply Hne. lra.
  - intros l r Hl Hr Hx. unfold PostureAnalysisService._analyze_hips.
    rewrite Hl, Hr. simpl.
    destruct (Req_dec_T (Keypoint.x r - Keypoint.x l) 0) as [_|Hne].
    + rewrite round_0. reflexivity.
    + exfalso. apply Hne. lra.
  - intros n l r Hn Hl Hr Hy. unfold PostureAnalysisService._analyze_head_position.
    rewrite Hn, Hl, Hr. simpl.
    destruct (Req_dec_T (Keypoint.y n - (Keypoint.y l + Keypoint.y r) / 2) 0)
      as [_|Hne].
    + rewrite round_0. reflexivity.
    + exfalso. apply Hne. exact Hy.
Qed.

Lemma degenerate_geometry_zero_angle_witness :
  Analysis.shoulder_slope_degrees
    (PostureAnalysisService._analyze_shoulders degenerate_pose) = Some 0 /\
  Analysis.hip_slope_degrees
    (PostureAnalysisService._analyze_hips degenerate_pose) = Some 0 /\
  Analysis.head_tilt_degrees
    (PostureAnalysisService._analyze_head_position degenerate_pose) = Some 0.
Proof.
  destruct (degenerate_geometry_zero_angle degenerate_pose) as (Hs & Hh & Hn).
  split; [|split].
  - apply (Hs (point 200 200) (point 200 230)); reflexivity.
  - apply (Hh (point 200 400) (point 200 380)); reflexivity.
  - apply (Hn (point 210 215) (point 200 200) (point 200 230));
      try reflexivity.
    simpl. lra.
Defined.

(** [atan2] is odd in its first argument, except on the negative half of the
    horizontal axis, where it is [PI]. *)
Lemma atan2_opp (b a : R) :
  ~ (b = 0 /\ a < 0) -> Py.atan2 (- b) a = - Py.atan2 b a.
Proof.
  intros Hax. unfold Py.atan2.
  destruct (Rlt_dec 0 a) as [Ha|Ha].
  - replace (- b / a) with (- (b / a)) by (field; lra). apply atan_opp.
  - destruct (Rlt_dec a 0) as [Ha'|Ha'].
    + replace (- b / a) with (- (b / a)) by (field; lra). rewrite atan_opp.
      destruct (Rle_dec 0 (- b)), (Rle_dec 0 b); lra.
    + destruct (Rlt_dec 0 (- b)), (Rlt_dec (- b) 0), (Rlt_dec 0 b), (Rlt_dec b 0);
        lra.
Qed.

Lemma atan2_negative_axis (a : R) : a < 0 -> Py.atan2 0 a = PI.
Proof.
  intros Ha. unfold Py.atan2.
  destruct (Rlt_dec 0 a); [lra|].
  destruct (Rlt_dec a 0); [|lra].
  destruct (Rle_dec 0 0); [|lra].
  unfold Rdiv. rewrite Rmult_0_l, atan_0. lra.
Qed.

Lemma degrees_opp (r : R) : Py.degrees (- r) = - Py.degrees r.
Proof. unfold Py.degrees. ring. Qed.

Lemma degrees_PI : Py.degrees PI = 180.
Proof. unfold Py.degrees. field. apply PI_neq0. Qed.

Lemma round_180 : Py.round 180 2 = 180.
Proof.
  pose proof (round_fixed 18000 2) as H.
  replace (IZR 18000 / 10 ^ 2) with 180 in H by (simpl; lra). exact H.
Qed.

(** The slope formula on a pair [(dx, dy)] and on its mirror image
    [(dx, - dy)]. *)
Lemma slope_mirror (dx dy dx' dy' : R) :
  dx' = dx -> dy' = - dy -> ~ (dy = 0 /\ dx < 0) ->
  Py.round (if Req_dec_T dx' 0 then 0 else Py.degrees (Py.atan2 dy' dx')) 2 =
  - Py.round (if Req_dec_T dx 0 then 0 else Py.degrees (Py.atan2 dy dx)) 2.
Proof.
  intros -> -> Hax.
  destruct (Req_dec_T dx 0).
  - rewrite round_0. lra.
  - rewrite atan2_opp, degrees_opp, round_opp by exact Hax. reflexivity.
Qed.

Lemma slope_level_reversed (dx dy : R) :
  dy = 0 -> dx < 0 ->
  Py.round (if Req_dec_T dx 0 then 0 else Py.degrees (Py.atan2 dy dx)) 2 = 180.
Proof.
  intros -> Hdx.
  destruct (Req_dec_T dx 0); [lra|].
  rewrite atan2_negative_axis, degrees_PI by exact Hdx. apply round_180.
Qed.

Lemma mirror_shoulders (W : R) (kp : KeypointDict) :
  let a := PostureAnalysisService._analyze_shoulders kp in
  let a' := PostureAnalysisService._analyze_shoulders (Mirror.mirror W kp) in
  Analysis.shoulder_height_difference a' =
    option_map Ropp (Analysis.shoulder_height_difference a) /\
  Analysis.has_shoulder_imbalance a' = Analysis.has_shoulder_imbalance a /\
  (~ Mirror.level_reversed (kp left_shoulder) (kp right_shoulder) ->
   Analysis.shoulder_slope_degrees a' =
     option_map Ropp (Analysis.shoulder_slope_degrees a)) /\
  (Mirror.level_reversed (kp left_shoulder) (kp right_shoulder) ->
   Analysis.shoulder_slope_degrees a' = Some 180 /\
   Analysis.shoulder_slope_degrees a = Some 180).
Proof.
  unfold PostureAnalysisService._analyze_shoulders, Mirror.mirror. simpl.
  destruct (kp left_shoulder) as [l|], (kp right_shoulder) as [r|]; simpl;
    try (split; [|split; [|split]];
         [reflexivity | reflexivity | intros _; reflexivity | intros []]).
  split; [|split; [|split]].
  - f_equal. rewrite <- round_opp. f_equal. ring.
  - rewrite Rabs_minus_sym. reflexivity.
  - intros Hnl. f_equal. apply slope_mirror; try ring.
    intros [H1 H2]. apply Hnl. split; lra.
  - intros [Hy Hx]. split; f_equal; apply slope_level_reversed; lra.
Qed.

Lemma mirror_hips (W : R) (kp : KeypointDict) :
  let a := PostureAnalysisService._analyze_hips kp in
  let a' := PostureAnalysisService._analyze_hips (Mirror.mirror W kp) in
  Analysis.hip_height_difference a' =
    option_map Ropp (Analysis.hip_height_difference a) /\
  Analysis.has_hip_imbalance a' = Analysis.has_hip_imbalance a /\
  (~ Mirror.level_reversed (kp left_hip) (kp right_hip) ->
   Analysis.hip_slope_degrees a' =
     option_map Ropp (Analysis.hip_slope_degrees a)) /\
  (Mirror.level_reversed (kp left_hip) (kp right_hip) ->
   Analysis.hip_slope_degrees a' = Some 180 /\
   Analysis.hip_slope_degrees a = Some 180).
Proof.
  unfold PostureAnalysisService._analyze_hips, Mirror.mirror. simpl.
  destruct (kp left_hip) as [l|], (kp right_hip) as [r|]; simpl;
    try (split; [|split; [|split]];
         [reflexivity | reflexivity | intros _; reflexivity | intros []]).
  split; [|split; [|split]].
  - f_equal. rewrite <- round_opp. f_equal. ring.
  - rewrite Rabs_minus_sym. reflexivity.
  - intros Hnl. f_equal. apply slope_mirror; try ring.
    intros [H1 H2]. apply Hnl. split; lra.
  - intros [Hy Hx]. split; f_equal; apply slope_level_reversed; lra.
Qed.

(** C9, as stated, fails: level shoulders seen from the front have slope 180
    degrees, and so has their mirror image; the angle is not negated. *)
Lemma mirror_keeps_slope_of_level_front_pose :
  Analysis.shoulder_slope_degrees
    (PostureAnalysisService._analyze_shoulders (Mirror.mirror 400 level_front_pose))
  <> option_map Ropp
       (Analysis.shoulder_slope_degrees
          (PostureAnalysisService._analyze_shoulders level_front_pose)).
Proof.
  destruct (mirror_shoulders 400 level_front_pose) as (_ & _ & _ & H).
  destruct H as [H1 H2]; [simpl; lra|].
  rewrite H1, H2. simpl. intros Heq. injection Heq as Heq. lra.
Qed.

(** C9, amended: mirroring a pose (left and right exchanged, [x] replaced by
    [W - x]) negates the height difference of the shoulders and of the hips,
    keeps the imbalance flags, and negates the slope angle unless the pair is
    level with the right point at the smaller [x]; there the slope is 180
    degrees before and after. *)
Theorem mirror_negates_slope (W : R) (kp : KeypointDict) :
  let s := PostureAnalysisService._analyze_shoulders kp in
  let s' := PostureAnalysisService._analyze_shoulders (Mirror.mirror W kp) in
  let h := PostureAnalysisService._analyze_hips kp in
  let h' := PostureAnalysisService._analyze_hips (Mirror.mirror W kp) in
  (Analysis.shoulder_height_difference s' =
     option_map Ropp (Analysis.shoulder_height_difference s) /\
   Analysis.has_shoulder_imbalance s' = Analysis.has_shoulder_imbalance s /\
   (~ Mirror.level_reversed (kp left_shoulder) (kp right_shoulder) ->
    Analysis.shoulder_slope_degrees s' =
      option_map Ropp (Analysis.shoulder_slope_degrees s)) /\
   (Mirror.level_reversed (kp left_shoulder) (kp right_shoulder) ->
    Analysis.shoulder_slope_degrees s' = Some 180 /\
    Analysis.shoulder_slope_degrees s = Some 180)) /\
  (Analysis.hip_height_difference h' =
     option_map Ropp (Analysis.hip_height_difference h) /\
   Analysis.has_hip_imbalance h' = Analysis.has_hip_imbalance h /\
   (~ Mirror.level_reversed (kp left_hip) (kp right_hip) ->
    Analysis.hip_slope_degrees h' =
      option_map Ropp (Analysis.hip_slope_degrees h)) /\
   (Mirror.level_reversed (kp left_hip) (kp right_hip) ->
    Analysis.hip_slope_degrees h' = Some 180 /\
    Analysis.hip_slope_degrees h = Some 180)).
Proof.
  split; [apply mirror_shoulders | apply mirror_hips].
Qed.

Lemma mirror_negates_slope_witness :
  (~ Mirror.level_reversed (tilted_pose left_shoulder) (tilted_pose right_shoulder)) /\
  (~ Mirror.level_reversed (tilted_pose left_hip) (tilted_pose right_hip)) /\
  Analysis.shoulder_slope_degrees
    (PostureAnalysisService._analyze_shoulders (Mirror.mirror 400 tilted_pose)) =
  option_map Ropp
    (Analysis.shoulder_slope_degrees
       (PostureAnalysisService._analyze_shoulders tilted_pose)) /\
  Analysis.hip_slope_degrees
    (PostureAnalysisService._analyze_hips (Mirror.mirror 400 tilted_pose)) =
  option_map Ropp
    (Analysis.hip_slope_degrees
       (PostureAnalysisService._analyze_hips tilted_pose)) /\
  Analysis.shoulder_slope_degrees
    (PostureAnalysisService._analyze_shoulders (Mirror.mirror 400 level_front_pose)) =
  Some 180.
Proof.
  assert (Hs : ~ Mirror.level_reversed (tilted_pose left_shoulder)
                   (tilted_pose right_shoulder)) by (simpl; lra).
  assert (Hh : ~ Mirror.level_reversed (tilted_pose left_hip)
                   (tilted_pose right_hip)) by (simpl; lra).
  assert (Hl : Mirror.level_reversed (level_front_pose left_shoulder)
                   (level_front_pose right_shoulder)) by (simpl; lra).
  destruct (mirror_negates_slope 400 tilted_pose)
    as ((_ & _ & Ks & _) & (_ & _ & Kh & _)).
  destruct (mirror_negates_slope 400 level_front_pose)
    as ((_ & _ & _ & Kl) & _).
  split; [exact Hs|]. split; [exact Hh|].
  split; [exact (Ks Hs)|]. split; [exact (Kh Hh)|].
  exact (proj1 (Kl Hl)).
Defined.


(** ** Confidence values *)

Lemma fold_left_Rplus (vs : list R) (acc : R) :
  fold_left Rplus vs acc = acc + Reference.sum vs.
Proof.
  revert acc. induction vs as [|v vs IH]; intros acc; simpl.
  - lra.
  - rewrite IH. unfold Reference.sum. simpl. lra.
Qed.


(** The overall confidence is the rounded mean of the key visibilities. *)
Lemma overall_confidence_mean (landmarks : list MediaPipe.landmark) :
  PostureAnalysisService._calculate_overall_confidence landmarks =
  match Reference.key_visibilities landmarks with
  | [] => 0
  | vs => Py.round (Reference.sum vs / INR (List.length vs)) 3
  end.
Proof.
  unfold PostureAnalysisService._calculate_overall_confidence.
  fold (Reference.key_visibilities landmarks).
  destruct (Reference.key_visibilities landmarks) as [|v vs]; [lra|].
  rewrite fold_left_Rplus. do 2 f_equal. lra.
Qed.






(** ** Body composition *)

(** Case analysis on every comparison and every [min] and [max] in sight. *)
Ltac cases :=
  unfold Py.gt, Py.lt, Reference.clamp, Rmin, Rmax in *;
  repeat match goal with
         | |- context [Rlt_dec ?a ?b] => destruct (Rlt_dec a b)
         | |- context [Rle_dec ?a ?b] => destruct (Rle_dec a b)
         | |- context [Req_dec_T ?a ?b] => destruct (Req_dec_T a b)
         | H : context [Rlt_dec ?a ?b] |- _ => destruct (Rlt_dec a b)
         | H : context [Rle_dec ?a ?b] |- _ => destruct (Rle_dec a b)
         end.

Lemma round_half_even_between (lo hi : Z) (v : R) :
  IZR lo <= v <= IZR hi -> (lo <= Py.round_half_even v <= hi)%Z.
Proof.
  intros [H1 H2]. split.
  - rewrite <- (round_half_even_IZR lo). apply round_half_even_mono, H1.
  - rewrite <- (round_half_even_IZR hi). apply round_half_even_mono, H2.
Qed.

Lemma truthy_some (o : option R) (w : R) :
  o = Some w -> w <> 0 -> Py.truthy o = true.
Proof.
  intros -> Hw. unfold Py.truthy. destruct (Req_dec_T w 0); [contradiction | reflexivity].
Qed.

(** The level that the code computes, for a ratio that is present. *)
Lemma analyze_measurements_present (m : Accounts.BodyMeasurements)
    (p : option Accounts.UserProfile) (w : R) :
  Accounts.whr m = Some w -> w <> 0 ->
  let male := match p with
              | Some q => Accounts.gender_is_M (Accounts.gender q)
              | None => false
              end in
  BodyComposition.visceral_fat_level
    (BodyCompositionService._analyze_measurements m p)
  = Some (Reference.visceral_fat_level male w) /\
  BodyComposition.body_shape_type
    (BodyCompositionService._analyze_measurements m p)
  = Some (Reference.body_shape w).
Proof.
  intros Hw Hnz male. unfold BodyCompositionService._analyze_measurements.
  rewrite (truthy_some _ _ Hw Hnz), Hw. simpl. fold male. split; [|reflexivity].
  unfold Reference.visceral_fat_level, Reference.visceral_curve.
  do 2 f_equal. destruct male; cases; lra.
Qed.

Lemma whr_measured : Accounts.whr measured = Some 0.9.
Proof.
  unfold Accounts.whr, measured, Py.truthy. simpl.
  destruct (Req_dec_T 90 0); [lra|]. destruct (Req_dec_T 100 0); [lra|]. simpl.
  f_equal. replace (Py.round _ 3) with (IZR 900 / 10 ^ 3); [simpl; lra | symmetry].
  round_at 900%Z.
Qed.

(** The measurements and the photograph leave the muscle estimate alone. *)
Lemma analyze_measurements_no_muscle (m : Accounts.BodyMeasurements)
    (p : option Accounts.UserProfile) :
  BodyComposition.estimated_muscle_mass
    (BodyCompositionService._analyze_measurements m p) = None.
Proof.
  unfold BodyCompositionService._analyze_measurements.
  destruct (Py.truthy (Accounts.whr m)); reflexivity.
Qed.

Lemma round_22_5 : Py.round 22.5 1 = 22.5.
Proof.
  replace (Py.round 22.5 1) with (IZR 225 / 10 ^ 1); [simpl; lra | symmetry].
  round_at 225%Z.
Qed.

Lemma round_42_75 : Py.round 42.75 1 = 42.8.
Proof.
  replace (Py.round 42.75 1) with (IZR 428 / 10 ^ 1); [simpl; lra | symmetry].
  round_at 428%Z.
Qed.

(** C10: for every profile the estimated muscle mass exists and lies in
    [22.5, 42.8]: body fat is clamped to [5, 50], so (100 - fat) * 0.45 lies
    in [22.5, 42.75], and rounding to one decimal takes 42.75 to 42.8. *)
Theorem muscle_mass_bounds (p : Accounts.UserProfile)
    (m : option Accounts.BodyMeasurements) (photo_path : option string) :
  exists mm,
    BodyComposition.estimated_muscle_mass
      (BodyCompositionService.estimate_body_composition (Some p) m photo_path)
    = Some mm /\ 22.5 <= mm <= 42.8.
Proof.
  unfold BodyCompositionService.estimate_body_composition.
  set (fat := Rmax 5 (Rmin 50 _)).
  exists (Py.round ((100 - fat) * 0.45) 1). split.
  - destruct m as [m|], photo_path as [[|c s]|]; simpl;
      rewrite ?analyze_measurements_no_muscle; reflexivity.
  - assert (Hfat : 5 <= fat <= 50).
    { unfold fat, Rmax, Rmin. repeat destruct (Rle_dec _ _); lra. }
    split.
    + rewrite <- round_22_5. apply round_mono. lra.
    + rewrite <- round_42_75. apply round_mono. lra.
Qed.


(** ** The progress score *)

Lemma round_10_ten : Py.round 10.0 1 = 10.0.
Proof.
  replace (Py.round 10.0 1) with (IZR 100 / 10 ^ 1); [simpl; lra | symmetry].
  round_at 100%Z.
Qed.


(** ** Recommendations *)

Lemma text_recommendations_table (a : Analysis.t) :
  PostureAnalysisService._generate_recommendations a =
  match Reference.fire Reference.text_rules a with
  | [] => [Reference.text_generic]
  | fired => fired
  end.
Proof.
  unfold PostureAnalysisService._generate_recommendations, Reference.fire,
    Reference.text_rules, Reference.text_shoulder, Reference.text_forward_head,
    Reference.text_hip, Reference.text_knee. simpl.
  destruct (Py.get (Analysis.has_shoulder_imbalance a) false),
    (Py.get (Analysis.forward_head_posture a) false),
    (Py.get (Analysis.has_hip_imbalance a) false),
    (Py.get (Analysis.has_knee_valgus a) false); reflexivity.
Qed.

Lemma engine_recommendations_table (pa : Models.PostureAnalysis) :
  RecommendationEngine.generate_posture_recommendations pa =
  Reference.fire Reference.engine_rules pa.
Proof.
  unfold RecommendationEngine.generate_posture_recommendations, Reference.fire,
    Reference.engine_rules, Reference.engine_shoulder, Reference.engine_hip,
    Reference.engine_knee. simpl.
  destruct (Models.has_shoulder_imbalance pa), (Models.has_hip_imbalance pa),
    (Models.has_knee_valgus pa); reflexivity.
Qed.

Lemma fire_length {I A : Type} (rules : list (I -> option A)) (input : I) :
  (List.length (Reference.fire rules input) <= List.length rules)%nat.
Proof.
  unfold Reference.fire. induction rules as [|rule rules IH]; simpl; [lia|].
  rewrite length_app. destruct (rule input); simpl; lia.
Qed.

(** C2, as stated, fails: on an analysis without metrics no rule of the
    engine fires, and the engine returns the empty list, not a generic
    recommendation. *)
Lemma engine_returns_empty_list :
  RecommendationEngine.generate_posture_recommendations Models.create = [] /\
  List.length (RecommendationEngine.generate_posture_recommendations Models.create)
  <> 1%nat.
Proof. split; [reflexivity | simpl; discriminate]. Qed.

(** C2, amended: the text recommender of the posture service evaluates its
    rules in the order shoulder imbalance, forward head, hip imbalance, knee
    valgus, each firing rule giving one message, and gives the one generic
    message when no rule fires, so its list is never empty; the structured
    engine evaluates the rules shoulder imbalance, hip imbalance, knee valgus
    in this order, each firing rule giving one recommendation with its fixed
    category, priority, title, description and action steps; it has no
    forward-head rule and no generic recommendation, and returns the empty
    list exactly when no rule fires. *)
Theorem recommendation_rules (a : Analysis.t) (pa : Models.PostureAnalysis) :
  let texts := PostureAnalysisService._generate_recommendations a in
  let recs := RecommendationEngine.generate_posture_recommendations pa in
  (Reference.fire Reference.text_rules a <> [] ->
     texts = Reference.fire Reference.text_rules a) /\
  (Reference.fire Reference.text_rules a = [] ->
     texts = [Reference.text_generic]) /\
  (1 <= List.length texts <= 4)%nat /\
  recs = Reference.fire Reference.engine_rules pa /\
  (List.length recs <= 3)%nat /\
  (recs = [] <->
   Models.has_shoulder_imbalance pa = false /\
   Models.has_hip_imbalance pa = false /\
   Models.has_knee_valgus pa = false).
Proof.
  intros texts recs. unfold texts, recs.
  rewrite text_recommendations_table, engine_recommendations_table.
  pose proof (fire_length Reference.text_rules a) as Ht.
  pose proof (fire_length Reference.engine_rules pa) as He.
  change (List.length Reference.text_rules) with 4%nat in Ht.
  change (List.length Reference.engine_rules) with 3%nat in He.
  split; [|split; [|split; [|split; [|split]]]].
  - intros H. destruct (Reference.fire Reference.text_rules a); [contradiction | reflexivity].
  - intros ->. reflexivity.
  - destruct (Reference.fire Reference.text_rules a); simpl in *; lia.
  - reflexivity.
  - exact He.
  - unfold Reference.fire, Reference.engine_rules, Reference.engine_shoulder,
      Reference.engine_hip, Reference.engine_knee. simpl.
    destruct (Models.has_shoulder_imbalance pa), (Models.has_hip_imbalance pa),
      (Models.has_knee_valgus pa); simpl;
      (split; [intros H; try discriminate H; repeat split
              | intros (H1 & H2 & H3); try discriminate; reflexivity]).
Qed.

Lemma recommendation_rules_witness :
  Reference.fire Reference.text_rules sample_metrics <> [] /\
  PostureAnalysisService._generate_recommendations sample_metrics =
  Reference.fire Reference.text_rules sample_metrics /\
  PostureAnalysisService._generate_recommendations Analysis.empty =
  [Reference.text_generic].
Proof.
  assert (H : Reference.fire Reference.text_rules sample_metrics <> [])
    by (simpl; discriminate).
  split; [exact H|]. split.
  - exact (proj1 (recommendation_rules sample_metrics Models.create) H).
  - apply (proj1 (proj2 (recommendation_rules Analysis.empty Models.create))).
    reflexivity.
Defined.


(** ** The posture view *)

(** A photograph without landmarks leaves the state of the view as it is. *)
Lemma analyse_front_no_pose (photo : option Views.PhotoUpload) (st : Views.state) :
  Reference.no_pose photo -> Views.analyse_front photo st = st.
Proof.
  unfold Reference.no_pose, Views.analyse_front,
    PostureAnalysisService.analyze_posture_from_image.
  destruct photo as [ph|]; [|reflexivity].
  destruct (Views.image ph) as [file|]; [|reflexivity].
  destruct (Views.imread file) as [im|]; [|reflexivity].
  intros ->. reflexivity.
Qed.

Lemma analyse_back_no_pose (photo : option Views.PhotoUpload) (st : Views.state) :
  Reference.no_pose photo -> Views.analyse_back photo st = st.
Proof.
  unfold Reference.no_pose, Views.analyse_back,
    PostureAnalysisService.analyze_posture_from_image.
  destruct photo as [ph|]; [|reflexivity].
  destruct (Views.image ph) as [file|]; [|reflexivity].
  destruct (Views.imread file) as [im|]; [|reflexivity].
  intros ->. reflexivity.
Qed.

(** C3: when at least one photograph is uploaded and no landmarks are
    obtained from any, the view answers 201 with a posture score of exactly
    5.0 and creates exactly one recommendation, the generic one of low
    priority; the count it reports is 1. *)
Theorem no_detection_fallback (front_photo back_photo : option Views.PhotoUpload) :
  front_photo <> None \/ back_photo <> None ->
  Reference.no_pose front_photo -> Reference.no_pose back_photo ->
  exists analysis,
    Views.post front_photo back_photo =
      (Views.HTTP_201_CREATED analysis 1, [Views.basic_recommendation]) /\
    Models.posture_score analysis = Some 5.0 /\
    Models.priority Views.basic_recommendation = "low"%string.
Proof.
  intros Hsome Hf Hb. unfold Views.post.
  assert (Hst : forall st,
            Views.analyse_back back_photo (Views.analyse_front front_photo st) = st).
  { intros st. rewrite (analyse_front_no_pose _ _ Hf). apply (analyse_back_no_pose _ _ Hb). }
  assert (Hbase :
    Views.use_base_values
      {| Views.posture_analysis := Models.create; Views.rows := [];
         Views.total_recommendations := 0 |} =
    {| Views.posture_analysis :=
         {| Models.shoulder_slope_degrees := None; Models.hip_slope_degrees := None;
            Models.knee_valgus_angle := None; Models.head_tilt_degrees := None;
            Models.front_keypoints := fun _ => None;
            Models.back_keypoints := fun _ => None;
            Models.posture_score := Some 5.0 |};
       Views.rows := [Views.basic_recommendation];
       Views.total_recommendations := 1 |}) by reflexivity.
  exists {| Models.shoulder_slope_degrees := None; Models.hip_slope_degrees := None;
            Models.knee_valgus_angle := None; Models.head_tilt_degrees := None;
            Models.front_keypoints := fun _ => None;
            Models.back_keypoints := fun _ => None;
            Models.posture_score := Some 5.0 |}.
  split; [|split; reflexivity].
  destruct front_photo as [f|], back_photo as [b|];
    try (rewrite Hst, Hbase; reflexivity).
  destruct Hsome as [H|H]; contradiction.
Qed.

Lemma no_detection_fallback_witness :
  exists analysis,
    Views.post (Some empty_room) None =
      (Views.HTTP_201_CREATED analysis 1, [Views.basic_recommendation]) /\
    Models.posture_score analysis = Some 5.0 /\
    Models.priority Views.basic_recommendation = "low"%string.
Proof.
  apply (no_detection_fallback (Some empty_room) None).
  - left. discriminate.
  - reflexivity.
  - exact I.
Defined.


(** *** Two views *)

Lemma fold_create_analysis (texts : list string) (st : Views.state) :
  Views.posture_analysis (fold_left Views.create_recommendation texts st) =
  Views.posture_analysis st.
Proof.
  revert st. induction texts as [|t texts IH]; intros st; simpl; [reflexivity|].
  rewrite IH. reflexivity.
Qed.

(** The block of the front photograph never stores a hip slope. *)
Lemma analyse_front_hip (photo : option Views.PhotoUpload) (st : Views.state) :
  Models.hip_slope_degrees (Views.posture_analysis (Views.analyse_front photo st)) =
  Models.hip_slope_degrees (Views.posture_analysis st).
Proof.
  unfold Views.analyse_front.
  destruct photo as [ph|]; [|reflexivity].
  destruct (Views.image ph) as [file|]; [|reflexivity].
  destruct (PostureAnalysisService.analyze_posture_from_image (Views.imread file));
    [reflexivity|].
  rewrite fold_create_analysis. reflexivity.
Qed.

(** It stores the score of the front analysis. *)
Lemma analyse_front_score (ph : Views.PhotoUpload) (fa : Analysis.t) (st : Views.state) :
  Reference.results_of ph = Some fa ->
  Models.posture_score (Views.posture_analysis (Views.analyse_front (Some ph) st)) =
  Analysis.posture_score fa.
Proof.
  unfold Reference.results_of, Views.analyse_front.
  destruct (Views.image ph) as [file|]; [|discriminate].
  destruct (PostureAnalysisService.analyze_posture_from_image (Views.imread file));
    [discriminate|].
  intros H. injection H as <-. rewrite fold_create_analysis. reflexivity.
Qed.

(** A successful analysis carries a score of at least 1.0. *)
Lemma results_score (ph : Views.PhotoUpload) (a : Analysis.t) :
  Reference.results_of ph = Some a ->
  exists sc, Analysis.posture_score a = Some sc /\ 1 <= sc.
Proof.
  unfold Reference.results_of, PostureAnalysisService.analyze_posture_from_image.
  destruct (Views.image ph) as [file|]; [|discriminate].
  destruct (Views.imread file) as [im|]; [|discriminate].
  destruct (pose_landmarks im) as [lms|]; [|discriminate].
  intros H. injection H as <-. eexists. split; [reflexivity|].
  unfold PostureAnalysisService._calculate_posture_score.
  eapply Rle_trans; [|apply Rmax_l]. lra.
Qed.

Lemma two_views_stored (front back : Views.PhotoUpload) (fa ba : Analysis.t)
    (fs bs : R) :
  Reference.results_of front = Some fa -> Reference.results_of back = Some ba ->
  Analysis.posture_score fa = Some fs -> Analysis.posture_score ba = Some bs ->
  1 <= fs ->
  exists analysis n rows,
    Views.post (Some front) (Some back) = (Views.HTTP_201_CREATED analysis n, rows) /\
    Models.posture_score analysis = Some ((fs + bs) / 2) /\
    Models.hip_slope_degrees analysis = Analysis.hip_slope_degrees ba.
Proof.
  intros Hf Hb Hfs Hbs Hge. unfold Views.post.
  set (st0 := {| Views.posture_analysis := Models.create; Views.rows := [];
                 Views.total_recommendations := 0 |}).
  pose proof (analyse_front_hip (Some front) st0) as Hhip.
  pose proof (analyse_front_score front fa st0 Hf) as Hsc.
  rewrite Hfs in Hsc.
  set (st1 := Views.analyse_front (Some front) st0) in *.
  assert (Hback :
    Models.posture_score (Views.posture_analysis (Views.analyse_back (Some back) st1))
      = Some ((fs + bs) / 2) /\
    Models.hip_slope_degrees (Views.posture_analysis (Views.analyse_back (Some back) st1))
      = Analysis.hip_slope_degrees ba).
  { unfold Views.analyse_back. unfold Reference.results_of in Hb.
    destruct (Views.image back) as [file|]; [|discriminate].
    destruct (PostureAnalysisService.analyze_posture_from_image (Views.imread file));
      [discriminate|].
    injection Hb as ->. simpl. rewrite Hhip, Hsc, Hbs. simpl.
    unfold Py.truthy. destruct (Req_dec_T fs 0); [lra|]. split; reflexivity. }
  destruct Hback as [H1 H2].
  set (st2 := Views.analyse_back (Some back) st1) in *.
  assert (Hbase : Views.use_base_values st2 = st2).
  { unfold Views.use_base_values. rewrite H1. unfold Py.truthy.
    destruct (Req_dec_T ((fs + bs) / 2) 0) as [E|E]; [|reflexivity].
    exfalso.
    destruct (results_score back ba Hb) as (bs' & Hbs' & Hge').
    rewrite Hbs in Hbs'. injection Hbs' as <-. lra. }
  rewrite Hbase.
  exists (Views.posture_analysis st2), (Views.total_recommendations st2), (Views.rows st2).
  split; [reflexivity|]. split; assumption.
Qed.

(** When both views are analysed, the stored score is the mean of the two
    scores, and the stored hip slope is the one of the back view, whatever
    the front view measured. *)
Lemma two_views (front back : Views.PhotoUpload) (fa ba : Analysis.t) :
  Reference.results_of front = Some fa -> Reference.results_of back = Some ba ->
  exists fs bs analysis n rows,
    Analysis.posture_score fa = Some fs /\
    Analysis.posture_score ba = Some bs /\
    Views.post (Some front) (Some back) = (Views.HTTP_201_CREATED analysis n, rows) /\
    Models.posture_score analysis = Some ((fs + bs) / 2) /\
    Models.hip_slope_degrees analysis = Analysis.hip_slope_degrees ba.
Proof.
  intros Hf Hb.
  destruct (results_score front fa Hf) as (fs & Hfs & Hge).
  destruct (results_score back ba Hb) as (bs & Hbs & _).
  destruct (two_views_stored front back fa ba fs bs Hf Hb Hfs Hbs Hge)
    as (analysis & n & rows & H1 & H2 & H3).
  exists fs, bs, analysis, n, rows. repeat split; assumption.
Qed.

(** The hip keys come from the hip analysis alone. *)
Lemma shoulders_no_hip (kp : KeypointDict) :
  Analysis.hip_slope_degrees (PostureAnalysisService._analyze_shoulders kp) = None.
Proof.
  unfold PostureAnalysisService._analyze_shoulders.
  destruct (kp left_shoulder), (kp right_shoulder); reflexivity.
Qed.

Lemma head_no_hip (kp : KeypointDict) :
  Analysis.hip_slope_degrees (PostureAnalysisService._analyze_head_position kp) = None.
Proof.
  unfold PostureAnalysisService._analyze_head_position.
  destruct (kp nose), (kp left_shoulder), (kp right_shoulder); reflexivity.
Qed.

Lemma knees_no_hip (kp : KeypointDict) :
  Analysis.hip_slope_degrees (PostureAnalysisService._analyze_knees kp) = None.
Proof.
  unfold PostureAnalysisService._analyze_knees.
  destruct (kp left_knee), (kp right_knee), (kp left_ankle), (kp right_ankle),
    (kp left_hip), (kp right_hip); reflexivity.
Qed.

Lemma results_hip_slope (lms : list MediaPipe.landmark) :
  exists a,
    Reference.results_of (photo_of lms) = Some a /\
    Analysis.hip_slope_degrees a =
    Analysis.hip_slope_degrees
      (PostureAnalysisService._analyze_hips
         (PostureAnalysisService._extract_keypoints lms 400 400)).
Proof.
  eexists. split; [reflexivity|]. simpl.
  rewrite shoulders_no_hip, head_no_hip, knees_no_hip.
  destruct (Analysis.hip_slope_degrees _); reflexivity.
Qed.

Lemma hips_of_landmarks (lx ly rx ry : R) :
  Analysis.hip_slope_degrees
    (PostureAnalysisService._analyze_hips
       (PostureAnalysisService._extract_keypoints
          (landmarks_with_hips lx ly rx ry) 400 400)) =
  Some (Py.round
          (if Req_dec_T (rx * 400 - lx * 400) 0 then 0
           else Py.degrees (Py.atan2 (ry * 400 - ly * 400) (rx * 400 - lx * 400))) 2).
Proof. reflexivity. Qed.

Lemma slope_diagonal (dx dy : R) :
  0 < dx -> dy = dx ->
  Py.round (if Req_dec_T dx 0 then 0 else Py.degrees (Py.atan2 dy dx)) 2 = 45.
Proof.
  intros Hdx ->. destruct (Req_dec_T dx 0); [lra|].
  unfold Py.atan2. destruct (Rlt_dec 0 dx); [|lra].
  replace (dx / dx) with 1 by (field; lra). rewrite atan_1.
  replace (Py.degrees (PI / 4)) with (IZR 4500 / 10 ^ 2)
    by (unfold Py.degrees; simpl; field; apply PI_neq0).
  rewrite round_fixed. simpl. lra.
Qed.

Lemma slope_level (dx dy : R) :
  0 < dx -> dy = 0 ->
  Py.round (if Req_dec_T dx 0 then 0 else Py.degrees (Py.atan2 dy dx)) 2 = 0.
Proof.
  intros Hdx ->. destruct (Req_dec_T dx 0); [lra|].
  unfold Py.atan2. destruct (Rlt_dec 0 dx); [|lra].
  unfold Rdiv. rewrite Rmult_0_l, atan_0.
  unfold Py.degrees. rewrite Rmult_0_l. apply round_0.
Qed.

(** C4, at the failing input: the front view measures a hip slope of 45
    degrees, the back view one of 0 degrees; the claim makes the front value
    the stored one, and the view stores 0, the value of the back view. *)
Theorem back_view_overrides_front_hip_slope :
  exists fa ba analysis n rows,
    Reference.results_of front_tilted = Some fa /\
    Reference.results_of back_level = Some ba /\
    Analysis.hip_slope_degrees fa = Some 45 /\
    Analysis.hip_slope_degrees ba = Some 0 /\
    Views.post (Some front_tilted) (Some back_level) =
      (Views.HTTP_201_CREATED analysis n, rows) /\
    Models.hip_slope_degrees analysis = Some 0.
Proof.
  destruct (results_hip_slope (landmarks_with_hips 0.25 0.5 0.5 0.75))
    as (fa & Hfa & Hfh).
  destruct (results_hip_slope (landmarks_with_hips 0.25 0.5 0.5 0.5))
    as (ba & Hba & Hbh).
  rewrite hips_of_landmarks, slope_diagonal in Hfh by lra.
  rewrite hips_of_landmarks, slope_level in Hbh by lra.
  destruct (two_views front_tilted back_level fa ba Hfa Hba)
    as (fs & bs & analysis & n & rows & _ & _ & Hpost & _ & Hhip).
  exists fa, ba, analysis, n, rows.
  repeat split; try assumption. rewrite Hhip. exact Hbh.
Qed.


(** ** Values in double precision *)

Section DoublePrecision.
Import PrimFloat SpecFloat FloatOps FloatAxioms.

(** A strict comparison of doubles gives the weak one. *)
Lemma ltb_leb (x y : float) : (x <? y)%float = true -> (x <=? y)%float = true.
Proof.
  rewrite ltb_spec, leb_spec. unfold SFltb, SFleb.
  destruct (SFcompare (Prim2SF x) (Prim2SF y)) as [[]|]; congruence.
Qed.

Lemma max_lower (a b : float) :
  (a <=? a)%float = true -> (a <=? Binary64.max a b)%float = true.
Proof.
  intros H. unfold Binary64.max.
  destruct (a <? b)%float eqn:E; [apply ltb_leb, E | exact H].
Qed.

Lemma min_upper (a b : float) :
  (a <=? a)%float = true -> (Binary64.min a b <=? a)%float = true.
Proof.
  intros H. unfold Binary64.min.
  destruct (b <? a)%float eqn:E; [apply ltb_leb, E | exact H].
Qed.

Lemma min_lower (lo a b : float) :
  (lo <=? a)%float = true -> (lo <=? b)%float = true ->
  (lo <=? Binary64.min a b)%float = true.
Proof.
  intros Ha Hb. unfold Binary64.min. destruct (b <? a)%float; assumption.
Qed.



(** [round] on doubles at the usual test values: the double 2.675 lies below
    the decimal and rounds down, a tie that is a double goes to the even
    digit, a small negative number rounds to the negative zero, and the
    nearest integer of an infinity or of a NaN does not exist. *)
Lemma round_on_doubles :
  (Binary64.round 2.675 2 = 2.67 /\ Binary64.round 0.125 2 = 0.12 /\
   Binary64.round 9.95 1 = 9.9 /\ Binary64.round 5.55 1 = 5.5 /\
   Binary64.round (-0.04) 1 = (-0.0))%float /\
  (Binary64.round_int 0.5 = Some 0 /\ Binary64.round_int 1.5 = Some 2 /\
   Binary64.round_int 2.5 = Some 2 /\ Binary64.round_int (-2.5) = Some (-2) /\
   Binary64.round_int 15.499999999999998 = Some 15 /\
   Binary64.round_int infinity = None /\ Binary64.round_int nan = None)%Z.
Proof. vm_compute. repeat split. Qed.

(** The exact value of a double that a vm computation gives. *)
Ltac exact_value x n d :=
  let H := fresh "H" in
  assert (H : Binary64.exact_fraction x = (n, d)) by (vm_compute; reflexivity);
  unfold Binary64.to_R; rewrite H; clear H; simpl fst; simpl snd.











(** C8, as stated, fails: with a weight delta of +1.0 and a posture delta of
    +0.15 the formula gives 5.075, on doubles as in exact arithmetic at the
    stored values, and the code returns 5.1, because it rounds the sum to
    one decimal. *)
Lemma progress_score_is_rounded :
  Binary64.ProgressTrackingService._calculate_overall_progress_score
    Binary64.Samples.slow_month
  = 5.1%float /\
  Binary64.Reference.clamp 1.0 10.0
    (fold_left add (Binary64.Reference.rewards Binary64.Samples.slow_month)
       5.0%float)
  = 5.075%float /\
  (Reference.progress_score (Binary64.to_R 1.0) (Binary64.to_R 0.15) < 5.08
   < Binary64.to_R
       (Binary64.ProgressTrackingService._calculate_overall_progress_score
          Binary64.Samples.slow_month))%R.
Proof.
  assert (Hc : Binary64.ProgressTrackingService._calculate_overall_progress_score
                 Binary64.Samples.slow_month = 5.1%float)
    by (vm_compute; reflexivity).
  split; [exact Hc|]. split; [vm_compute; reflexivity|].
  rewrite Hc. split.
  - assert (H1 : Binary64.to_R 1.0 = 1%R)
      by (exact_value 1.0%float 1%Z 1%Z; lra).
    rewrite H1.
    exact_value 0.15%float 5404319552844595%Z 36028797018963968%Z.
    unfold Reference.progress_score, Reference.progress_sum.
    cases; lra.
  - exact_value 5.1%float 2871044762448691%Z 562949953421312%Z. lra.
Qed.

(** C8, amended: the progress score is computed on doubles: start at 5.0,
    add min(|weight_delta| * 0.5, 2.5) exactly when a weight delta is
    present and negative, then add min(posture_delta * 0.5, 2.5) when a
    posture improvement is present (the delta counting as 0 when its key is
    missing), round the double so obtained to one decimal, and clamp the
    result to [1.0, 10.0].  The score always lies in [1.0, 10.0], and a
    weight delta that is not negative leaves it as it is without one.  A
    weight delta of -3.0 with a posture delta of +1.0 gives exactly 7.0; a
    weight delta of -1.1 with an unchanged posture gives 5.5. *)
Theorem progress_score_in_doubles :
  (forall progress : Binary64.Changes.t,
     Binary64.ProgressTrackingService._calculate_overall_progress_score progress
     = Binary64.Reference.progress_score progress) /\
  (forall progress : Binary64.Changes.t,
     (1.0 <=? Binary64.ProgressTrackingService._calculate_overall_progress_score
                progress)%float = true /\
     (Binary64.ProgressTrackingService._calculate_overall_progress_score
        progress <=? 10.0)%float = true) /\
  (forall (weight_delta : float)
          (improvement : option Binary64.Changes.improvement),
     (weight_delta <? 0)%float = false ->
     Binary64.ProgressTrackingService._calculate_overall_progress_score
       {| Binary64.Changes.weight_change := Some weight_delta;
          Binary64.Changes.posture_improvement := improvement |}
     = Binary64.ProgressTrackingService._calculate_overall_progress_score
         {| Binary64.Changes.weight_change := None;
            Binary64.Changes.posture_improvement := improvement |}) /\
  Binary64.ProgressTrackingService._calculate_overall_progress_score
    Binary64.Samples.good_month
  = 7.0%float /\
  Binary64.ProgressTrackingService._calculate_overall_progress_score
    Binary64.Samples.light_month
  = 5.5%float.
Proof.
  split; [|split; [|split; [|split]]].
  - intros [[wd|] [i|]];
      unfold Binary64.ProgressTrackingService._calculate_overall_progress_score,
        Binary64.Reference.progress_score, Binary64.Reference.rewards;
      simpl; try destruct (wd <? 0)%float; reflexivity.
  - intros progress.
    unfold Binary64.ProgressTrackingService._calculate_overall_progress_score.
    split.
    + apply min_lower; [reflexivity | apply max_lower; reflexivity].
    + apply min_upper. reflexivity.
  - intros wd i Hwd.
    unfold Binary64.ProgressTrackingService._calculate_overall_progress_score.
    simpl. rewrite Hwd. reflexivity.
  - vm_compute; reflexivity.
  - vm_compute; reflexivity.
Qed.

Lemma progress_score_in_doubles_witness :
  (1.0 <? 0)%float = false /\
  Binary64.ProgressTrackingService._calculate_overall_progress_score
    Binary64.Samples.slow_month
  = Binary64.ProgressTrackingService._calculate_overall_progress_score
      {| Binary64.Changes.weight_change := None;
         Binary64.Changes.posture_improvement :=
           Binary64.Changes.posture_improvement Binary64.Samples.slow_month |}.
Proof.
  split; [reflexivity|].
  exact (proj1 (proj2 (proj2 progress_score_in_doubles))
           1.0%float
           (Binary64.Changes.posture_improvement Binary64.Samples.slow_month)
           eq_refl).
Defined.

End DoublePrecision.

(** * Further properties of the code *)

(** ** Keypoints and partial detection *)

(** X1: a name is in the keypoint dictionary exactly when its index is below
    the number of landmarks, its point is the landmark scaled to pixels, and
    a list of at least 33 landmarks gives every name. *)
Theorem extract_keypoints_present (landmarks : list MediaPipe.landmark) (w h : Z) :
  let kp := PostureAnalysisService._extract_keypoints landmarks w h in
  (forall name,
     kp name <> None <->
     (PostureAnalysisService.key_points name < List.length landmarks)%nat) /\
  (forall name k, kp name = Some k ->
     exists lm,
       nth_error landmarks (PostureAnalysisService.key_points name) = Some lm /\
       Keypoint.x k = MediaPipe.x lm * IZR w /\
       Keypoint.y k = MediaPipe.y lm * IZR h /\
       Keypoint.visibility k = MediaPipe.visibility lm) /\
  ((33 <= List.length landmarks)%nat -> forall name, kp name <> None).
Proof.
  intros kp.
  assert (H1 : forall name,
            kp name <> None <->
            (PostureAnalysisService.key_points name < List.length landmarks)%nat).
  { intros name. unfold kp, PostureAnalysisService._extract_keypoints.
    rewrite <- nth_error_Some.
    destruct (nth_error landmarks (PostureAnalysisService.key_points name));
      split; intros H; try discriminate; congruence. }
  split; [exact H1|]. split.
  - intros name k. unfold kp, PostureAnalysisService._extract_keypoints.
    destruct (nth_error landmarks (PostureAnalysisService.key_points name)) as [lm|];
      [|discriminate].
    intros H. injection H as <-. exists lm. repeat split.
  - intros Hlen name. apply H1. destruct name; simpl; lia.
Qed.

Lemma extract_keypoints_present_witness :
  (33 <= List.length visible_landmarks)%nat /\
  PostureAnalysisService._extract_keypoints visible_landmarks 400 400 nose <> None /\
  PostureAnalysisService._extract_keypoints visible_landmarks 400 400 right_foot <> None.
Proof.
  assert (H : (33 <= List.length visible_landmarks)%nat) by (simpl; lia).
  split; [exact H|].
  split;
    apply (proj2 (proj2 (extract_keypoints_present visible_landmarks 400 400)) H).
Defined.

(** Each sub-analysis is the empty dictionary or its four or five keys. *)
Lemma shoulders_shape (kp : KeypointDict) :
  PostureAnalysisService._analyze_shoulders kp = Analysis.empty \/
  exists a b c d,
    PostureAnalysisService._analyze_shoulders kp = Analysis.of_shoulders a b c d.
Proof.
  unfold PostureAnalysisService._analyze_shoulders.
  destruct (kp left_shoulder), (kp right_shoulder); eauto 6.
Qed.

Lemma head_shape (kp : KeypointDict) :
  PostureAnalysisService._analyze_head_position kp = Analysis.empty \/
  exists a b c d e,
    PostureAnalysisService._analyze_head_position kp = Analysis.of_head a b c d e.
Proof.
  unfold PostureAnalysisService._analyze_head_position.
  destruct (kp nose), (kp left_shoulder), (kp right_shoulder); eauto 7.
Qed.

Lemma hips_shape (kp : KeypointDict) :
  PostureAnalysisService._analyze_hips kp = Analysis.empty \/
  exists a b c d,
    PostureAnalysisService._analyze_hips kp = Analysis.of_hips a b c d.
Proof.
  unfold PostureAnalysisService._analyze_hips.
  destruct (kp left_hip), (kp right_hip); eauto 6.
Qed.

Lemma knees_shape (kp : KeypointDict) :
  PostureAnalysisService._analyze_knees kp = Analysis.empty \/
  exists a b c d e,
    PostureAnalysisService._analyze_knees kp = Analysis.of_knees a b c d e.
Proof.
  unfold PostureAnalysisService._analyze_knees.
  destruct (kp left_knee), (kp right_knee), (kp left_ankle), (kp right_ankle),
    (kp left_hip), (kp right_hip); eauto 7.
Qed.

(** The keys of the four sub-analyses are disjoint: in the merged record each
    metric is the one of its own sub-analysis. *)
Lemma metrics_fields (kp : KeypointDict) :
  let a := PostureAnalysisService._calculate_posture_metrics kp in
  let s := PostureAnalysisService._analyze_shoulders kp in
  let hd := PostureAnalysisService._analyze_head_position kp in
  let h := PostureAnalysisService._analyze_hips kp in
  let k := PostureAnalysisService._analyze_knees kp in
  (Analysis.shoulder_slope_degrees a = Analysis.shoulder_slope_degrees s /\
   Analysis.shoulder_height_difference a = Analysis.shoulder_height_difference s /\
   Analysis.has_shoulder_imbalance a = Analysis.has_shoulder_imbalance s /\
   Analysis.shoulder_confidence a = Analysis.shoulder_confidence s) /\
  (Analysis.head_tilt_degrees a = Analysis.head_tilt_degrees hd /\
   Analysis.forward_head_posture a = Analysis.forward_head_posture hd /\
   Analysis.head_confidence a = Analysis.head_confidence hd) /\
  (Analysis.hip_slope_degrees a = Analysis.hip_slope_degrees h /\
   Analysis.hip_height_difference a = Analysis.hip_height_difference h /\
   Analysis.has_hip_imbalance a = Analysis.has_hip_imbalance h /\
   Analysis.hip_confidence a = Analysis.hip_confidence h) /\
  (Analysis.knee_valgus_angle a = Analysis.knee_valgus_angle k /\
   Analysis.has_knee_valgus a = Analysis.has_knee_valgus k /\
   Analysis.knee_confidence a = Analysis.knee_confidence k).
Proof.
  unfold PostureAnalysisService._calculate_posture_metrics.
  destruct (shoulders_shape kp) as [Es|(? & ? & ? & ? & Es)];
    destruct (head_shape kp) as [Ed|(? & ? & ? & ? & ? & Ed)];
    destruct (hips_shape kp) as [Eh|(? & ? & ? & ? & Eh)];
    destruct (knees_shape kp) as [Ek|(? & ? & ? & ? & ? & Ek)];
    rewrite Es, Ed, Eh, Ek; repeat split.
Qed.

Lemma shoulders_missing (kp : KeypointDict) :
  kp left_shoulder = None \/ kp right_shoulder = None ->
  PostureAnalysisService._analyze_shoulders kp = Analysis.empty /\
  PostureAnalysisService._analyze_head_position kp = Analysis.empty.
Proof.
  unfold PostureAnalysisService._analyze_shoulders,
    PostureAnalysisService._analyze_head_position.
  intros [H|H]; rewrite H;
    destruct (kp nose), (kp left_shoulder), (kp right_shoulder); split; reflexivity.
Qed.

Lemma hips_missing (kp : KeypointDict) :
  kp left_hip = None \/ kp right_hip = None ->
  PostureAnalysisService._analyze_hips kp = Analysis.empty /\
  PostureAnalysisService._analyze_knees kp = Analysis.empty.
Proof.
  unfold PostureAnalysisService._analyze_hips, PostureAnalysisService._analyze_knees.
  intros [H|H]; rewrite H;
    destruct (kp left_knee), (kp right_knee), (kp left_ankle), (kp right_ankle),
      (kp left_hip), (kp right_hip); split; reflexivity.
Qed.

Lemma posture_score_ge_1 (m : Analysis.t) :
  1 <= PostureAnalysisService._calculate_posture_score m.
Proof.
  rewrite posture_score_unfold. eapply Rle_trans; [|apply Rmax_l]. lra.
Qed.

Lemma posture_score_le_10 (m : Analysis.t) :
  (forall v, Analysis.knee_valgus_angle m = Some v -> 0 <= v) ->
  PostureAnalysisService._calculate_posture_score m <= 10.
Proof.
  intros Hknee. rewrite posture_score_unfold.
  pose proof (capped_nonneg (Analysis.shoulder_slope_degrees m) Rabs 5 2.5
                ltac:(lra) ltac:(lra) (fun v _ => Rabs_pos v)) as H1.
  pose proof (capped_nonneg (Analysis.hip_slope_degrees m) Rabs 5 2.0
                ltac:(lra) ltac:(lra) (fun v _ => Rabs_pos v)) as H2.
  pose proof (capped_nonneg (Analysis.head_tilt_degrees m) Rabs 10 1.5
                ltac:(lra) ltac:(lra) (fun v _ => Rabs_pos v)) as H3.
  pose proof (capped_nonneg (Analysis.knee_valgus_angle m) (fun v => v) 20 1.5
                ltac:(lra) ltac:(lra) Hknee) as H4.
  pose proof (fixed_nonneg (Analysis.has_shoulder_imbalance m)) as H5.
  pose proof (fixed_nonneg (Analysis.has_hip_imbalance m)) as H6.
  pose proof (fixed_nonneg (Analysis.forward_head_posture m)) as H7.
  apply Rmax_lub; [lra|].
  eapply Rle_trans; [apply (round_mono _ 10.0 1); lra|].
  rewrite round_10_ten. lra.
Qed.

Lemma stored_score (a : Analysis.t) (sc : R) (texts : list string) :
  Analysis.posture_score
    (Analysis.set_recommendations texts (Analysis.set_posture_score sc a)) = Some sc /\
  Analysis.recommendations
    (Analysis.set_recommendations texts (Analysis.set_posture_score sc a)) = Some texts.
Proof. destruct a. split; reflexivity. Qed.

Lemma stored_score_in_range (kp : KeypointDict) :
  exists sc,
    Analysis.posture_score (PostureAnalysisService._calculate_posture_metrics kp)
    = Some sc /\ 1 <= sc <= 10.
Proof.
  pose proof (computed_knee_valgus_nonneg kp) as Hknee.
  unfold PostureAnalysisService._calculate_posture_metrics in *.
  set (a := Analysis.update _ (PostureAnalysisService._analyze_knees kp)) in *.
  rewrite knee_field_stable in Hknee.
  exists (PostureAnalysisService._calculate_posture_score a).
  split; [apply stored_score|].
  split; [apply posture_score_ge_1 | apply posture_score_le_10, Hknee].
Qed.

Lemma generate_nonempty (a : Analysis.t) :
  exists text texts,
    PostureAnalysisService._generate_recommendations a = text :: texts.
Proof.
  rewrite text_recommendations_table.
  destruct (Reference.fire Reference.text_rules a) as [|t ts]; eauto.
Qed.

Lemma stored_recommendations_nonempty (kp : KeypointDict) :
  exists text texts,
    Analysis.recommendations (PostureAnalysisService._calculate_posture_metrics kp)
    = Some (text :: texts).
Proof.
  unfold PostureAnalysisService._calculate_posture_metrics.
  set (a := Analysis.update _ (PostureAnalysisService._analyze_knees kp)).
  set (sc := PostureAnalysisService._calculate_posture_score a).
  destruct (generate_nonempty (Analysis.set_posture_score sc a)) as (t & ts & E).
  exists t, ts. rewrite <- E. apply stored_score.
Qed.

(** X2: every score that [_calculate_posture_score] returns is at least 1.0,
    and for every keypoint dictionary the calculator stores a score between
    1.0 and 10.0. *)
Theorem computed_score_bounds :
  (forall m : Analysis.t, 1 <= PostureAnalysisService._calculate_posture_score m) /\
  (forall kp : KeypointDict,
     exists sc,
       Analysis.posture_score (PostureAnalysisService._calculate_posture_metrics kp)
       = Some sc /\ 1 <= sc <= 10).
Proof.
  split; [exact posture_score_ge_1 | exact stored_score_in_range].
Qed.

Lemma score_of_empty : PostureAnalysisService._calculate_posture_score Analysis.empty = 10.
Proof.
  unfold PostureAnalysisService._calculate_posture_score. simpl.
  replace (Py.round 10 1) with (IZR 100 / 10 ^ 1) by (symmetry; round_at 100%Z).
  simpl. unfold Rmax. destruct (Rle_dec _ _); lra.
Qed.

(** X3: when a shoulder is missing and a hip is missing, no sub-analysis
    runs: the calculator stores no metric, the score 10.0 and the single
    generic recommendation. *)
Theorem no_pair_full_score (kp : KeypointDict) :
  kp left_shoulder = None \/ kp right_shoulder = None ->
  kp left_hip = None \/ kp right_hip = None ->
  let a := PostureAnalysisService._calculate_posture_metrics kp in
  Analysis.posture_score a = Some 10 /\
  Analysis.recommendations a = Some [Reference.text_generic] /\
  Analysis.shoulder_slope_degrees a = None /\
  Analysis.head_tilt_degrees a = None /\
  Analysis.hip_slope_degrees a = None /\
  Analysis.knee_valgus_angle a = None.
Proof.
  intros Hs Hh.
  destruct (shoulders_missing kp Hs) as [Es Ed].
  destruct (hips_missing kp Hh) as [Eh Ek].
  unfold PostureAnalysisService._calculate_posture_metrics.
  rewrite Es, Ed, Eh, Ek.
  change (Analysis.update (Analysis.update (Analysis.update
            (Analysis.update Analysis.empty Analysis.empty) Analysis.empty)
            Analysis.empty) Analysis.empty) with Analysis.empty.
  rewrite score_of_empty. repeat split.
Qed.

Lemma no_pair_full_score_witness :
  Analysis.posture_score
    (PostureAnalysisService._calculate_posture_metrics
       (PostureAnalysisService._extract_keypoints [] 400 400)) = Some 10.
Proof.
  apply (no_pair_full_score (PostureAnalysisService._extract_keypoints [] 400 400));
    left; reflexivity.
Defined.

(** X4: a missing shoulder removes the shoulder and the head keys from the
    record and leaves the hip analysis alone: with both hips present the hip
    keys are there, the flag being |left.y - right.y| > 8. *)
Theorem partial_detection_omits (kp : KeypointDict) :
  kp left_shoulder = None \/ kp right_shoulder = None ->
  let a := PostureAnalysisService._calculate_posture_metrics kp in
  (Analysis.shoulder_slope_degrees a = None /\
   Analysis.shoulder_height_difference a = None /\
   Analysis.has_shoulder_imbalance a = None /\
   Analysis.shoulder_confidence a = None /\
   Analysis.head_tilt_degrees a = None /\
   Analysis.forward_head_posture a = None) /\
  (forall l r, kp left_hip = Some l -> kp right_hip = Some r ->
     Analysis.hip_slope_degrees a <> None /\
     Analysis.hip_height_difference a =
       Some (Py.round (Keypoint.y l - Keypoint.y r) 1) /\
     Analysis.has_hip_imbalance a =
       Some (Py.gt (Rabs (Keypoint.y l - Keypoint.y r)) 8)).
Proof.
  intros Hs a.
  destruct (metrics_fields kp) as ((S1 & S2 & S3 & S4) & (D1 & D2 & _) & (H1 & H2 & H3 & _) & _).
  destruct (shoulders_missing kp Hs) as [Es Ed].
  fold a in S1, S2, S3, S4, D1, D2, H1, H2, H3.
  rewrite Es in S1, S2, S3, S4. rewrite Ed in D1, D2.
  split; [repeat split; assumption|].
  intros l r Hl Hr. rewrite H1, H2, H3.
  unfold PostureAnalysisService._analyze_hips. rewrite Hl, Hr.
  repeat split. discriminate.
Qed.

Lemma partial_detection_omits_witness :
  Analysis.shoulder_slope_degrees
    (PostureAnalysisService._calculate_posture_metrics hips_only_pose) = None /\
  Analysis.has_hip_imbalance
    (PostureAnalysisService._calculate_posture_metrics hips_only_pose)
  = Some (Py.gt (Rabs (400 - 395)) 8).
Proof.
  destruct (partial_detection_omits hips_only_pose (or_introl eq_refl)) as [(H & _) Hh].
  split; [exact H|].
  exact (proj2 (proj2 (Hh (point 120 400) (point 280 395) eq_refl eq_refl))).
Defined.


(** ** Ranges of the metrics *)

Lemma round_between (lo hi : Z) (v : R) (n : nat) :
  IZR lo / 10 ^ n <= v <= IZR hi / 10 ^ n ->
  IZR lo / 10 ^ n <= Py.round v n <= IZR hi / 10 ^ n.
Proof.
  intros [H1 H2]. split.
  - rewrite <- (round_fixed lo n). apply round_mono, H1.
  - rewrite <- (round_fixed hi n). apply round_mono, H2.
Qed.

(** X5: the knee-valgus indicator lies between 0 and 100; a set flag goes
    with an indicator of at least 15 and a cleared flag with one of at most
    15; knees at least as far apart as the ankles give 0 and no flag. *)
Theorem knee_valgus_range (kp : KeypointDict)
    (lk rk la ra lh rh : Keypoint.t) :
  kp left_knee = Some lk -> kp right_knee = Some rk ->
  kp left_ankle = Some la -> kp right_ankle = Some ra ->
  kp left_hip = Some lh -> kp right_hip = Some rh ->
  exists v flag,
    Analysis.knee_valgus_angle (PostureAnalysisService._analyze_knees kp) = Some v /\
    Analysis.has_knee_valgus (PostureAnalysisService._analyze_knees kp) = Some flag /\
    0 <= v <= 100 /\
    (flag = true -> 15 <= v) /\
    (flag = false -> v <= 15) /\
    (Rabs (Keypoint.x la - Keypoint.x ra) <= Rabs (Keypoint.x lk - Keypoint.x rk) ->
     v = 0 /\ flag = false).
Proof.
  intros Hlk Hrk Hla Hra Hlh Hrh.
  unfold PostureAnalysisService._analyze_knees.
  rewrite Hlk, Hrk, Hla, Hra, Hlh, Hrh. simpl.
  set (kd := Rabs (Keypoint.x lk - Keypoint.x rk)).
  set (ad := Rabs (Keypoint.x la - Keypoint.x ra)).
  set (hd := Rabs (Keypoint.x lh - Keypoint.x rh)).
  set (vi := if Py.gt ad 0 && Py.gt hd 0
             then if Py.lt (kd / ad) 1 then (1 - kd / ad) * 100 else 0
             else 0).
  assert (Hkd : 0 <= kd) by apply Rabs_pos.
  assert (Hvi : 0 <= vi <= 100 /\ (ad <= kd -> vi = 0)).
  { unfold vi, Py.gt, Py.lt.
    destruct (Rlt_dec 0 ad) as [Had|Had]; simpl; [|lra].
    destruct (Rlt_dec 0 hd); simpl; [|lra].
    assert (Hr : 0 <= kd / ad).
    { apply Rmult_le_pos; [exact Hkd | left; apply Rinv_0_lt_compat; exact Had]. }
    destruct (Rlt_dec (kd / ad) 1) as [Hlt|Hlt]; [|lra].
    split; [lra|]. intros Hle. exfalso.
    assert (1 <= kd / ad); [|lra].
    apply (Rmult_le_reg_r ad); [exact Had|].
    replace (kd / ad * ad) with kd by (field; lra). lra. }
  destruct Hvi as [[Hlo Hhi] Hzero].
  assert (Hmax : Rmax 0 vi = vi) by (apply Rmax_right; exact Hlo).
  rewrite Hmax.
  exists (Py.round vi 2), (Py.gt vi 15).
  split; [reflexivity|]. split; [reflexivity|].
  split; [|split; [|split]].
  - pose proof (round_between 0 10000 vi 2) as Hb. simpl in Hb. lra.
  - unfold Py.gt. destruct (Rlt_dec 15 vi); [intros _|discriminate].
    pose proof (round_between 1500 10000 vi 2) as Hb. simpl in Hb. lra.
  - unfold Py.gt. destruct (Rlt_dec 15 vi); [discriminate|intros _].
    pose proof (round_between 0 1500 vi 2) as Hb. simpl in Hb. lra.
  - intros Hle. rewrite (Hzero Hle), round_0. unfold Py.gt.
    destruct (Rlt_dec 15 0); [lra|]. split; reflexivity.
Qed.

Lemma atan_sign (v : R) : (v <= 0 -> atan v <= 0) /\ (0 <= v -> 0 <= atan v).
Proof.
  split; intros H.
  - destruct H as [H|H]; [|subst v; rewrite atan_0; lra].
    pose proof (atan_increasing v 0 H) as Hi. rewrite atan_0 in Hi. lra.
  - destruct H as [H|H]; [|subst v; rewrite atan_0; lra].
    pose proof (atan_increasing 0 v H) as Hi. rewrite atan_0 in Hi. lra.
Qed.

Lemma atan2_bound (b a : R) : - PI <= Py.atan2 b a <= PI.
Proof.
  unfold Py.atan2. pose proof (atan_bound (b / a)) as [H1 H2]. pose proof PI_RGT_0.
  destruct (Rlt_dec 0 a); [lra|].
  destruct (Rlt_dec a 0) as [Ha|Ha].
  - assert (Hinv : / a < 0) by (apply Rinv_lt_0_compat; exact Ha).
    destruct (Rle_dec 0 b) as [Hb|Hb].
    + assert (Hq : b / a <= 0) by (unfold Rdiv; nra).
      pose proof (proj1 (atan_sign (b / a)) Hq). lra.
    + assert (Hq : 0 <= b / a) by (unfold Rdiv; nra).
      pose proof (proj2 (atan_sign (b / a)) Hq). lra.
  - destruct (Rlt_dec 0 b); [lra|]. destruct (Rlt_dec b 0); lra.
Qed.

Lemma degrees_mono (r1 r2 : R) : r1 <= r2 -> Py.degrees r1 <= Py.degrees r2.
Proof.
  intros H. unfold Py.degrees. apply Rmult_le_compat_r; [|exact H].
  left. apply Rdiv_lt_0_compat; [lra | apply PI_RGT_0].
Qed.

Lemma slope_range (dx dy : R) :
  -180 <= Py.round (if Req_dec_T dx 0 then 0 else Py.degrees (Py.atan2 dy dx)) 2 <= 180.
Proof.
  pose proof (round_between (-18000) 18000
                (if Req_dec_T dx 0 then 0 else Py.degrees (Py.atan2 dy dx)) 2) as Hb.
  simpl in Hb.
  assert (H : -180 <= (if Req_dec_T dx 0 then 0 else Py.degrees (Py.atan2 dy dx)) <= 180).
  { destruct (Req_dec_T dx 0); [lra|].
    destruct (atan2_bound dy dx) as [H1 H2].
    apply degrees_mono in H1. apply degrees_mono in H2.
    rewrite degrees_opp, degrees_PI in H1. rewrite degrees_PI in H2. lra. }
  lra.
Qed.

Lemma tilt_range (ox oy : R) :
  -90 <= Py.round (if Req_dec_T oy 0 then 0
                   else Py.degrees (Py.atan2 ox (Rabs oy))) 2 <= 90.
Proof.
  pose proof (round_between (-9000) 9000
                (if Req_dec_T oy 0 then 0 else Py.degrees (Py.atan2 ox (Rabs oy))) 2) as Hb.
  simpl in Hb.
  assert (H : -90 <= (if Req_dec_T oy 0 then 0
                      else Py.degrees (Py.atan2 ox (Rabs oy))) <= 90).
  { destruct (Req_dec_T oy 0) as [|Hne]; [lra|].
    assert (Hpos : 0 < Rabs oy) by (apply Rabs_pos_lt; exact Hne).
    unfold Py.atan2. destruct (Rlt_dec 0 (Rabs oy)); [|lra].
    destruct (atan_bound (ox / Rabs oy)) as [H1 H2].
    assert (H1' : - (PI / 2) <= atan (ox / Rabs oy)) by lra.
    assert (H2' : atan (ox / Rabs oy) <= PI / 2) by lra.
    apply degrees_mono in H1'. apply degrees_mono in H2'.
    rewrite degrees_opp in H1'.
    assert (Hd : Py.degrees (PI / 2) = 90)
      by (unfold Py.degrees; field; apply PI_neq0).
    rewrite Hd in H1', H2'. lra. }
  lra.
Qed.

(** X6: a shoulder or hip slope that is reported lies between -180 and 180
    degrees, and a head tilt between -90 and 90 degrees. *)
Theorem angle_ranges (kp : KeypointDict) (v : R) :
  (Analysis.shoulder_slope_degrees (PostureAnalysisService._analyze_shoulders kp)
   = Some v -> -180 <= v <= 180) /\
  (Analysis.hip_slope_degrees (PostureAnalysisService._analyze_hips kp)
   = Some v -> -180 <= v <= 180) /\
  (Analysis.head_tilt_degrees (PostureAnalysisService._analyze_head_position kp)
   = Some v -> -90 <= v <= 90).
Proof.
  split; [|split].
  - unfold PostureAnalysisService._analyze_shoulders.
    destruct (kp left_shoulder), (kp right_shoulder); try discriminate.
    simpl. intros H. injection H as <-. apply slope_range.
  - unfold PostureAnalysisService._analyze_hips.
    destruct (kp left_hip), (kp right_hip); try discriminate.
    simpl. intros H. injection H as <-. apply slope_range.
  - unfold PostureAnalysisService._analyze_head_position.
    destruct (kp nose), (kp left_shoulder), (kp right_shoulder); try discriminate.
    simpl. intros H. injection H as <-. apply tilt_range.
Qed.

Lemma angle_ranges_witness :
  exists v,
    Analysis.shoulder_slope_degrees
      (PostureAnalysisService._analyze_shoulders tilted_pose) = Some v /\
    -180 <= v <= 180.
Proof.
  eexists. split; [reflexivity|].
  apply (proj1 (angle_ranges tilted_pose _)). reflexivity.
Defined.

Lemma knee_valgus_range_witness :
  exists v flag,
    Analysis.knee_valgus_angle (PostureAnalysisService._analyze_knees legs_pose) = Some v /\
    Analysis.has_knee_valgus (PostureAnalysisService._analyze_knees legs_pose) = Some flag /\
    0 <= v <= 100.
Proof.
  destruct (knee_valgus_range legs_pose (point 150 500) (point 250 500) (point 160 580)
              (point 240 580) (point 120 400) (point 280 395)
              eq_refl eq_refl eq_refl eq_refl eq_refl eq_refl)
    as (v & flag & H1 & H2 & H3 & _).
  exists v, flag. repeat split; try assumption; apply H3.
Defined.


(** ** The result of an image analysis *)

Lemma key_visibilities_in (landmarks : list MediaPipe.landmark) (c : R) :
  In c (Reference.key_visibilities landmarks) ->
  exists lm, In lm landmarks /\ c = MediaPipe.visibility lm.
Proof.
  unfold Reference.key_visibilities. rewrite in_flat_map.
  intros (i & _ & Hc).
  destruct (nth_error landmarks i) as [lm|] eqn:E; [|contradiction].
  destruct Hc as [<-|[]]. exists lm. split; [|reflexivity].
  apply (nth_error_In _ _ E).
Qed.

Lemma sum_bounds (vs : list R) :
  (forall c, In c vs -> 0 <= c <= 1) ->
  0 <= Reference.sum vs <= INR (List.length vs).
Proof.
  induction vs as [|v vs IH]; intros H.
  - simpl. lra.
  - change (Reference.sum (v :: vs)) with (v + Reference.sum vs).
    change (List.length (v :: vs)) with (S (List.length vs)). rewrite S_INR.
    pose proof (H v (or_introl eq_refl)).
    assert (forall c, In c vs -> 0 <= c <= 1) as H' by (intros c Hc; apply H; right; exact Hc).
    specialize (IH H'). lra.
Qed.

(** X7: when every landmark has a visibility between 0 and 1, the overall
    confidence lies between 0 and 1. *)
Theorem overall_confidence_bounds (landmarks : list MediaPipe.landmark) :
  (forall lm, In lm landmarks -> 0 <= MediaPipe.visibility lm <= 1) ->
  0 <= PostureAnalysisService._calculate_overall_confidence landmarks <= 1.
Proof.
  intros Hvis. rewrite overall_confidence_mean.
  assert (Hin : forall c, In c (Reference.key_visibilities landmarks) -> 0 <= c <= 1).
  { intros c Hc. destruct (key_visibilities_in landmarks c Hc) as (lm & Hlm & ->).
    apply Hvis, Hlm. }
  destruct (Reference.key_visibilities landmarks) as [|v vs] eqn:E; [lra|].
  pose proof (sum_bounds (v :: vs) Hin) as [Hlo Hhi].
  assert (Hn : 0 < INR (List.length (v :: vs))) by (apply lt_0_INR; simpl; lia).
  pose proof (round_between 0 1000
                (Reference.sum (v :: vs) / INR (List.length (v :: vs))) 3) as Hb.
  simpl pow in Hb.
  assert (Hmean : 0 <= Reference.sum (v :: vs) / INR (List.length (v :: vs)) <= 1).
  { split.
    - apply Rmult_le_pos; [exact Hlo | left; apply Rinv_0_lt_compat; exact Hn].
    - apply (Rmult_le_reg_r (INR (List.length (v :: vs)))); [exact Hn|].
      replace (Reference.sum (v :: vs) / INR (List.length (v :: vs)) *
               INR (List.length (v :: vs)))
        with (Reference.sum (v :: vs)) by (field; lra).
      lra. }
  lra.
Qed.

Lemma overall_confidence_bounds_witness :
  0 <= PostureAnalysisService._calculate_overall_confidence visible_landmarks <= 1.
Proof.
  apply (overall_confidence_bounds visible_landmarks).
  intros lm Hlm. simpl in Hlm.
  repeat (destruct Hlm as [<-|Hlm]; [simpl; lra|]). contradiction.
Defined.

(** X8: the analysis of an image is an error exactly when the image cannot
    be loaded or no pose is detected in it; otherwise it carries the
    keypoints, the image dimensions, the overall confidence, a posture score
    and a list of recommendations that is not empty. *)
Theorem analyze_error_or_complete (image : option Image) :
  (image = None ->
   PostureAnalysisService.analyze_posture_from_image image
   = Error "Failed to load image") /\
  (forall im, image = Some im -> pose_landmarks im = None ->
   PostureAnalysisService.analyze_posture_from_image image
   = Error "No pose detected in image") /\
  (forall im landmarks, image = Some im -> pose_landmarks im = Some landmarks ->
   exists a sc text texts,
     PostureAnalysisService.analyze_posture_from_image image = Ok a /\
     Analysis.keypoints a =
       Some (PostureAnalysisService._extract_keypoints landmarks (width im) (height im)) /\
     Analysis.image_dimensions a = Some (width im, height im) /\
     Analysis.confidence a =
       Some (PostureAnalysisService._calculate_overall_confidence landmarks) /\
     Analysis.posture_score a = Some sc /\ 1 <= sc <= 10 /\
     Analysis.recommendations a = Some (text :: texts)).
Proof.
  split; [intros ->; reflexivity|]. split.
  - intros im -> H. simpl. rewrite H. reflexivity.
  - intros im landmarks -> H.
    unfold PostureAnalysisService.analyze_posture_from_image. rewrite H.
    set (kp := PostureAnalysisService._extract_keypoints landmarks (width im) (height im)).
    destruct (stored_score_in_range kp) as (sc & Hsc & Hb).
    destruct (stored_recommendations_nonempty kp) as (text & texts & Hrec).
    exists (Analysis.set_confidence
              (PostureAnalysisService._calculate_overall_confidence landmarks)
              (Analysis.set_image_dimensions (width im, height im)
                 (Analysis.set_keypoints kp
                    (PostureAnalysisService._calculate_posture_metrics kp)))),
      sc, text, texts.
    revert Hsc Hrec.
    destruct (PostureAnalysisService._calculate_posture_metrics kp).
    simpl. intros Hsc Hrec. repeat split; solve [assumption | apply Hb].
Qed.

Lemma analyze_error_or_complete_witness :
  PostureAnalysisService.analyze_posture_from_image None = Error "Failed to load image" /\
  exists a,
    PostureAnalysisService.analyze_posture_from_image
      (Some {| height := 400; width := 400; pose_landmarks := Some visible_landmarks |})
    = Ok a /\
    Analysis.image_dimensions a = Some (400%Z, 400%Z).
Proof.
  split.
  - apply (proj1 (analyze_error_or_complete None)). reflexivity.
  - destruct (proj2 (proj2 (analyze_error_or_complete
                 (Some {| height := 400; width := 400;
                          pose_landmarks := Some visible_landmarks |})))
                _ visible_landmarks eq_refl eq_refl)
      as (a & sc & text & texts & H1 & _ & H3 & _).
    exists a. split; [exact H1 | exact H3].
Defined.

(** X9: the text recommender gives one text for each flag that is set, and
    one text when no flag is set. *)
Theorem recommendation_count (a : Analysis.t) :
  let flag f := if Py.get f false then 1%nat else 0%nat in
  List.length (PostureAnalysisService._generate_recommendations a) =
  Nat.max 1 (flag (Analysis.has_shoulder_imbalance a) +
             flag (Analysis.forward_head_posture a) +
             flag (Analysis.has_hip_imbalance a) +
             flag (Analysis.has_knee_valgus a)).
Proof.
  unfold PostureAnalysisService._generate_recommendations.
  destruct (Py.get (Analysis.has_shoulder_imbalance a) false),
    (Py.get (Analysis.forward_head_posture a) false),
    (Py.get (Analysis.has_hip_imbalance a) false),
    (Py.get (Analysis.has_knee_valgus a) false); reflexivity.
Qed.

(** ** The posture view: what a request stores *)

Lemma no_pose_results (p : Views.PhotoUpload) :
  Reference.no_pose (Some p) <-> Reference.results_of p = None.
Proof.
  unfold Reference.no_pose, Reference.results_of,
    PostureAnalysisService.analyze_posture_from_image.
  destruct (Views.image p) as [file|]; [|tauto].
  destruct (Views.imread file) as [im|]; [|tauto].
  destruct (pose_landmarks im); split; intros H; try discriminate; reflexivity.
Qed.

(** The score and the texts of a successful analysis. *)
Lemma results_range (p : Views.PhotoUpload) (a : Analysis.t) :
  Reference.results_of p = Some a ->
  exists sc text texts,
    Analysis.posture_score a = Some sc /\ 1 <= sc <= 10 /\
    Analysis.recommendations a = Some (text :: texts).
Proof.
  unfold Reference.results_of.
  destruct (Views.image p) as [file|]; [|discriminate].
  destruct (Views.imread file) as [im|] eqn:Eim; [|discriminate].
  destruct (pose_landmarks im) as [lms|] eqn:Elm;
    [|simpl; rewrite Elm; discriminate].
  unfold PostureAnalysisService.analyze_posture_from_image. rewrite Elm.
  set (kp := PostureAnalysisService._extract_keypoints lms (width im) (height im)).
  destruct (stored_score_in_range kp) as (sc & Hsc & Hb).
  destruct (stored_recommendations_nonempty kp) as (text & texts & Hrec).
  intros H. injection H as <-. exists sc, text, texts.
  revert Hsc Hrec.
  destruct (PostureAnalysisService._calculate_posture_metrics kp).
  simpl. intros Hsc Hrec. repeat split; solve [assumption | apply Hb].
Qed.


Lemma fold_create (texts : list string) (st : Views.state) :
  let st' := fold_left Views.create_recommendation texts st in
  Views.posture_analysis st' = Views.posture_analysis st /\
  map Models.description (Views.rows st') =
    map Models.description (Views.rows st) ++ texts /\
  (Forall Reference.text_row (Views.rows st) ->
   Forall Reference.text_row (Views.rows st')) /\
  Views.total_recommendations st' =
    (Views.total_recommendations st + List.length texts)%nat.
Proof.
  revert st. induction texts as [|t texts IH]; intros st; simpl.
  - rewrite app_nil_r. repeat split; auto.
  - destruct (IH (Views.create_recommendation st t)) as (H1 & H2 & H3 & H4).
    simpl in *. rewrite H1, H2, H4, map_app, <- app_assoc. simpl.
    repeat split; try lia.
    intros HF. apply H3. apply Forall_app. split; [exact HF|].
    constructor; [|constructor]. repeat split.
Qed.

(** The state after the block of a front photograph that is analysed. *)
Lemma front_ok (p : Views.PhotoUpload) (fa : Analysis.t) (st : Views.state) :
  Reference.results_of p = Some fa ->
  Views.analyse_front (Some p) st =
  fold_left Views.create_recommendation
    (firstn 3 (Py.get (Analysis.recommendations fa) []))
    {| Views.posture_analysis :=
         {| Models.front_keypoints := Py.get (Analysis.keypoints fa) (fun _ => None);
            Models.shoulder_slope_degrees := Analysis.shoulder_slope_degrees fa;
            Models.head_tilt_degrees := Analysis.head_tilt_degrees fa;
            Models.knee_valgus_angle := Analysis.knee_valgus_angle fa;
            Models.posture_score := Analysis.posture_score fa;
            Models.hip_slope_degrees :=
              Models.hip_slope_degrees (Views.posture_analysis st);
            Models.back_keypoints :=
              Models.back_keypoints (Views.posture_analysis st) |};
       Views.rows := Views.rows st;
       Views.total_recommendations := Views.total_recommendations st |}.
Proof.
  unfold Reference.results_of, Views.analyse_front.
  destruct (Views.image p) as [file|]; [|discriminate].
  destruct (PostureAnalysisService.analyze_posture_from_image (Views.imread file));
    [discriminate|].
  intros H. injection H as <-. reflexivity.
Qed.

Lemma front_fail (p : Views.PhotoUpload) (st : Views.state) :
  Reference.results_of p = None -> Views.analyse_front (Some p) st = st.
Proof.
  intros H. apply analyse_front_no_pose, no_pose_results, H.
Qed.

Lemma back_fail (p : Views.PhotoUpload) (st : Views.state) :
  Reference.results_of p = None -> Views.analyse_back (Some p) st = st.
Proof.
  intros H. apply analyse_back_no_pose, no_pose_results, H.
Qed.

(** The block of the back photograph touches neither the rows nor the
    counter. *)
Lemma back_rows (photo : option Views.PhotoUpload) (st : Views.state) :
  Views.rows (Views.analyse_back photo st) = Views.rows st /\
  Views.total_recommendations (Views.analyse_back photo st) =
  Views.total_recommendations st.
Proof.
  unfold Views.analyse_back.
  destruct photo as [p|]; [|split; reflexivity].
  destruct (Views.image p) as [file|]; [|split; reflexivity].
  destruct (PostureAnalysisService.analyze_posture_from_image (Views.imread file));
    split; reflexivity.
Qed.

(** The score after the block of a back photograph that is analysed. *)
Lemma back_ok_score (p : Views.PhotoUpload) (ba : Analysis.t) (bs : R)
    (st : Views.state) :
  Reference.results_of p = Some ba -> Analysis.posture_score ba = Some bs ->
  Models.posture_score (Views.posture_analysis (Views.analyse_back (Some p) st)) =
  Some (if Py.truthy (Models.posture_score (Views.posture_analysis st))
        then (Py.get (Models.posture_score (Views.posture_analysis st)) 0 + bs) / 2
        else bs).
Proof.
  unfold Reference.results_of, Views.analyse_back.
  destruct (Views.image p) as [file|]; [|discriminate].
  destruct (PostureAnalysisService.analyze_posture_from_image (Views.imread file));
    [discriminate|].
  intros H Hbs. injection H as <-. simpl. rewrite Hbs. reflexivity.
Qed.

Lemma truthy_score (sc : R) : 1 <= sc -> Py.truthy (Some sc) = true.
Proof.
  intros H. unfold Py.truthy. destruct (Req_dec_T sc 0); [lra | reflexivity].
Qed.


Lemma after_front (front : option Views.PhotoUpload) :
  let st := Views.analyse_front front
              {| Views.posture_analysis := Models.create; Views.rows := [];
                 Views.total_recommendations := 0 |} in
  Views.total_recommendations st = List.length (Views.rows st) /\
  (List.length (Views.rows st) <= 3)%nat /\
  Forall Reference.text_row (Views.rows st) /\
  ((Models.posture_score (Views.posture_analysis st) = None /\ Views.rows st = []) \/
   exists sc, Models.posture_score (Views.posture_analysis st) = Some sc /\
              1 <= sc <= 10).
Proof.
  set (st0 := {| Views.posture_analysis := Models.create; Views.rows := [];
                 Views.total_recommendations := 0 |}).
  assert (H0 : forall st, st = st0 ->
            Views.total_recommendations st = List.length (Views.rows st) /\
            (List.length (Views.rows st) <= 3)%nat /\
            Forall Reference.text_row (Views.rows st) /\
            ((Models.posture_score (Views.posture_analysis st) = None /\
              Views.rows st = []) \/
             exists sc, Models.posture_score (Views.posture_analysis st) = Some sc /\
                        1 <= sc <= 10)).
  { intros st ->. simpl. repeat split; auto. }
  destruct front as [p|]; [|apply H0; reflexivity].
  destruct (Reference.results_of p) as [fa|] eqn:E;
    [|apply H0; apply front_fail; exact E].
  cbv zeta. rewrite (front_ok p fa st0 E).
  destruct (results_range p fa E) as (sc & text & texts & Hsc & Hb & Hrec).
  set (texts3 := firstn 3 (Py.get (Analysis.recommendations fa) [])).
  match goal with |- context [fold_left _ _ ?s] => set (s1 := s) end.
  destruct (fold_create texts3 s1) as (H1 & H2 & H3 & H4).
  assert (Hlen : List.length (Views.rows (fold_left Views.create_recommendation texts3 s1))
                 = List.length texts3).
  { rewrite <- (length_map Models.description), H2. reflexivity. }
  assert (Hle : (List.length texts3 <= 3)%nat) by apply firstn_le_length.
  rewrite H1, H4, Hlen. simpl.
  split; [reflexivity|]. split; [exact Hle|]. split; [apply H3; constructor|].
  right. exists sc. split; [exact Hsc | exact Hb].
Qed.

Lemma after_back (front back : option Views.PhotoUpload) :
  let st := Views.analyse_back back
              (Views.analyse_front front
                 {| Views.posture_analysis := Models.create; Views.rows := [];
                    Views.total_recommendations := 0 |}) in
  Views.total_recommendations st = List.length (Views.rows st) /\
  (List.length (Views.rows st) <= 3)%nat /\
  Forall Reference.text_row (Views.rows st) /\
  ((Models.posture_score (Views.posture_analysis st) = None /\ Views.rows st = []) \/
   exists sc, Models.posture_score (Views.posture_analysis st) = Some sc /\
              1 <= sc <= 10).
Proof.
  cbv zeta. destruct (after_front front) as (H1 & H2 & H3 & H4).
  set (st1 := Views.analyse_front front _) in *.
  destruct (back_rows back st1) as [Hr Ht]. rewrite Hr, Ht.
  split; [exact H1|]. split; [exact H2|]. split; [exact H3|].
  destruct back as [p|]; [|exact H4].
  destruct (Reference.results_of p) as [ba|] eqn:E;
    [|rewrite (back_fail p st1 E); exact H4].
  destruct (results_range p ba E) as (bs & _ & _ & Hbs & Hb & _).
  right. rewrite (back_ok_score p ba bs st1 E Hbs).
  destruct H4 as [[Hn _]|(sc & Hsc & Hrange)].
  - rewrite Hn. simpl. exists bs. split; [reflexivity | exact Hb].
  - rewrite Hsc, truthy_score by lra. simpl.
    exists ((sc + bs) / 2). split; [reflexivity | lra].
Qed.

(** X10: a request without photographs is answered 400 and stores nothing;
    any other request is answered 201, the count it reports is the number of
    rows it created, at most three, every row has the category posture, and
    the stored score lies between 1.0 and 10.0. *)
Theorem post_invariants (front back : option Views.PhotoUpload) :
  (front = None /\ back = None /\
   Views.post front back = (Views.HTTP_400_BAD_REQUEST, [])) \/
  ((front <> None \/ back <> None) /\
   exists analysis n rows sc,
     Views.post front back = (Views.HTTP_201_CREATED analysis n, rows) /\
     n = List.length rows /\ (n <= 3)%nat /\
     Forall (fun r => Models.category r = "posture"%string) rows /\
     Models.posture_score analysis = Some sc /\ 1 <= sc <= 10).
Proof.
  destruct front as [f|], back as [b|];
    try (right; split; [first [left; discriminate | right; discriminate]|]);
    try (left; repeat split; reflexivity).
  all: unfold Views.post;
    match goal with
    | |- context [Views.analyse_back ?bk (Views.analyse_front ?fr _)] =>
        destruct (after_back fr bk) as (H1 & H2 & H3 & H4)
    end;
    cbv zeta in *;
    match goal with
    | |- context [Views.use_base_values ?s] => set (st := s) in *
    end;
    unfold Views.use_base_values;
    (destruct H4 as [[Hn Hrows]|(sc & Hsc & Hb)];
     [ rewrite Hn, Hrows; simpl;
       do 4 eexists; split; [reflexivity|];
       split; [reflexivity|]; split; [lia|];
       split; [repeat constructor|]; split; [reflexivity | lra]
     | rewrite Hsc, truthy_score by lra; simpl;
       exists (Views.posture_analysis st), (Views.total_recommendations st),
         (Views.rows st), sc;
       split; [reflexivity|]; split; [exact H1|]; split; [lia|];
       split; [|split; [exact Hsc | exact Hb]];
       eapply Forall_impl; [|exact H3]; intros r Hr; apply Hr ]).
Qed.

(** X11: when only the back photograph is analysed, the view stores the
    score and the hip slope of the back view and nothing else of it, creates
    no recommendation and reports a count of 0. *)
Theorem back_only (front : option Views.PhotoUpload) (b : Views.PhotoUpload)
    (ba : Analysis.t) :
  Reference.no_pose front -> Reference.results_of b = Some ba ->
  exists analysis,
    Views.post front (Some b) = (Views.HTTP_201_CREATED analysis 0, []) /\
    Models.posture_score analysis = Analysis.posture_score ba /\
    Models.hip_slope_degrees analysis = Analysis.hip_slope_degrees ba /\
    Models.shoulder_slope_degrees analysis = None /\
    Models.head_tilt_degrees analysis = None /\
    Models.knee_valgus_angle analysis = None.
Proof.
  intros Hf Hb.
  destruct (results_range b ba Hb) as (bs & _ & _ & Hbs & Hrange & _).
  assert (Hpost : Views.post front (Some b) =
            let st := Views.use_base_values
                        (Views.analyse_back (Some b)
                           {| Views.posture_analysis := Models.create; Views.rows := [];
                              Views.total_recommendations := 0 |}) in
            (Views.HTTP_201_CREATED (Views.posture_analysis st)
               (Views.total_recommendations st), Views.rows st)).
  { unfold Views.post. rewrite (analyse_front_no_pose front _ Hf).
    destruct front; reflexivity. }
  rewrite Hpost. clear Hpost.
  unfold Views.analyse_back. unfold Reference.results_of in Hb.
  destruct (Views.image b) as [file|]; [|discriminate].
  destruct (PostureAnalysisService.analyze_posture_from_image (Views.imread file));
    [discriminate|].
  injection Hb as ->. cbv zeta. simpl Views.posture_analysis.
  unfold Views.use_base_values. simpl. rewrite Hbs. simpl.
  destruct (Req_dec_T bs 0); [lra|]. simpl.
  eexists. split; [reflexivity|]. repeat split.
Qed.

Lemma back_only_witness :
  exists ba analysis,
    Reference.results_of back_level = Some ba /\
    Views.post (Some empty_room) (Some back_level) =
      (Views.HTTP_201_CREATED analysis 0, []) /\
    Models.posture_score analysis = Analysis.posture_score ba.
Proof.
  destruct (results_hip_slope (landmarks_with_hips 0.25 0.5 0.5 0.5)) as (ba & Hba & _).
  destruct (back_only (Some empty_room) back_level ba eq_refl Hba)
    as (analysis & H1 & H2 & _).
  exists ba, analysis. repeat split; assumption.
Defined.

(** X12: when only the front photograph is analysed, the view stores the
    score, the shoulder slope, the head tilt and the knee indicator of the
    front view but no hip slope, and creates one row for each of the first
    three recommendation texts, in their order. *)
Theorem front_only (f : Views.PhotoUpload) (back : option Views.PhotoUpload)
    (fa : Analysis.t) :
  Reference.results_of f = Some fa -> Reference.no_pose back ->
  exists analysis n rows texts,
    Views.post (Some f) back = (Views.HTTP_201_CREATED analysis n, rows) /\
    Analysis.recommendations fa = Some texts /\
    map Models.description rows = firstn 3 texts /\
    Forall Reference.text_row rows /\
    n = List.length rows /\ (1 <= n <= 3)%nat /\
    Models.posture_score analysis = Analysis.posture_score fa /\
    Models.shoulder_slope_degrees analysis = Analysis.shoulder_slope_degrees fa /\
    Models.head_tilt_degrees analysis = Analysis.head_tilt_degrees fa /\
    Models.knee_valgus_angle analysis = Analysis.knee_valgus_angle fa /\
    Models.hip_slope_degrees analysis = None.
Proof.
  intros Hf Hb.
  destruct (results_range f fa Hf) as (sc & text & texts & Hsc & Hrange & Hrec).
  unfold Views.post.
  rewrite (analyse_back_no_pose back _ Hb), (front_ok f fa _ Hf), Hrec.
  simpl Py.get.
  match goal with |- context [fold_left _ ?l ?s] => set (s1 := s); set (l3 := l) end.
  destruct (fold_create l3 s1) as (H1 & H2 & H3 & H4).
  set (st := fold_left Views.create_recommendation l3 s1) in *.
  assert (Hbase : Views.use_base_values st = st).
  { unfold Views.use_base_values. rewrite H1. simpl. rewrite Hsc.
    rewrite truthy_score by lra. reflexivity. }
  assert (Hlen : List.length (Views.rows st) = List.length l3).
  { rewrite <- (length_map Models.description), H2. reflexivity. }
  exists (Views.posture_analysis st), (Views.total_recommendations st),
    (Views.rows st), (text :: texts).
  split; [destruct back; cbv zeta; fold s1; fold st; rewrite Hbase; reflexivity|].
  split; [reflexivity|]. split; [exact H2|]. split; [apply H3; constructor|].
  rewrite H4, Hlen, H1. simpl Views.total_recommendations.
  split; [reflexivity|].
  split; [unfold l3; destruct texts as [|? [|? ?]]; simpl; lia|].
  repeat split.
Qed.

Lemma front_only_witness :
  exists fa analysis n rows,
    Reference.results_of front_tilted = Some fa /\
    Views.post (Some front_tilted) None = (Views.HTTP_201_CREATED analysis n, rows) /\
    Models.hip_slope_degrees analysis = None /\
    Analysis.hip_slope_degrees fa = Some 45.
Proof.
  destruct (results_hip_slope (landmarks_with_hips 0.25 0.5 0.5 0.75))
    as (fa & Hfa & Hh).
  rewrite hips_of_landmarks, slope_diagonal in Hh by lra.
  destruct (front_only front_tilted None fa Hfa I)
    as (analysis & n & rows & texts & H1 & _ & _ & _ & _ & _ & _ & _ & _ & _ & H2).
  exists fa, analysis, n, rows. repeat split; assumption.
Defined.


(** ** Body composition: bounds, defaults and missing inputs *)

Lemma analyze_measurements_keys (m : Accounts.BodyMeasurements)
    (p : option Accounts.UserProfile) :
  let a := BodyCompositionService._analyze_measurements m p in
  BodyComposition.estimated_body_fat a = None /\
  BodyComposition.photo_analysis_completed a = None /\
  (Py.truthy (Accounts.whr m) = true ->
   BodyComposition.visceral_fat_level a <> None /\
   BodyComposition.body_shape_type a <> None) /\
  (Py.truthy (Accounts.whr m) = false ->
   BodyComposition.visceral_fat_level a = None /\
   BodyComposition.body_shape_type a = None).
Proof.
  unfold BodyCompositionService._analyze_measurements.
  destruct (Py.truthy (Accounts.whr m)); simpl; repeat split;
    intros; try discriminate; reflexivity.
Qed.

(** The estimate of body fat and of muscle mass for a profile. *)
Lemma estimate_fat_muscle (p : Accounts.UserProfile)
    (m : option Accounts.BodyMeasurements) (photo_path : option string) :
  let age := match Accounts.age p with Some (S a) => S a | _ => 25%nat end in
  let body_fat :=
    if Accounts.gender_is_M (Accounts.gender p)
    then 1.20 * Accounts.bmi p + 0.23 * INR age - 16.2
    else 1.20 * Accounts.bmi p + 0.23 * INR age - 5.4 in
  let fat := Rmax 5 (Rmin 50 (Py.round body_fat 1)) in
  let a := BodyCompositionService.estimate_body_composition (Some p) m photo_path in
  BodyComposition.estimated_body_fat a = Some fat /\
  BodyComposition.estimated_muscle_mass a = Some (Py.round ((100 - fat) * 0.45) 1).
Proof.
  unfold BodyCompositionService.estimate_body_composition.
  destruct m as [m|], photo_path as [[|c s]|]; simpl;
    try (destruct (analyze_measurements_keys m (Some p)) as (-> & _));
    rewrite ?analyze_measurements_no_muscle; split; reflexivity.
Qed.

(** X13: for every profile the estimated body fat exists and lies between 5
    and 50. *)
Theorem body_fat_bounds (p : Accounts.UserProfile)
    (m : option Accounts.BodyMeasurements) (photo_path : option string) :
  exists fat,
    BodyComposition.estimated_body_fat
      (BodyCompositionService.estimate_body_composition (Some p) m photo_path)
    = Some fat /\ 5 <= fat <= 50.
Proof.
  destruct (estimate_fat_muscle p m photo_path) as [H _].
  eexists. split; [exact H|].
  unfold Rmax, Rmin. repeat destruct (Rle_dec _ _); lra.
Qed.

(** X14: two profiles that differ in the gender only: the male-coded one
    never gets the higher body fat nor the lower muscle mass. *)
Theorem gender_ordering (p q : Accounts.UserProfile)
    (m : option Accounts.BodyMeasurements) (photo_path : option string) :
  Accounts.age p = Accounts.age q ->
  Accounts.height p = Accounts.height q ->
  Accounts.current_weight p = Accounts.current_weight q ->
  Accounts.gender_is_M (Accounts.gender p) = true ->
  Accounts.gender_is_M (Accounts.gender q) = false ->
  exists fp fq mp mq,
    BodyComposition.estimated_body_fat
      (BodyCompositionService.estimate_body_composition (Some p) m photo_path) = Some fp /\
    BodyComposition.estimated_body_fat
      (BodyCompositionService.estimate_body_composition (Some q) m photo_path) = Some fq /\
    BodyComposition.estimated_muscle_mass
      (BodyCompositionService.estimate_body_composition (Some p) m photo_path) = Some mp /\
    BodyComposition.estimated_muscle_mass
      (BodyCompositionService.estimate_body_composition (Some q) m photo_path) = Some mq /\
    fp <= fq /\ mq <= mp.
Proof.
  intros Ha Hh Hw Hp Hq.
  destruct (estimate_fat_muscle p m photo_path) as [Hfp Hmp].
  destruct (estimate_fat_muscle q m photo_path) as [Hfq Hmq].
  cbv zeta in *. rewrite Hp in *. rewrite Hq in *.
  assert (Hbmi : Accounts.bmi p = Accounts.bmi q).
  { unfold Accounts.bmi. rewrite Hh, Hw. reflexivity. }
  rewrite Hbmi, Ha in *.
  do 4 eexists. split; [exact Hfp|]. split; [exact Hfq|].
  split; [exact Hmp|]. split; [exact Hmq|].
  match goal with
  | |- Rmax 5 (Rmin 50 (Py.round ?x 1)) <= Rmax 5 (Rmin 50 (Py.round ?y 1)) /\ _ =>
      assert (Hr : Py.round x 1 <= Py.round y 1) by (apply round_mono; lra);
      set (rx := Py.round x 1) in *; set (ry := Py.round y 1) in *
  end.
  assert (Hfat : Rmax 5 (Rmin 50 rx) <= Rmax 5 (Rmin 50 ry)).
  { unfold Rmax, Rmin. repeat destruct (Rle_dec _ _); lra. }
  split; [exact Hfat|]. apply round_mono. lra.
Qed.

Lemma gender_ordering_witness :
  exists fp fq,
    BodyComposition.estimated_body_fat
      (BodyCompositionService.estimate_body_composition
         (Some {| Accounts.age := Some 30%nat; Accounts.gender := Some Accounts.M;
                  Accounts.height := Some 170; Accounts.current_weight := Some 65 |})
         None None) = Some fp /\
    BodyComposition.estimated_body_fat
      (BodyCompositionService.estimate_body_composition (Some female_profile) None None)
    = Some fq /\ fp <= fq.
Proof.
  destruct (gender_ordering
              {| Accounts.age := Some 30%nat; Accounts.gender := Some Accounts.M;
                 Accounts.height := Some 170; Accounts.current_weight := Some 65 |}
              female_profile None None eq_refl eq_refl eq_refl eq_refl eq_refl)
    as (fp & fq & _ & _ & H1 & H2 & _ & _ & H3 & _).
  exists fp, fq. repeat split; assumption.
Defined.

(** X15: a profile without an age, or with the age 0, is estimated as a
    profile of age 25. *)
Theorem default_age (p : Accounts.UserProfile)
    (m : option Accounts.BodyMeasurements) (photo_path : option string) :
  Accounts.age p = None \/ Accounts.age p = Some 0%nat ->
  BodyCompositionService.estimate_body_composition (Some p) m photo_path =
  BodyCompositionService.estimate_body_composition
    (Some {| Accounts.age := Some 25%nat; Accounts.gender := Accounts.gender p;
             Accounts.height := Accounts.height p;
             Accounts.current_weight := Accounts.current_weight p |})
    m photo_path.
Proof.
  intros H. unfold BodyCompositionService.estimate_body_composition,
    BodyCompositionService._analyze_measurements, Accounts.bmi.
  simpl. destruct H as [-> | ->]; reflexivity.
Qed.

Lemma default_age_witness :
  BodyCompositionService.estimate_body_composition
    (Some {| Accounts.age := None; Accounts.gender := Some Accounts.F;
             Accounts.height := Some 170; Accounts.current_weight := Some 65 |})
    None None =
  BodyCompositionService.estimate_body_composition
    (Some {| Accounts.age := Some 25%nat; Accounts.gender := Some Accounts.F;
             Accounts.height := Some 170; Accounts.current_weight := Some 65 |})
    None None.
Proof.
  apply (default_age
           {| Accounts.age := None; Accounts.gender := Some Accounts.F;
              Accounts.height := Some 170; Accounts.current_weight := Some 65 |}).
  left. reflexivity.
Defined.

(** X16: each group of keys of the estimate has its own source: body fat and
    muscle mass exist exactly when a profile is given, the visceral level and
    the body shape exactly when measurements with a waist-hip ratio other
    than 0 are given, and the photo keys exactly when the photo path is not
    empty. *)
Theorem estimate_keys (profile : option Accounts.UserProfile)
    (m : option Accounts.BodyMeasurements) (photo_path : option string) :
  let a := BodyCompositionService.estimate_body_composition profile m photo_path in
  let has_whr := match m with Some b => Py.truthy (Accounts.whr b) | None => false end in
  let has_photo :=
    match photo_path with Some (String _ _) => true | _ => false end in
  (BodyComposition.estimated_body_fat a <> None <-> profile <> None) /\
  (BodyComposition.estimated_muscle_mass a <> None <-> profile <> None) /\
  (BodyComposition.visceral_fat_level a <> None <-> has_whr = true) /\
  (BodyComposition.body_shape_type a <> None <-> has_whr = true) /\
  (BodyComposition.photo_analysis_completed a <> None <-> has_photo = true).
Proof.
  unfold BodyCompositionService.estimate_body_composition,
    BodyCompositionService._analyze_measurements,
    BodyCompositionService._analyze_body_photo.
  destruct profile as [p|], m as [b|], photo_path as [[|c s]|]; simpl;
    try destruct (Py.truthy (Accounts.whr b)); simpl;
    repeat split; intros; try discriminate; try congruence.
Qed.


Lemma visceral_curve_mono (male : bool) (w1 w2 : R) :
  w1 <= w2 ->
  Reference.clamp 1 30 (Reference.visceral_curve male w1) <=
  Reference.clamp 1 30 (Reference.visceral_curve male w2).
Proof.
  intros H. unfold Reference.visceral_curve. destruct male; cases; lra.
Qed.

(** X17: for the same profile, a larger waist-hip ratio never gives a lower
    visceral fat level. *)
Theorem visceral_level_monotone (p : option Accounts.UserProfile)
    (m1 m2 : Accounts.BodyMeasurements) (w1 w2 : R) :
  Accounts.whr m1 = Some w1 -> Accounts.whr m2 = Some w2 ->
  w1 <> 0 -> w2 <> 0 -> w1 <= w2 ->
  exists k1 k2,
    BodyComposition.visceral_fat_level
      (BodyCompositionService._analyze_measurements m1 p) = Some k1 /\
    BodyComposition.visceral_fat_level
      (BodyCompositionService._analyze_measurements m2 p) = Some k2 /\
    (k1 <= k2)%Z.
Proof.
  intros H1 H2 Hn1 Hn2 Hle.
  destruct (analyze_measurements_present m1 p w1 H1 Hn1) as [E1 _].
  destruct (analyze_measurements_present m2 p w2 H2 Hn2) as [E2 _].
  do 2 eexists. split; [exact E1|]. split; [exact E2|].
  unfold Reference.visceral_fat_level.
  apply round_half_even_mono, visceral_curve_mono, Hle.
Qed.

Lemma whr_wide : Accounts.whr {| Accounts.waist := Some 110; Accounts.hips := Some 100 |}
                 = Some 1.1.
Proof.
  unfold Accounts.whr, Py.truthy. simpl.
  destruct (Req_dec_T 110 0); [lra|]. destruct (Req_dec_T 100 0); [lra|]. simpl.
  f_equal. replace (Py.round _ 3) with (IZR 1100 / 10 ^ 3); [simpl; lra | symmetry].
  round_at 1100%Z.
Qed.

Lemma visceral_level_monotone_witness :
  exists k1 k2,
    BodyComposition.visceral_fat_level
      (BodyCompositionService._analyze_measurements measured (Some female_profile))
    = Some k1 /\
    BodyComposition.visceral_fat_level
      (BodyCompositionService._analyze_measurements
         {| Accounts.waist := Some 110; Accounts.hips := Some 100 |}
         (Some female_profile)) = Some k2 /\
    (k1 <= k2)%Z.
Proof.
  apply (visceral_level_monotone (Some female_profile) measured
           {| Accounts.waist := Some 110; Accounts.hips := Some 100 |} 0.9 1.1
           whr_measured whr_wide); lra.
Defined.

Lemma int_times2_clamped (v : R) :
  (1 <= Z.min 30 (Z.max 1 (Py.int v * 2)) <= 30)%Z.
Proof. lia. Qed.

(** X18: for a profile with a positive age the view's own estimate has the
    body fat and the muscle mass of the service, a visceral level between 1
    and 30, and the shape of the service when the service gives one and
    rectangle otherwise; for a profile without an age the view has no
    estimate. *)
Theorem view_estimate_agrees (p : Accounts.UserProfile)
    (m : option Accounts.BodyMeasurements) :
  let s := BodyCompositionService.estimate_body_composition (Some p) m None in
  (Accounts.age p = None -> Views._calculate_body_composition p m = None) /\
  (forall a, Accounts.age p = Some (S a) ->
     exists r level shape,
       Views._calculate_body_composition p m = Some r /\
       BodyComposition.estimated_body_fat r = BodyComposition.estimated_body_fat s /\
       BodyComposition.estimated_muscle_mass r = BodyComposition.estimated_muscle_mass s /\
       BodyComposition.visceral_fat_level r = Some level /\ (1 <= level <= 30)%Z /\
       BodyComposition.body_shape_type r = Some shape /\
       shape = Py.get (BodyComposition.body_shape_type s) "rectangle"%string).
Proof.
  split.
  - intros H. unfold Views._calculate_body_composition. rewrite H. reflexivity.
  - intros a Ha.
    destruct (estimate_fat_muscle p m None) as [Hf Hm]. cbv zeta in Hf, Hm.
    rewrite Ha in Hf, Hm.
    unfold Views._calculate_body_composition. rewrite Ha.
    do 3 eexists. split; [reflexivity|]. simpl.
    split; [symmetry; exact Hf|]. split; [symmetry; exact Hm|].
    split; [reflexivity|]. split; [apply int_times2_clamped|].
    split; [reflexivity|].
    unfold BodyCompositionService.estimate_body_composition,
      BodyCompositionService._analyze_measurements.
    destruct m as [b|]; simpl; [|reflexivity].
    destruct (Py.truthy (Accounts.whr b)); reflexivity.
Qed.

Lemma view_estimate_agrees_witness :
  exists r,
    Views._calculate_body_composition female_profile (Some measured) = Some r /\
    BodyComposition.estimated_body_fat r =
    BodyComposition.estimated_body_fat
      (BodyCompositionService.estimate_body_composition
         (Some female_profile) (Some measured) None).
Proof.
  destruct (proj2 (view_estimate_agrees female_profile (Some measured)) 29%nat eq_refl)
    as (r & level & shape & H1 & H2 & _).
  exists r. split; assumption.
Defined.


(** ** Workout plans *)

Lemma adapt_header (plan : Plan.t) (pa : Models.PostureAnalysis) :
  let r := RecommendationEngine._adapt_for_posture plan pa in
  Plan.name r = Plan.name plan /\
  Plan.description r = Plan.description plan /\
  Plan.workout_type r = Plan.workout_type plan /\
  Plan.difficulty r = Plan.difficulty plan /\
  Plan.duration_minutes r = Plan.duration_minutes plan /\
  Plan.weekly_schedule r = Plan.weekly_schedule plan /\
  Plan.exercises r = Plan.exercises plan.
Proof.
  unfold RecommendationEngine._adapt_for_posture.
  destruct (Models.has_shoulder_imbalance pa), (Models.has_hip_imbalance pa);
    simpl; repeat split.
Qed.

(** X19: the plan of the engine carries the tier of the activity level
    (beginner up to 1.375, intermediate up to 1.55, advanced above) whatever
    the goal and the posture; its type is cardio exactly for the goal lose
    and its duration is 45, 60 or 40 minutes for lose, gain and any other
    goal; the plan of the view has the same tier and type, five exercises,
    and a duration of 30, 45 or 60 minutes by tier. *)
Theorem plan_header (profile : Accounts.TrainingProfile)
    (pa : option Models.PostureAnalysis) :
  let e := RecommendationEngine.generate_workout_plan profile pa in
  let v := Views._create_workout_plan profile in
  let level := Accounts.activity_level profile in
  let goal := Accounts.goal profile in
  Plan.difficulty e = RecommendationEngine.tier level /\
  Plan.difficulty v = RecommendationEngine.tier level /\
  Plan.workout_type v = Plan.workout_type e /\
  (Plan.workout_type e = "cardio"%string <-> goal = "lose"%string) /\
  Plan.duration_minutes e =
    (if String.eqb goal "lose" then 45 else if String.eqb goal "gain" then 60 else 40)%Z /\
  Plan.duration_minutes v =
    (if Rle_dec level 1.375 then 30 else if Rle_dec level 1.55 then 45 else 60)%Z /\
  option_map (@List.length Exercise.t) (Plan.exercises v) = Some 5%nat /\
  Plan.exercises e = None.
Proof.
  intros e v level goal.
  assert (He : Plan.difficulty e = RecommendationEngine.tier level /\
               Plan.workout_type e =
                 (if String.eqb goal "lose" then "cardio" else "strength")%string /\
               Plan.duration_minutes e =
                 (if String.eqb goal "lose" then 45
                  else if String.eqb goal "gain" then 60 else 40)%Z /\
               Plan.exercises e = None).
  { unfold e, RecommendationEngine.generate_workout_plan. fold level goal.
    destruct pa as [a|].
    - destruct (adapt_header
                  (if String.eqb goal "lose"
                   then RecommendationEngine._create_weight_loss_plan
                          (RecommendationEngine.tier level)
                   else if String.eqb goal "gain"
                   then RecommendationEngine._create_muscle_gain_plan
                          (RecommendationEngine.tier level)
                   else RecommendationEngine._create_maintenance_plan
                          (RecommendationEngine.tier level)) a)
        as (_ & _ & H3 & H4 & H5 & _ & H7).
      cbv zeta in *. rewrite H3, H4, H5, H7.
      destruct (String.eqb goal "lose"), (String.eqb goal "gain"); repeat split.
    - destruct (String.eqb goal "lose"), (String.eqb goal "gain"); repeat split. }
  destruct He as (H1 & H2 & H3 & H4).
  assert (Hv : Plan.difficulty v = RecommendationEngine.tier level /\
               Plan.workout_type v =
                 (if String.eqb goal "lose" then "cardio" else "strength")%string /\
               Plan.duration_minutes v =
                 (if Rle_dec level 1.375 then 30
                  else if Rle_dec level 1.55 then 45 else 60)%Z /\
               option_map (@List.length Exercise.t) (Plan.exercises v) = Some 5%nat).
  { unfold v, Views._create_workout_plan, RecommendationEngine.tier.
    fold level goal.
    destruct (Rle_dec level 1.375), (Rle_dec level 1.55),
      (String.eqb goal "lose"), (String.eqb goal "gain"); repeat split. }
  destruct Hv as (V1 & V2 & V3 & V4).
  split; [exact H1|]. split; [exact V1|]. split; [congruence|].
  split; [|split; [exact H3|split; [exact V3|split; [exact V4|exact H4]]]].
  rewrite H2. destruct (String.eqb goal "lose") eqn:E.
  - apply String.eqb_eq in E. tauto.
  - apply String.eqb_neq in E. split; [discriminate | contradiction].
Qed.

(** X20: only the weight-loss plan changes with the tier: its strength day
    has four exercises of 4 sets for the tier advanced and of 3 sets for any
    other tier, its cardio day is the same for all tiers, and the schedule of
    the muscle-gain plan and the absence of one in the maintenance plan do
    not depend on the tier. *)
Theorem advanced_scaling (difficulty : string) :
  (exists strength cardio,
     Plan.weekly_schedule (RecommendationEngine._create_weight_loss_plan difficulty)
     = Some [strength; cardio] /\
     map Exercise.sets (Day.exercises strength) =
       (if String.eqb difficulty "advanced"
        then [Some 4; Some 4; Some 4; Some 4]
        else [Some 3; Some 3; Some 3; Some 3])%Z /\
     map Exercise.name (Day.exercises strength) =
       ["Squats"; "Push-ups"; "Plank"; "Lunges"]%string /\
     Day.type cardio = Some "cardio"%string /\
     map Exercise.sets (Day.exercises cardio) = [None; Some 8%Z]) /\
  Plan.weekly_schedule (RecommendationEngine._create_muscle_gain_plan difficulty) =
  Plan.weekly_schedule (RecommendationEngine._create_muscle_gain_plan "beginner") /\
  Plan.weekly_schedule (RecommendationEngine._create_maintenance_plan difficulty) = None.
Proof.
  split; [|split; reflexivity].
  unfold RecommendationEngine._create_weight_loss_plan.
  destruct (String.eqb difficulty "advanced"); simpl;
    do 2 eexists; repeat split.
Qed.

(** X21: the posture adaptation leaves every key of the plan as it is and
    adds the corrective warm-up exactly when the shoulders or the hips are
    out of balance, with two exercises for each of the two; a knee valgus
    adds nothing. *)
Theorem corrective_warmup_added (plan : Plan.t) (pa : Models.PostureAnalysis) :
  let r := RecommendationEngine._adapt_for_posture plan pa in
  let shoulder := Models.has_shoulder_imbalance pa in
  let hip := Models.has_hip_imbalance pa in
  Plan.name r = Plan.name plan /\
  Plan.difficulty r = Plan.difficulty plan /\
  Plan.duration_minutes r = Plan.duration_minutes plan /\
  Plan.weekly_schedule r = Plan.weekly_schedule plan /\
  Plan.exercises r = Plan.exercises plan /\
  (shoulder = false -> hip = false -> r = plan) /\
  (shoulder = true \/ hip = true ->
   exists warmup,
     Plan.corrective_warmup r = Some warmup /\
     List.length warmup =
       ((if shoulder then 2 else 0) + (if hip then 2 else 0))%nat).
Proof.
  intros r shoulder hip.
  destruct (adapt_header plan pa) as (H1 & _ & _ & H4 & H5 & H6 & H7).
  fold r in H1, H4, H5, H6, H7.
  split; [exact H1|]. split; [exact H4|]. split; [exact H5|].
  split; [exact H6|]. split; [exact H7|].
  unfold r, RecommendationEngine._adapt_for_posture. fold shoulder hip.
  destruct shoulder, hip; simpl; split;
    try (intros; discriminate); try (intros; reflexivity);
    try (intros _; eexists; split; reflexivity).
  intros [H|H]; discriminate.
Qed.

Lemma corrective_warmup_added_witness :
  Models.has_shoulder_imbalance tilted_analysis = true /\
  exists warmup,
    Plan.corrective_warmup
      (RecommendationEngine._adapt_for_posture
         (RecommendationEngine._create_maintenance_plan "beginner") tilted_analysis)
    = Some warmup /\
    List.length warmup = 2%nat.
Proof.
  assert (Hs : Models.has_shoulder_imbalance tilted_analysis = true).
  { unfold Models.has_shoulder_imbalance, Models.and_abs_gt, Py.gt. simpl.
    destruct (Req_dec_T 5 0); [lra|].
    destruct (Rlt_dec 4 (Rabs 5)) as [|Hn]; [reflexivity|].
    exfalso. apply Hn. rewrite Rabs_right; lra. }
  split; [exact Hs|].
  destruct (corrective_warmup_added
              (RecommendationEngine._create_maintenance_plan "beginner") tilted_analysis)
    as (_ & _ & _ & _ & _ & _ & H).
  destruct (H (or_introl Hs)) as (warmup & H1 & H2).
  exists warmup. split; [exact H1|].
  rewrite H2, Hs. reflexivity.
Defined.


(** ** The progress score: bounds and monotonicity *)

(** The score as a function of the raw sum. *)
Lemma progress_score_form (progress : Progress.t) :
  exists raw,
    ProgressTrackingService._calculate_overall_progress_score progress =
    Rmin 10.0 (Rmax 1.0 (Py.round raw 1)) /\
    raw = 5.0
          + match Progress.weight_change progress with
            | Some wd => if Py.lt wd 0 then Rmin (Rabs wd * 0.5) 2.5 else 0
            | None => 0
            end
          + match Progress.posture_improvement progress with
            | Some i => Rmin (Py.get (Progress.posture_score_change i) 0 * 0.5) 2.5
            | None => 0
            end.
Proof.
  eexists. split; [|reflexivity].
  unfold ProgressTrackingService._calculate_overall_progress_score.
  destruct (Progress.weight_change progress) as [wd|],
    (Progress.posture_improvement progress) as [i|];
    try destruct (Py.lt wd 0); do 3 f_equal; lra.
Qed.

Lemma clamped_mono (v w : R) :
  v <= w ->
  Rmin 10.0 (Rmax 1.0 (Py.round v 1)) <= Rmin 10.0 (Rmax 1.0 (Py.round w 1)).
Proof.
  intros H. pose proof (round_mono v w 1 H).
  unfold Rmin, Rmax. repeat destruct (Rle_dec _ _); lra.
Qed.

(** X22: every progress score lies between 1.0 and 10.0, and it is 5.0 when
    the record holds neither a weight change nor a posture improvement. *)
Theorem progress_score_bounds (progress : Progress.t) :
  1 <= ProgressTrackingService._calculate_overall_progress_score progress <= 10 /\
  (Progress.weight_change progress = None ->
   Progress.posture_improvement progress = None ->
   ProgressTrackingService._calculate_overall_progress_score progress = 5).
Proof.
  split.
  - destruct (progress_score_form progress) as (raw & -> & _).
    unfold Rmin, Rmax. repeat destruct (Rle_dec _ _); lra.
  - intros Hw Hp. destruct (progress_score_form progress) as (raw & -> & ->).
    rewrite Hw, Hp.
    replace (5.0 + 0 + 0) with (IZR 50 / 10 ^ 1) by (simpl; lra).
    rewrite round_fixed. simpl. unfold Rmin, Rmax.
    repeat destruct (Rle_dec _ _); lra.
Qed.

Lemma progress_score_bounds_witness :
  ProgressTrackingService._calculate_overall_progress_score
    {| Progress.weight_change := None; Progress.posture_improvement := None |} = 5.
Proof.
  apply (proj2 (progress_score_bounds
           {| Progress.weight_change := None;
              Progress.posture_improvement := None |})); reflexivity.
Defined.

(** X23: a weight gain leaves the score as it is without a weight change, a
    weight loss never lowers it, and a larger posture change never lowers
    it. *)
Theorem progress_score_monotone (wd pd1 pd2 : R) (si : option R)
    (improvement : option Progress.improvement) :
  let score w i :=
    ProgressTrackingService._calculate_overall_progress_score
      {| Progress.weight_change := w; Progress.posture_improvement := i |} in
  let change pd :=
    Some {| Progress.posture_score_change := Some pd;
            Progress.shoulder_improvement := si |} in
  (0 <= wd -> score (Some wd) improvement = score None improvement) /\
  score None improvement <= score (Some wd) improvement /\
  (pd1 <= pd2 -> score (Some wd) (change pd1) <= score (Some wd) (change pd2)).
Proof.
  intros score change. unfold score, change.
  split; [|split].
  - intros Hwd.
    unfold ProgressTrackingService._calculate_overall_progress_score, Py.lt. simpl.
    destruct (Rlt_dec wd 0); [lra | reflexivity].
  - destruct (progress_score_form
                {| Progress.weight_change := None;
                   Progress.posture_improvement := improvement |}) as (r1 & -> & ->).
    destruct (progress_score_form
                {| Progress.weight_change := Some wd;
                   Progress.posture_improvement := improvement |}) as (r2 & -> & ->).
    apply clamped_mono. simpl.
    assert (0 <= (if Py.lt wd 0 then Rmin (Rabs wd * 0.5) 2.5 else 0)).
    { destruct (Py.lt wd 0); [|lra].
      apply Rmin_glb; [|lra]. pose proof (Rabs_pos wd). lra. }
    lra.
  - intros Hpd.
    destruct (progress_score_form
                {| Progress.weight_change := Some wd;
                   Progress.posture_improvement := change pd1 |}) as (r1 & E1 & ->).
    destruct (progress_score_form
                {| Progress.weight_change := Some wd;
                   Progress.posture_improvement := change pd2 |}) as (r2 & E2 & ->).
    unfold change in E1, E2. rewrite E1, E2.
    apply clamped_mono. simpl.
    assert (Rmin (pd1 * 0.5) 2.5 <= Rmin (pd2 * 0.5) 2.5).
    { unfold Rmin. repeat destruct (Rle_dec _ _); lra. }
    lra.
Qed.

Lemma progress_score_monotone_witness :
  ProgressTrackingService._calculate_overall_progress_score slow_month =
  ProgressTrackingService._calculate_overall_progress_score
    {| Progress.weight_change := None;
       Progress.posture_improvement := Progress.posture_improvement slow_month |}.
Proof.
  apply (proj1 (progress_score_monotone 1.0 0 0 None
                  (Progress.posture_improvement slow_month))).
  lra.
Defined.

(** ** The engine and the model flags *)

(** X24: the flags of the stored analysis are plain thresholds, the
    shortcut on a zero value changes nothing: shoulders and hips are out of
    balance exactly when a slope is stored with |slope| > 4, the knees are
    in valgus exactly when an indicator above 10 is stored; the engine gives
    one recommendation for each flag. *)
Theorem engine_thresholds (pa : Models.PostureAnalysis) :
  (Models.has_shoulder_imbalance pa = true <->
   exists s, Models.shoulder_slope_degrees pa = Some s /\ 4 < Rabs s) /\
  (Models.has_hip_imbalance pa = true <->
   exists s, Models.hip_slope_degrees pa = Some s /\ 4 < Rabs s) /\
  (Models.has_knee_valgus pa = true <->
   exists v, Models.knee_valgus_angle pa = Some v /\ 10 < v) /\
  List.length (RecommendationEngine.generate_posture_recommendations pa) =
    ((if Models.has_shoulder_imbalance pa then 1 else 0) +
     (if Models.has_hip_imbalance pa then 1 else 0) +
     (if Models.has_knee_valgus pa then 1 else 0))%nat.
Proof.
  assert (Habs : forall o,
            Models.and_abs_gt o 4 = true <-> exists s, o = Some s /\ 4 < Rabs s).
  { intros o. unfold Models.and_abs_gt, Py.gt. destruct o as [s|].
    - destruct (Req_dec_T s 0) as [->|Hs].
      + split; [discriminate|]. intros (s & H & Hlt). injection H as <-.
        rewrite Rabs_R0 in Hlt. lra.
      + destruct (Rlt_dec 4 (Rabs s)); split; try discriminate; eauto.
        intros (s' & H & Hlt). injection H as <-. contradiction.
    - split; [discriminate|]. intros (s & H & _). discriminate. }
  split; [apply Habs|]. split; [apply Habs|]. split.
  - unfold Models.has_knee_valgus, Py.gt.
    destruct (Models.knee_valgus_angle pa) as [v|].
    + destruct (Req_dec_T v 0) as [->|Hv].
      * split; [discriminate|]. intros (v & H & Hlt). injection H as <-. lra.
      * destruct (Rlt_dec 10 v); split; try discriminate; eauto.
        intros (v' & H & Hlt). injection H as <-. contradiction.
    + split; [discriminate|]. intros (v & H & _). discriminate.
  - unfold RecommendationEngine.generate_posture_recommendations.
    destruct (Models.has_shoulder_imbalance pa), (Models.has_hip_imbalance pa),
      (Models.has_knee_valgus pa); reflexivity.
Qed.


(** ** Level shoulders seen from the front *)

Lemma round_7_5 : Py.round 7.5 1 = 7.5.
Proof.
  replace (Py.round 7.5 1) with (IZR 75 / 10 ^ 1); [simpl; lra | symmetry].
  round_at 75%Z.
Qed.

(** A score is at most 7.5 when the shoulder slope is 180 degrees. *)
Lemma score_with_flat_angle (m : Analysis.t) :
  Analysis.shoulder_slope_degrees m = Some 180 ->
  (forall v, Analysis.knee_valgus_angle m = Some v -> 0 <= v) ->
  PostureAnalysisService._calculate_posture_score m <= 7.5.
Proof.
  intros Hs Hknee. rewrite posture_score_unfold.
  pose proof (capped_nonneg (Analysis.hip_slope_degrees m) Rabs 5 2.0
                ltac:(lra) ltac:(lra) (fun v _ => Rabs_pos v)) as H2.
  pose proof (capped_nonneg (Analysis.head_tilt_degrees m) Rabs 10 1.5
                ltac:(lra) ltac:(lra) (fun v _ => Rabs_pos v)) as H3.
  pose proof (capped_nonneg (Analysis.knee_valgus_angle m) (fun v => v) 20 1.5
                ltac:(lra) ltac:(lra) Hknee) as H4.
  pose proof (fixed_nonneg (Analysis.has_shoulder_imbalance m)) as H5.
  pose proof (fixed_nonneg (Analysis.has_hip_imbalance m)) as H6.
  pose proof (fixed_nonneg (Analysis.forward_head_posture m)) as H7.
  assert (H1 : Reference.capped (Analysis.shoulder_slope_degrees m) Rabs 5 2.5 = 2.5).
  { rewrite Hs. unfold Reference.capped. rewrite Rabs_right by lra.
    unfold Rmin. destruct (Rle_dec _ _); lra. }
  rewrite H1. apply Rmax_lub; [lra|].
  eapply Rle_trans; [apply (round_mono _ 7.5 1); lra|].
  rewrite round_7_5. lra.
Qed.

Lemma shoulder_field_stable (a : Analysis.t) (sc : R) (texts : list string) :
  Analysis.shoulder_slope_degrees
    (Analysis.set_recommendations texts (Analysis.set_posture_score sc a)) =
  Analysis.shoulder_slope_degrees a.
Proof. destruct a. reflexivity. Qed.

(** X25: level shoulders with the right shoulder at the smaller x, as in a
    photograph taken from the front, are given a slope of 180 degrees: the
    imbalance flag is not set, and the stored score is at most 7.5. *)
Theorem level_front_shoulders_penalised (kp : KeypointDict) (l r : Keypoint.t) :
  kp left_shoulder = Some l -> kp right_shoulder = Some r ->
  Keypoint.y l = Keypoint.y r -> Keypoint.x r < Keypoint.x l ->
  let a := PostureAnalysisService._calculate_posture_metrics kp in
  Analysis.shoulder_slope_degrees a = Some 180 /\
  Analysis.has_shoulder_imbalance a = Some false /\
  exists sc, Analysis.posture_score a = Some sc /\ sc <= 7.5.
Proof.
  intros Hl Hr Hy Hx a.
  destruct (metrics_fields kp) as ((S1 & _ & S3 & _) & _).
  fold a in S1, S3.
  assert (Hs : Analysis.shoulder_slope_degrees
                 (PostureAnalysisService._analyze_shoulders kp) = Some 180 /\
               Analysis.has_shoulder_imbalance
                 (PostureAnalysisService._analyze_shoulders kp) = Some false).
  { unfold PostureAnalysisService._analyze_shoulders. rewrite Hl, Hr. simpl.
    split.
    - f_equal. apply slope_level_reversed; lra.
    - f_equal. unfold Py.gt. rewrite Hy.
      replace (Keypoint.y r - Keypoint.y r) with 0 by ring. rewrite Rabs_R0.
      destruct (Rlt_dec 10 0); [lra | reflexivity]. }
  destruct Hs as [Hs1 Hs2]. rewrite Hs1 in S1. rewrite Hs2 in S3.
  split; [exact S1|]. split; [exact S3|].
  pose proof (computed_knee_valgus_nonneg kp) as Hknee.
  unfold a in *. unfold PostureAnalysisService._calculate_posture_metrics in *.
  set (m := Analysis.update _ (PostureAnalysisService._analyze_knees kp)) in *.
  rewrite knee_field_stable in Hknee. rewrite shoulder_field_stable in S1.
  exists (PostureAnalysisService._calculate_posture_score m).
  split; [apply stored_score | apply score_with_flat_angle; assumption].
Qed.

Lemma level_front_shoulders_penalised_witness :
  Analysis.shoulder_slope_degrees
    (PostureAnalysisService._calculate_posture_metrics level_front_pose) = Some 180 /\
  Analysis.has_shoulder_imbalance
    (PostureAnalysisService._calculate_posture_metrics level_front_pose) = Some false.
Proof.
  destruct (level_front_shoulders_penalised level_front_pose
              (point 300 200) (point 100 200) eq_refl eq_refl eq_refl)
    as (H1 & H2 & _).
  - simpl. lra.
  - split; assumption.
Defined.
